(** * Single-cell analysis pipeline: a shallow embedding and its properties

    The development embeds the shared processing and clustering modules
    ([shared_utils/sc_processor.py], [shared_utils/sc_clustering.py]), the
    GSE41265 loader helpers ([clean_and_validate_df],
    [merge_expression_tables], the series of [plot_qc_metrics]), the sample
    labelling of GSE41265 ([_parse_condition_row]) and the entry guards of
    the dataset loaders.

    Tables are pandas [DataFrame]s: a list of row labels, a list of column
    labels and a row-major block of cells.  Expression values are IEEE-754
    binary64 numbers ([float], the kernel's primitive floats), as numpy's
    [float64].  Python exceptions are an explicit [result]; printed warnings
    are collected as [event]s.  Routines of numpy, pandas and scikit-learn
    whose rounding, tie-breaking, search or argument checking is internal to
    the library (sums, means, logarithms, the order of equal keys in a
    quicksort, the conversion of missing values to strings, the standard
    scaler, PCA, the clustering algorithms and agreement scores) are fields
    of the interfaces [NumericKernels], [StandardScaler] and [SkLearn]; the
    file system is the interface [DatasetFiles]. *)

From Stdlib Require Import ZArith Floats Lia DecimalString.
From stdpp Require Import list strings pretty sorting gmap.

Set Default Proof Using "Type".

(** ** Exceptions, printed messages and the interpreter monad *)

Inductive exn : Type :=
| ValueError (msg : string)
| KeyError (msg : string)
| FileNotFoundError (msg : string)
| OverflowError (msg : string)
| InvalidIndexError (msg : string)       (* [pandas.errors.InvalidIndexError] *)
| LibraryError (msg : string).

(** [str(e)]: the message; a [KeyError] shows its key between quotes. *)
Definition exn_str (e : exn) : string :=
  match e with
  | ValueError msg | FileNotFoundError msg | OverflowError msg
  | InvalidIndexError msg | LibraryError msg => msg
  | KeyError key => "'" +:+ key +:+ "'"
  end.

Inductive result (A : Type) : Type :=
| Ok (a : A)
| Raise (e : exn).
Arguments Ok {A} a.
Arguments Raise {A} e.

(** The warnings and errors the code prints.  Purely informational progress
    lines (shapes, counts of kept rows) are not recorded. *)
Inductive event : Type :=
| WarnEmptyInput                       (* "Warning: Input DataFrame is empty." *)
| WarnNoSamplesPassed                  (* "No samples passed QC filtering." *)
| WarnDroppingSamples (n : nat)        (* "Warning: Dropping {n} samples not found in metadata." *)
| ErrNoTargetColumns (target_cols : list string)
                                       (* "Error: None of the target columns ... found in metadata." *)
| ModelFailed (method_name : string) (e : exn)
                                       (* "[{method_name} Failed: {e}]" *)
| ErrEmptySraTable                     (* "Error: SRA run table is empty." *)
| WarnDroppingArtifact (index_name : string)
                                       (* " > Dropping artifact row matching index name: ..." *)
| WarnCoercing                         (* " > Warning: Could not strictly convert to float. ..." *)
| WarnDuplicates (n : nat)             (* " > Handling {n} duplicate gene entries by summing." *)
| WarnFillingNaN                       (* " > Filling NaN values with 0." *)
| ErrNoIntersection                    (* "Error: No intersection between File GSM IDs and SRA GSM IDs." *)
| ErrLoadingFile (filename : string) (e : exn)
                                       (* "Error loading {filename}: {e}" *)
| WarnFailedToLoad (filename : string) (e : exn).
                                       (* "Warning: Failed to load {filename}. Error: {e}" *)

(** A computation prints events and then returns or raises. *)
Definition Py (A : Type) : Type := list event * result A.

Definition py_ret {A} (a : A) : Py A := ([], Ok a).
Definition py_raise {A} (e : exn) : Py A := ([], Raise e).
Definition py_print (e : event) : Py unit := ([e], Ok tt).
Definition py_lift {A} (r : result A) : Py A := ([], r).

Definition py_bind {A B} (m : Py A) (f : A → Py B) : Py B :=
  match m with
  | (out, Ok a) => let '(out', r) := f a in (out ++ out', r)
  | (out, Raise e) => (out, Raise e)
  end.

Notation "'do' x <- m ; k" := (py_bind m (λ x, k))
  (at level 10, x name, m at level 100, k at level 200).
Notation "'do_' m ; k" := (py_bind m (λ _, k))
  (at level 10, m at level 100, k at level 200).

Definition res_bind {A B} (r : result A) (f : A → result B) : result B :=
  match r with
  | Ok a => f a
  | Raise e => Raise e
  end.

Notation "'try' x <- m ; k" := (res_bind m (λ x, k))
  (at level 10, x name, m at level 100, k at level 200).

Definition printed {A} (m : Py A) : list event := fst m.
Definition outcome {A} (m : Py A) : result A := snd m.

(** ** Tables *)

Definition label : Type := string.

Record DataFrame (V : Type) : Type := mkDF {
  index : list label;       (* row labels *)
  columns : list label;     (* column labels *)
  values : list (list V)    (* one list of cells per row *)
}.
Arguments mkDF {V} index columns values.
Arguments index {V} d.
Arguments columns {V} d.
Arguments values {V} d.

Record Series (V : Type) : Type := mkSeries {
  s_index : list label;
  s_values : list V
}.
Arguments mkSeries {V} s_index s_values.
Arguments s_index {V} s.
Arguments s_values {V} s.

(** Every pandas frame is rectangular. *)
Definition wf_frame {V} (df : DataFrame V) : Prop :=
  length (values df) = length (index df) ∧
  Forall (λ row, length row = length (columns df)) (values df).

Definition wf_series {V} (s : Series V) : Prop :=
  length (s_values s) = length (s_index s).

(** [pd.DataFrame()] *)
Definition pd_DataFrame {V} : DataFrame V := mkDF [] [] [].

(** [df.empty]: some axis has length 0. *)
Definition empty {V} (df : DataFrame V) : bool :=
  bool_decide (index df = []) || bool_decide (columns df = []).

(** [df.shape] *)
Definition shape {V} (df : DataFrame V) : nat * nat :=
  (length (index df), length (columns df)).

(** Python objects that occur as cells of metadata and raw tables. *)
Inductive pyval : Type :=
| PInt (z : Z)
| PFloat (x : float)
| PStr (s : string)
| PBool (b : bool)
| PNone.

(** Selection with a boolean mask of the same length ([df.loc[mask]],
    [df.loc[:, mask]] with a mask computed from [df] itself). *)
Fixpoint mask_select {A} (mask : list bool) (l : list A) : list A :=
  match mask, l with
  | b :: mask', x :: l' =>
      if b then x :: mask_select mask' l' else mask_select mask' l'
  | _, _ => []
  end.

Definition loc_columns_mask {V} (df : DataFrame V) (mask : list bool) : DataFrame V :=
  mkDF (index df) (mask_select mask (columns df)) (map (mask_select mask) (values df)).

Definition loc_rows_mask {V} (df : DataFrame V) (mask : list bool) : DataFrame V :=
  mkDF (mask_select mask (index df)) (columns df) (mask_select mask (values df)).

(** The cells of column number [j]. *)
Definition column_values {V} (vals : list (list V)) (j : nat) : list V :=
  omap (λ row, row !! j) vals.

(** [df > t], cell by cell; a comparison with NaN is [False]. *)
Definition frame_gt (df : DataFrame float) (t : float) : DataFrame bool :=
  mkDF (index df) (columns df) (map (map (λ x, PrimFloat.ltb t x)) (values df)).

Definition count_true (l : list bool) : Z :=
  Z.of_nat (length (filter (λ b, b = true) l)).

(** [.sum(axis=0)] and [.sum(axis=1)] of a boolean frame. *)
Definition sum_axis0 (m : DataFrame bool) : Series Z :=
  mkSeries (columns m)
    (map (λ j, count_true (column_values (values m) j)) (seq 0 (length (columns m)))).

Definition sum_axis1 (m : DataFrame bool) : Series Z :=
  mkSeries (index m) (map count_true (values m)).

(** [s >= n] *)
Definition series_ge (s : Series Z) (n : Z) : list bool :=
  map (λ c, bool_decide (n ≤ c)%Z) (s_values s).

(** Label-based selection [s[keys]] / [s.loc[keys]]: for every key, all
    entries carrying that label, in index order; [KeyError] for a key that
    does not occur. *)
Definition label_matches {V} (idx : list label) (vals : list V) (key : label)
    : list (label * V) :=
  filter (λ p, p.1 = key) (zip idx vals).

Fixpoint loc_labels {V} (idx : list label) (vals : list V) (keys : list label)
    : result (list (label * V)) :=
  match keys with
  | [] => Ok []
  | key :: keys' =>
      match label_matches idx vals key with
      | [] => Raise (KeyError key)
      | hits =>
          match loc_labels idx vals keys' with
          | Ok rest => Ok (hits ++ rest)
          | Raise e => Raise e
          end
      end
  end.

Definition series_getitem {V} (s : Series V) (keys : list label) : result (Series V) :=
  match loc_labels (s_index s) (s_values s) keys with
  | Ok hits => Ok (mkSeries hits.*1 hits.*2)
  | Raise e => Raise e
  end.

Definition series_map {V W} (f : V → W) (s : Series V) : Series W :=
  mkSeries (s_index s) (f <$> s_values s).

(** [Series.reindex(idx)] on a unique index: missing labels give NaN. *)
Definition series_reindex (s : Series pyval) (idx : list label) : list pyval :=
  map (λ l, match label_matches (s_index s) (s_values s) l with
            | (_, v) :: _ => v
            | [] => PFloat nan
            end) idx.

(** [df[name] = s] for a new column [name]: the series is taken as it is
    when its index equals the frame's, and is re-indexed otherwise, which
    pandas refuses when the series' index has duplicates.  A frame without
    rows adopts the index of the series. *)
Definition frame_setitem (df : DataFrame pyval) (name : label) (s : Series pyval)
    : result (DataFrame pyval) :=
  if bool_decide (index df = []) then
    Ok (mkDF (s_index s) (columns df ++ [name])
          (map (λ v, replicate (length (columns df)) (PFloat nan) ++ [v]) (s_values s)))
  else if bool_decide (s_index s = index df) then
    Ok (mkDF (index df) (columns df ++ [name])
          (zip_with (λ row v, row ++ [v]) (values df) (s_values s)))
  else if bool_decide (NoDup (s_index s)) then
    Ok (mkDF (index df) (columns df ++ [name])
          (zip_with (λ row v, row ++ [v]) (values df) (series_reindex s (index df))))
  else Raise (ValueError "cannot reindex on an axis with duplicate labels").

(** [pd.DataFrame(index=idx)]: rows without columns. *)
Definition frame_of_index {V} (idx : list label) : DataFrame V :=
  mkDF idx [] (replicate (length idx) []).

(** ** Numerical library routines *)

Class NumericKernels : Type := {
  np_nansum : list float → float;     (* [.sum] along an axis *)
  np_nanmean : list float → float;    (* [.mean(axis=1)] of one row *)
  np_nanvar : list float → float;     (* [.var(axis=1)] of one row, ddof = 1 *)
  np_log2 : float → float;            (* [np.log2] *)
  np_log1p : float → float;           (* [np.log1p], ln(1 + x) *)
  py_round3 : float → float;          (* [round(x, 3)] *)
  float_str : float → string;         (* [str(x)] *)
  (** [Series.astype(str)] of one cell: [str(v)] before pandas 3; from
      pandas 3 on a missing value stays missing *)
  astype_str : pyval → pyval;
  (** numpy's quicksort is not stable.  For a list of keys and two
      positions [i < j] that hold equal keys, [quicksort_swaps keys i j]
      tells whether the entry at [j] comes out before the entry at [i]. *)
  quicksort_swaps : list float → nat → nat → bool
}.

(** ** [shared_utils/sc_processor.py] *)

Section Processor.
Context `{NumericKernels}.

(** [df.sum(axis=0)] of a float frame *)
Definition sum_columns (df : DataFrame float) : Series float :=
  mkSeries (columns df)
    (map (λ j, np_nansum (column_values (values df) j)) (seq 0 (length (columns df)))).

Definition filter_tpm_matrix (df : DataFrame float) (min_tpm : float)
    (min_genes_per_sample min_samples_per_gene : Z)
    : Py (DataFrame float * DataFrame pyval) :=
  if empty df then
    do_ py_print WarnEmptyInput;
    py_ret (pd_DataFrame, pd_DataFrame)
  else
    (* 1. Sample QC *)
    let genes_detected := sum_axis0 (frame_gt df min_tpm) in
    let samples_mask := series_ge genes_detected min_genes_per_sample in
    let df_filtered_samples := loc_columns_mask df samples_mask in
    if empty df_filtered_samples then
      do_ py_print WarnNoSamplesPassed;
      py_ret (pd_DataFrame, pd_DataFrame)
    else
      (* 2. Gene QC *)
      let samples_per_gene := sum_axis1 (frame_gt df_filtered_samples min_tpm) in
      let genes_mask := series_ge samples_per_gene min_samples_per_gene in
      let df_final := loc_rows_mask df_filtered_samples genes_mask in
      (* 3. Metrics *)
      let qc_metrics := frame_of_index (columns df_final) in
      do detected <- py_lift (series_getitem genes_detected (columns df_final));
      do qc_metrics <- py_lift
        (frame_setitem qc_metrics "n_genes_detected" (series_map PInt detected));
      do qc_metrics <- py_lift
        (frame_setitem qc_metrics "total_tpm" (series_map PFloat (sum_columns df_final)));
      py_ret (df_final, qc_metrics).

End Processor.

(** ** The two-stage filter, in the words of its description

    Positions are counted from 0; [cell df i j] is the value of gene [i] in
    sample [j]. *)

Definition cell {V} (df : DataFrame V) (i j : nat) : option V :=
  values df !! i ≫= λ row, row !! j.

(** A gene is detected in a sample when its value is strictly greater than
    the threshold. *)
Definition detected (min_tpm : float) (c : option float) : bool :=
  match c with
  | Some x => PrimFloat.ltb min_tpm x
  | None => false
  end.

Definition genes_detected_in_sample (df : DataFrame float) (min_tpm : float)
    (j : nat) : Z :=
  Z.of_nat (length (filter (λ i, detected min_tpm (cell df i j) = true)
                      (seq 0 (length (index df))))).

Definition surviving_samples (df : DataFrame float) (min_tpm : float)
    (min_genes_per_sample : Z) : list nat :=
  filter (λ j, (min_genes_per_sample ≤ genes_detected_in_sample df min_tpm j)%Z)
    (seq 0 (length (columns df))).

(** The gene-stage count runs over the surviving samples [kept] only. *)
Definition samples_detecting_gene (df : DataFrame float) (min_tpm : float)
    (kept : list nat) (i : nat) : Z :=
  Z.of_nat (length (filter (λ j, detected min_tpm (cell df i j) = true) kept)).

Definition surviving_genes (df : DataFrame float) (min_tpm : float)
    (min_samples_per_gene : Z) (kept : list nat) : list nat :=
  filter (λ i, (min_samples_per_gene ≤ samples_detecting_gene df min_tpm kept i)%Z)
    (seq 0 (length (index df))).

(** The entries of [l] at the positions [ps], in the order of [ps]. *)
Definition select_at {A} (ps : list nat) (l : list A) : list A :=
  omap (λ p, l !! p) ps.

(** The frame made of the rows [rows] and columns [cols] of [df]. *)
Definition submatrix {V} (df : DataFrame V) (rows cols : list nat) : DataFrame V :=
  mkDF (select_at rows (index df)) (select_at cols (columns df))
       (map (select_at cols) (select_at rows (values df))).

(** Strictly increasing positions below [n]. *)
Definition positions_of (n : nat) (ps : list nat) : Prop :=
  StronglySorted lt ps ∧ Forall (λ p, p < n) ps.

(** [r] is [df] restricted to some of its rows and some of its columns,
    in their original order, with the cells unchanged. *)
Definition is_submatrix {V} (r df : DataFrame V) : Prop :=
  ∃ rows cols,
    positions_of (length (index df)) rows ∧
    positions_of (length (columns df)) cols ∧
    r = submatrix df rows cols.


(** The description of the filter, as a predicate on a returned matrix:
    exactly the surviving samples and exactly the surviving genes are kept. *)
Definition keeps_exactly {V} (r df : DataFrame V) (genes kept : list nat) : Prop :=
  index r = select_at genes (index df) ∧ columns r = select_at kept (columns df).

(** The label [k] occurs exactly once in [idx]. *)
Definition occurs_once (idx : list label) (k : label) : Prop :=
  filter (λ l, l = k) idx = [k].

(** ** The object store

    Python passes frames by reference.  A store maps references to the
    frames they denote; a call reads its argument through its reference and
    allocates its results. *)

Inductive object : Type :=
| ExprFrame (df : DataFrame float)
| ObjFrame (df : DataFrame pyval).

Definition ref : Type := nat.

Definition alloc (o : object) (h : gmap ref object) : ref * gmap ref object :=
  let r := fresh (dom h) in (r, <[r := o]> h).

Section ProcessorCalls.
Context `{NumericKernels}.

(** A call [filter_tpm_matrix(df, ...)] with [df] bound to the reference
    [r].  The body only reads [df]: the comparison, the sums and both
    mask selections build new objects, and nothing is assigned into [df]. *)
Definition filter_tpm_matrix_call (r : ref) (min_tpm : float)
    (min_genes_per_sample min_samples_per_gene : Z) (h : gmap ref object)
    : Py (ref * ref * gmap ref object) :=
  match h !! r with
  | Some (ExprFrame df) =>
      do res <- filter_tpm_matrix df min_tpm min_genes_per_sample min_samples_per_gene;
      let '(r1, h1) := alloc (ExprFrame res.1) h in
      let '(r2, h2) := alloc (ObjFrame res.2) h1 in
      py_ret (r1, r2, h2)
  | _ => py_raise (LibraryError "not an expression matrix")
  end.

End ProcessorCalls.

(** ** Integers as binary64 numbers *)

(** The float nearest to an integer (ties to even), as [float(z)] and the
    conversion of an [int64] to [float64] compute it; an integer beyond
    the largest float goes to infinity. *)
Definition float_of_Z (z : Z) : float :=
  SF2Prim (binary_normalize prec emax z 0 false).

Definition float_of_nat (n : nat) : float := float_of_Z (Z.of_nat n).

(** ** An instance of the numerical routines, for running examples

    A stand-in, not the summation order of numpy: reductions go from left
    to right in binary64 arithmetic and skip NaN, which agrees with every
    order of summation on the tables of the examples, whose sums are exact.
    The logarithms and the decimal rounding have no counterpart among the
    primitive float operations and are stood in for by the identity; the
    conversion to strings is that of pandas 2, the sort is stable.  The
    properties below hold for every instance. *)

Definition drop_nan (l : list float) : list float :=
  filter (λ x, PrimFloat.is_nan x = false) l.

Definition seq_sum (l : list float) : float :=
  fold_left PrimFloat.add (drop_nan l) 0%float.

Definition seq_mean (l : list float) : float :=
  PrimFloat.div (seq_sum l) (float_of_nat (length (drop_nan l))).

Definition seq_var (l : list float) : float :=
  let m := seq_mean l in
  PrimFloat.div
    (seq_sum (map (λ x, PrimFloat.mul (PrimFloat.sub x m) (PrimFloat.sub x m)) (drop_nan l)))
    (PrimFloat.sub (float_of_nat (length (drop_nan l))) 1%float).

Definition example_kernels : NumericKernels := {|
  np_nansum := seq_sum;
  np_nanmean := seq_mean;
  np_nanvar := seq_var;
  np_log2 := λ x, x;
  np_log1p := λ x, x;
  py_round3 := λ x, x;
  float_str := λ _, "nan";
  astype_str := λ v,
    match v with
    | PStr s => PStr s
    | PInt z => PStr (pretty z)
    | PFloat _ => PStr "nan"
    | PBool b => PStr (if b then "True" else "False")
    | PNone => PStr "None"
    end;
  quicksort_swaps := λ _ _ _, false
|}.

(** ** Example inputs and the descriptions as stated *)

Definition tpm_example : DataFrame float :=
  mkDF ["g1"; "g2"; "g3"] ["s1"; "s2"; "s3"]
       [[2; 0; 5]; [3; 0; 0]; [0.5; 4; 2]]%float.

(** The description as stated, for every threshold, without the provisos. *)
Definition two_stage_as_stated `{NumericKernels} (df : DataFrame float)
    (min_tpm : float) (min_genes_per_sample min_samples_per_gene : Z) : Prop :=
  let kept := surviving_samples df min_tpm min_genes_per_sample in
  let genes := surviving_genes df min_tpm min_samples_per_gene kept in
  ∃ r qc,
    outcome (filter_tpm_matrix df min_tpm min_genes_per_sample min_samples_per_gene)
      = Ok (r, qc) ∧
    keeps_exactly r df genes kept.


(** ** Order of binary64 numbers

    [sf_rank] places the numbers that are not NaN on a lexicographic scale
    (class, exponent, mantissa) that [<=?] follows. *)

Definition sf_rank (f : spec_float) : Z * Z * Z :=
  match f with
  | S754_zero _ => (0, 0, 0)
  | S754_infinity true => (-2, 0, 0)
  | S754_infinity false => (2, 0, 0)
  | S754_nan => (0, 0, 0)
  | S754_finite true m e => (-1, - e, - Z.pos m)
  | S754_finite false m e => (1, e, Z.pos m)
  end%Z.

Definition lex_le (a b : Z * Z * Z) : Prop :=
  (a.1.1 < b.1.1 ∨ (a.1.1 = b.1.1 ∧ (a.1.2 < b.1.2 ∨ (a.1.2 = b.1.2 ∧ a.2 ≤ b.2))))%Z.

(** ** Sorting by a float key, largest first

    A stable sort: entries with equal keys keep their order.  This is the
    order of [nlargest] (merge sort on the negated values). *)

Fixpoint insert_desc {A} (key : A → float) (x : A) (l : list A) : list A :=
  match l with
  | [] => [x]
  | y :: l' =>
      if PrimFloat.leb (key y) (key x) then x :: y :: l'
      else y :: insert_desc key x l'
  end.

Definition sort_desc {A} (key : A → float) (l : list A) : list A :=
  foldr (insert_desc key) [] l.

(** The same without stability, as [sort_values] sorts (quicksort): every
    entry travels with its position in the input, and [swaps i j] tells,
    for the entries at positions [i < j] when their keys are equal, whether
    the later one comes out first. *)
Fixpoint insert_desc_by {A} (key : A → float) (swaps : nat → nat → bool)
    (x : nat * A) (l : list (nat * A)) : list (nat * A) :=
  match l with
  | [] => [x]
  | y :: l' =>
      if PrimFloat.leb (key y.2) (key x.2) &&
         negb (PrimFloat.eqb (key y.2) (key x.2) && swaps x.1 y.1)
      then x :: y :: l'
      else y :: insert_desc_by key swaps x l'
  end.

Definition quicksort_desc {A} (key : A → float) (swaps : nat → nat → bool)
    (l : list A) : list A :=
  (foldr (insert_desc_by key swaps) [] (imap pair l)).*2.

(** [a] comes before [b] when sorting by [key], largest first. *)
Definition ge_key {A} (key : A → float) (a b : A) : Prop :=
  PrimFloat.leb (key b) (key a) = true.

(** [l] is in descending order of [key], NaN keys last. *)
Definition descending {A} (key : A → float) (l : list A) : Prop :=
  ∀ i j a b, i < j → l !! i = Some a → l !! j = Some b →
    PrimFloat.is_nan (key b) = true ∨
    (PrimFloat.is_nan (key a) = false ∧ PrimFloat.leb (key b) (key a) = true).

(** ** More pandas operations *)

Definition frame_map {V W} (f : V → W) (df : DataFrame V) : DataFrame W :=
  mkDF (index df) (columns df) (map (map f) (values df)).

(** [df.loc[keys]] on the rows. *)
Definition frame_loc_rows {V} (df : DataFrame V) (keys : list label)
    : result (DataFrame V) :=
  match loc_labels (index df) (values df) keys with
  | Ok hits => Ok (mkDF hits.*1 (columns df) hits.*2)
  | Raise e => Raise e
  end.

(** [idx.isin(keys)] *)
Definition index_isin (idx keys : list label) : list bool :=
  map (λ l, bool_decide (l ∈ keys)) idx.

(** [s.fillna(0)] *)
Definition fillna0 (x : float) : float :=
  if PrimFloat.is_nan x then 0%float else x.

(** [s.nlargest(n)] (keep = 'first').  Nothing for [n <= 0]; otherwise the
    [n] first entries of: the entries that are not NaN, largest first,
    followed by the NaN entries.  On the merge-sort path the NaN entries
    are found by dropping the labels of the others. *)
Definition nlargest (n : Z) (s : Series float) : Series float :=
  if bool_decide (n ≤ 0)%Z then mkSeries [] []
  else
    let entries := zip (s_index s) (s_values s) in
    let dropped := filter (λ p, PrimFloat.is_nan p.2 = false) entries in
    let nans :=
      if bool_decide (Z.of_nat (length entries) ≤ n)%Z
      then filter (λ p, PrimFloat.is_nan p.2 = true) entries
      else filter (λ p, p.1 ∉ dropped.*1) entries in
    let top := take (Z.to_nat n) (sort_desc snd dropped ++ nans) in
    mkSeries top.*1 top.*2.

(** [pd.DataFrame(values, index=..., columns=...)]: the block must have the
    shape the labels imply. *)
Definition frame_of_values {V} (vals : list (list V)) (idx cols : list label)
    : result (DataFrame V) :=
  if bool_decide (length vals = length idx) &&
     forallb (λ row, bool_decide (length row = length cols)) vals
  then Ok (mkDF idx cols vals)
  else Raise (ValueError "Shape of passed values does not match the indices").

(** Transposition of an [n_rows × n_cols] block, and [df.T]. *)
Definition block_T {V} (n_cols : nat) (m : list (list V)) : list (list V) :=
  map (column_values m) (seq 0 n_cols).

Definition frame_T {V} (df : DataFrame V) : DataFrame V :=
  mkDF (columns df) (index df) (block_T (length (columns df)) (values df)).

(** ** scikit-learn

    [StandardScaler().fit_transform(X)] first validates its input, a frame
    of samples × features: [scaler_check] is that validation, which raises
    for what the library refuses (an infinite value, for one).  It then
    standardises every feature, that is every column of [X], on its own:
    [standardize] is the fitted transform of one feature, given all its
    sample values, computed in binary64 arithmetic. *)

Class StandardScaler : Type := {
  scaler_check : DataFrame float → result unit;
  standardize : list float → list float;
  standardize_length : ∀ xs, length (standardize xs) = length xs
}.

(** [StandardScaler().fit_transform(X)] *)
Definition fit_transform `{StandardScaler} (X : DataFrame float)
    : result (list (list float)) :=
  try _ <- scaler_check X;
  Ok (block_T (length (values X))
        (map standardize (block_T (length (columns X)) (values X)))).

Inductive clustering_method : Type := KMeans | HClust | Spectral.

Definition method_name (m : clustering_method) : string :=
  match m with
  | KMeans => "KMeans"
  | HClust => "HClust"
  | Spectral => "Spectral"
  end.

(** A fitted [PCA] object, as far as the pipeline looks at it. *)
Record PCA : Type := mkPCA { n_components_ : Z }.

Class SkLearn : Type := {
  (** [PCA(n_components=n, random_state=42).fit_transform(X)], with the
      fitted [explained_variance_ratio_] *)
  PCA_fit_transform : Z → list (list float) → result (list (list float) * list float);
  (** the coordinates have one row per sample and [n] columns *)
  PCA_fit_transform_shape : ∀ n X Y evr,
    PCA_fit_transform n X = Ok (Y, evr) →
    length Y = length X ∧ Forall (λ row, length row = Z.to_nat n) Y;
  (** [model_func(k).fit_predict(X)] for the three configured models *)
  cluster_fit_predict : clustering_method → Z → list (list float) → result (list Z);
  (** the agreement scores of true labels, as [astype(str)] returns them,
      and predicted labels *)
  adjusted_mutual_info_score : list pyval → list Z → result float;
  adjusted_rand_score : list pyval → list Z → result float
}.

Section Processor2.
Context `{NumericKernels} `{SkLearn}.

Definition log_transform (df : DataFrame float) (method : string) : DataFrame float :=
  if empty df then df
  else if bool_decide (method = "log2") then
    frame_map np_log2 (frame_map (λ x, PrimFloat.add x 1%float) df)
  else
    frame_map np_log1p df.

(** The dispersion the code computes for one gene row. *)
Definition epsilon : float := 0x1.12e0be826d695p-30%float.   (* 1e-9 *)

Definition gene_dispersion (row : list float) : float :=
  fillna0 (PrimFloat.div (np_nanvar row) (PrimFloat.add (np_nanmean row) epsilon)).

Definition select_highly_variable_genes (df : DataFrame float) (n_top_genes : Z)
    : result (DataFrame float * DataFrame pyval) :=
  if empty df then Ok (pd_DataFrame, pd_DataFrame)
  else
    let mean_expr := mkSeries (index df) (map np_nanmean (values df)) in
    let var_expr := mkSeries (index df) (map np_nanvar (values df)) in
    let dispersion :=
      mkSeries (index df)
        (map fillna0
           (zip_with PrimFloat.div (s_values var_expr)
              (map (λ m, PrimFloat.add m epsilon) (s_values mean_expr)))) in
    let n_top_genes := Z.min n_top_genes (Z.of_nat (length (s_index dispersion))) in
    let hvg_indices := s_index (nlargest n_top_genes dispersion) in
    match frame_loc_rows df hvg_indices with
    | Raise e => Raise e
    | Ok df_hvg =>
        let is_hvg := index_isin (s_index dispersion) hvg_indices in
        let metrics :=
          mkDF (index df) ["mean"; "variance"; "dispersion"; "is_hvg"]
            (zip_with (λ mv db, [PFloat mv.1; PFloat mv.2; PFloat db.1; PBool db.2])
               (zip (s_values mean_expr) (s_values var_expr))
               (zip (s_values dispersion) is_hvg)) in
        Ok (df_hvg, metrics)
    end.

Definition run_pca_pipeline (df_scaled : DataFrame float) (n_components : Z)
    : result (DataFrame float * list float * option PCA) :=
  if empty df_scaled then Ok (pd_DataFrame, [], None)
  else
    let X := frame_T df_scaled in
    let n_samples := Z.of_nat (length (index X)) in
    let n_features := Z.of_nat (length (columns X)) in
    let actual_n := Z.min (Z.min n_components n_samples) n_features in
    match PCA_fit_transform actual_n (values X) with
    | Raise e => Raise e
    | Ok (X_pca, explained_variance_ratio) =>
        let pc_cols :=
          map (λ i : nat, "PC" +:+ pretty (i + 1)) (seq 0 (Z.to_nat actual_n)) in
        match frame_of_values X_pca (index X) pc_cols with
        | Raise e => Raise e
        | Ok df_pca => Ok (df_pca, explained_variance_ratio, Some (mkPCA actual_n))
        end
    end.

End Processor2.

Definition scale_data `{StandardScaler} (df : DataFrame float)
    : result (DataFrame float) :=
  if empty df then Ok pd_DataFrame
  else
    (* Transpose -> Scale -> Transpose back *)
    let X := frame_T df in
    try scaled <- fit_transform X;
    let scaled_values := block_T (length (columns X)) scaled in
    frame_of_values scaled_values (index df) (columns df).

(** The names [PC1 .. PCn]. *)
Definition pc_names (n : nat) : list label :=
  map (λ i : nat, "PC" +:+ pretty i) (seq 1 n).

(** ** An instance of the scikit-learn routines, for running examples

    A stand-in that keeps the argument checks of the library: PCA accepts
    [0 <= n <= min(n_samples, n_features)]; KMeans and the agglomerative
    model reject fewer samples than clusters; the spectral model builds a
    10-nearest-neighbour graph and rejects fewer than 10 samples; the
    scores reject label lists of different lengths.  The numbers returned
    on success are placeholders: the properties below hold for every
    instance. *)

Definition example_PCA (n : Z) (X : list (list float))
    : result (list (list float) * list float) :=
  if bool_decide (0 ≤ n ≤ Z.of_nat (length X) `min` Z.of_nat (length (hd [] X)))%Z
  then Ok (map (resize (Z.to_nat n) 0%float) X, replicate (Z.to_nat n) 0%float)
  else Raise (ValueError "n_components must be between 0 and min(n_samples, n_features)").

Definition example_fit_predict (m : clustering_method) (k : Z)
    (X : list (list float)) : result (list Z) :=
  let n_samples := Z.of_nat (length X) in
  if bool_decide (k ≤ 0)%Z then
    Raise (ValueError "n_clusters must be an int in the range [1, inf)")
  else match m with
  | KMeans | HClust =>
      if bool_decide (n_samples < k)%Z
      then Raise (ValueError "n_samples should be >= n_clusters")
      else Ok (map (λ i, Z.of_nat i `mod` k)%Z (seq 0 (length X)))
  | Spectral =>
      if bool_decide (n_samples < 10)%Z
      then Raise (ValueError "Expected n_neighbors <= n_samples_fit")
      else Ok (map (λ i, Z.of_nat i `mod` k)%Z (seq 0 (length X)))
  end.

Definition example_score (labels_true : list pyval) (labels_pred : list Z)
    : result float :=
  if bool_decide (length labels_true = length labels_pred)
  then Ok (PrimFloat.div 1%float (float_of_nat (S (length (remove_dups labels_pred)))))
  else Raise (ValueError "Found input variables with inconsistent numbers of samples").

Lemma example_PCA_shape (n : Z) (X Y : list (list float)) (evr : list float) :
  example_PCA n X = Ok (Y, evr) →
  length Y = length X ∧ Forall (λ row, length row = Z.to_nat n) Y.
Proof.
  unfold example_PCA. case_bool_decide; [|done]. intros [= <- _].
  split; [by rewrite length_map|].
  apply Forall_forall. intros row Hrow.
  apply list_elem_of_fmap in Hrow as (row0 & -> & _). apply length_resize.
Qed.

Definition example_sklearn : SkLearn := {|
  PCA_fit_transform := example_PCA;
  PCA_fit_transform_shape := example_PCA_shape;
  cluster_fit_predict := example_fit_predict;
  adjusted_mutual_info_score := example_score;
  adjusted_rand_score := example_score
|}.

Definition hvg_example : DataFrame float :=
  mkDF ["g1"; "g2"; "g3"; "g4"] ["s1"; "s2"; "s3"]
       [[2; 0; 4]; [3; 0; 0]; [1; 1; 1]; [0; 1; 5]]%float.

(** The selection as stated: [min(n_top_genes, number of genes)] rows. *)
Definition hvg_as_stated `{NumericKernels} (df : DataFrame float)
    (n_top_genes : Z) : Prop :=
  ∃ df_hvg metrics,
    select_highly_variable_genes df n_top_genes = Ok (df_hvg, metrics) ∧
    Z.of_nat (length (index df_hvg)) =
      Z.min n_top_genes (Z.of_nat (length (index df))).

(** The selection of components as stated: for every request the
    coordinates come back, indexed by the samples, with the columns [PC1]
    to [PC{actual_n}]. *)
Definition pca_as_stated `{SkLearn} (df_scaled : DataFrame float)
    (n_components : Z) : Prop :=
  let actual_n :=
    Z.min (Z.min n_components (Z.of_nat (length (columns df_scaled))))
          (Z.of_nat (length (index df_scaled))) in
  ∃ df_pca explained pca,
    run_pca_pipeline df_scaled n_components = Ok (df_pca, explained, pca) ∧
    index df_pca = columns df_scaled ∧
    columns df_pca = pc_names (Z.to_nat actual_n).

(** ** [shared_utils/sc_clustering.py] *)

(** A Python [dict] with string keys, in insertion order. *)
Definition dict : Type := list (string * pyval).

Fixpoint dict_set (d : dict) (k : string) (v : pyval) : dict :=
  match d with
  | [] => [(k, v)]
  | (k', v') :: d' =>
      if bool_decide (k' = k) then (k, v) :: d' else (k', v') :: dict_set d' k v
  end.

Fixpoint dict_get (d : dict) (k : string) : option pyval :=
  match d with
  | [] => None
  | (k', v') :: d' => if bool_decide (k' = k) then Some v' else dict_get d' k
  end.

(** The keys of all records, each once, in order of first appearance. *)
Definition all_keys (rows : list dict) : list string :=
  foldl (λ acc d, acc ++ filter (λ k, k ∉ acc) d.*1) [] rows.

(** [pd.DataFrame(rows)] for a list of records: one row per record under a
    range index (labels rendered in decimal), one column per key, NaN
    where a record lacks a key. *)
Definition frame_of_records (rows : list dict) : DataFrame pyval :=
  let cols := all_keys rows in
  mkDF (map (λ i : nat, pretty i) (seq 0 (length rows))) cols
       (map (λ d, map (λ c, default (PFloat nan) (dict_get d c)) cols) rows).

(** The values of an index, each once, in order of first appearance. *)
Fixpoint unique_from (seen l : list label) : list label :=
  match l with
  | [] => []
  | x :: l' =>
      if bool_decide (x ∈ seen) then unique_from seen l'
      else x :: unique_from (x :: seen) l'
  end.

(** [left.intersection(right)]: the distinct labels of [left] that occur
    in [right], in the order of [left]. *)
Definition index_intersection (left right : list label) : list label :=
  unique_from [] (filter (λ l, l ∈ right) left).

(** [df[name]] followed by [.values]: the cells of the column labelled
    [name].  With several columns of that label pandas returns a
    two-dimensional selection, which the scores reject. *)
Definition frame_getitem {V} (df : DataFrame V) (name : label) : result (list V) :=
  match filter (λ j, columns df !! j = Some name) (seq 0 (length (columns df))) with
  | [] => Raise (KeyError name)
  | [j] => Ok (column_values (values df) j)
  | _ => Raise (ValueError "labels_true must be 1D")
  end.

(** The float in a cell, for sorting. *)
Definition cell_float (c : option pyval) : float :=
  match c with
  | Some (PFloat x) => x
  | Some (PInt z) => float_of_Z z
  | _ => nan
  end.

(** The sort key of a row for [sort_values(by=col)]. *)
Definition sort_key (df : DataFrame pyval) (col : label)
    (p : label * list pyval) : float :=
  match filter (λ j, columns df !! j = Some col) (seq 0 (length (columns df))) with
  | j :: _ => cell_float (p.2 !! j)
  | [] => nan
  end.

Section Clustering.
Context `{NumericKernels} `{SkLearn}.

(** [df.sort_values(by=col, ascending=False)]: rows in descending order of
    the column, rows with NaN last; the rows that are not NaN are sorted
    with numpy's quicksort. *)
Definition sort_values_desc (df : DataFrame pyval) (col : label) : DataFrame pyval :=
  let key := sort_key df col in
  let rows := zip (index df) (values df) in
  let present := filter (λ p, PrimFloat.is_nan (key p) = false) rows in
  let sorted :=
    quicksort_desc key (quicksort_swaps (map key present)) present
    ++ filter (λ p, PrimFloat.is_nan (key p) = true) rows in
  mkDF sorted.*1 (columns df) sorted.*2.

(** [str(v)] *)
Definition py_str (v : pyval) : string :=
  match v with
  | PStr s => s
  | PInt z => pretty z
  | PFloat x => float_str x
  | PBool b => if b then "True" else "False"
  | PNone => "None"
  end.

Definition models : list clustering_method := [KMeans; HClust; Spectral].

(** The scoring of one prediction against the targets: the loop
    [for target in valid_targets]. *)
Fixpoint score_targets (meta_aligned : DataFrame pyval) (labels_pred : list Z)
    (targets : list label) (row : dict) : result dict :=
  match targets with
  | [] => Ok row
  | target :: targets' =>
      try column <- frame_getitem meta_aligned target;
      let y_true := map astype_str column in
      try ami <- adjusted_mutual_info_score y_true labels_pred;
      try ari <- adjusted_rand_score y_true labels_pred;
      let row := dict_set row ("AMI_" +:+ target) (PFloat (py_round3 ami)) in
      let row := dict_set row ("ARI_" +:+ target) (PFloat (py_round3 ari)) in
      score_targets meta_aligned labels_pred targets' row
  end.

(** The body of the [try] block for one [k] and one model. *)
Definition benchmark_row (pca_aligned : DataFrame float)
    (meta_aligned : DataFrame pyval) (valid_targets : list label)
    (k : Z) (m : clustering_method) : result dict :=
  let X := values pca_aligned in
  try labels_pred <- cluster_fit_predict m k X;
  let row := [("Method", PStr (method_name m)); ("k", PInt k)] in
  score_targets meta_aligned labels_pred valid_targets row.

(** The pairs the loops go through, in order. *)
Definition attempts (n_clusters_range : list Z) : list (Z * clustering_method) :=
  n_clusters_range ≫= λ k, map (λ m, (k, m)) models.

(** The execution loop: a row for every attempt that completes, a printed
    failure for every attempt that raises. *)
Fixpoint benchmark_loop (pca_aligned : DataFrame float)
    (meta_aligned : DataFrame pyval) (valid_targets : list label)
    (todo : list (Z * clustering_method)) : list event * list dict :=
  match todo with
  | [] => ([], [])
  | (k, m) :: todo' =>
      let '(out, rows) := benchmark_loop pca_aligned meta_aligned valid_targets todo' in
      match benchmark_row pca_aligned meta_aligned valid_targets k m with
      | Ok row => (out, row :: rows)
      | Raise e => (ModelFailed (method_name m) e :: out, rows)
      end
  end.

(** The alignment step: the common labels and both tables restricted to
    them. *)
Definition common_index (pca_df : DataFrame float) (cell_metadata : DataFrame pyval)
    : list label :=
  index_intersection (index pca_df) (index cell_metadata).

(** Steps 2 to 4, on the aligned tables: validation of the targets, the
    execution loop and the formatting of the leaderboard. *)
Definition benchmark_aligned (pca_aligned : DataFrame float)
    (meta_aligned : DataFrame pyval) (n_clusters_range : list Z)
    (target_cols : list label) : Py (DataFrame pyval) :=
  let valid_targets := filter (λ col, col ∈ columns meta_aligned) target_cols in
  match valid_targets with
  | [] =>
      do_ py_print (ErrNoTargetColumns target_cols);
      py_ret pd_DataFrame
  | first_target :: _ =>
      (* 3. Execution loop *)
      let '(out, all_results) :=
        benchmark_loop pca_aligned meta_aligned valid_targets
          (attempts n_clusters_range) in
      (* 4. Format output *)
      let results_df := frame_of_records all_results in
      let results_df :=
        if empty results_df then results_df
        else
          let primary_sort := "AMI_" +:+ first_target in
          if bool_decide (primary_sort ∈ columns results_df)
          then sort_values_desc results_df primary_sort
          else results_df in
      (out, Ok results_df)
  end.

(** The warning of the alignment step. *)
Definition alignment_warning (pca_df : DataFrame float) (common : list label)
    : Py unit :=
  if bool_decide (length common < length (index pca_df))
  then py_print (WarnDroppingSamples (length (index pca_df) - length common))
  else py_ret tt.

Definition run_clustering_benchmark (pca_df : DataFrame float)
    (cell_metadata : DataFrame pyval) (n_clusters_range : list Z)
    (target_cols : list label) : Py (DataFrame pyval) :=
  (* 1. Alignment and validation *)
  let common := common_index pca_df cell_metadata in
  do_ alignment_warning pca_df common;
  do pca_aligned <- py_lift (frame_loc_rows pca_df common);
  do meta_aligned <- py_lift (frame_loc_rows cell_metadata common);
  benchmark_aligned pca_aligned meta_aligned n_clusters_range target_cols.

End Clustering.

Definition pca_example : DataFrame float :=
  mkDF ["a"; "b"; "c"] ["PC1"; "PC2"] [[1; 2]; [3; 4]; [5; 6]]%float.

Definition metadata_example : DataFrame pyval :=
  mkDF ["a"; "b"; "d"] ["Stage"; "Cross"]
       [[PStr "x"; PStr "u"]; [PStr "y"; PStr "u"]; [PStr "z"; PStr "v"]].

(** The alignment as stated: a sample present in only one of the two
    tables is announced by a warning. *)
Definition alignment_warns_as_stated `{NumericKernels} `{SkLearn}
    (pca_df : DataFrame float) (cell_metadata : DataFrame pyval)
    (n_clusters_range : list Z) (target_cols : list label) : Prop :=
  (∃ l, (l ∈ index pca_df ∧ l ∉ index cell_metadata) ∨
        (l ∈ index cell_metadata ∧ l ∉ index pca_df)) →
  ∃ n, WarnDroppingSamples n ∈
         printed (run_clustering_benchmark pca_df cell_metadata
                    n_clusters_range target_cols).

Section ClusteringSpec.
Context `{NumericKernels} `{SkLearn}.

(** The rows of the attempts that complete, and the failures printed for
    those that raise, in loop order. *)
Definition completed_rows (pca_aligned : DataFrame float)
    (meta_aligned : DataFrame pyval) (valid_targets : list label)
    (todo : list (Z * clustering_method)) : list dict :=
  omap (λ km, match benchmark_row pca_aligned meta_aligned valid_targets km.1 km.2 with
              | Ok row => Some row
              | Raise _ => None
              end) todo.

Definition failed_events (pca_aligned : DataFrame float)
    (meta_aligned : DataFrame pyval) (valid_targets : list label)
    (todo : list (Z * clustering_method)) : list event :=
  omap (λ km, match benchmark_row pca_aligned meta_aligned valid_targets km.1 km.2 with
              | Ok _ => None
              | Raise e => Some (ModelFailed (method_name km.2) e)
              end) todo.

(** What a leaderboard row holds: the method, [k], and for every valid
    target the rounded AMI and ARI of the target's labels against the
    prediction of the model. *)
Definition scored_row (pca_aligned : DataFrame float)
    (meta_aligned : DataFrame pyval) (valid_targets : list label)
    (k : Z) (m : clustering_method) (row : dict) : Prop :=
  dict_get row "Method" = Some (PStr (method_name m)) ∧
  dict_get row "k" = Some (PInt k) ∧
  ∃ labels_pred,
    cluster_fit_predict m k (values pca_aligned) = Ok labels_pred ∧
    ∀ target, target ∈ valid_targets →
      ∃ column ami ari,
        frame_getitem meta_aligned target = Ok column ∧
        adjusted_mutual_info_score (map astype_str column) labels_pred = Ok ami ∧
        adjusted_rand_score (map astype_str column) labels_pred = Ok ari ∧
        dict_get row ("AMI_" +:+ target) = Some (PFloat (py_round3 ami)) ∧
        dict_get row ("ARI_" +:+ target) = Some (PFloat (py_round3 ari)).


End ClusteringSpec.

(** ** [Datasets/GSE41265/sc_loader.py]

    A raw expression table, as read from text files: a cell is an integer,
    a float, a string or missing.  An integer is a Python [int]; a column
    whose cells are all integers of 64 bits is an [int64] column. *)

Inductive rawcell : Type :=
| RInt (z : Z)
| RFloat (x : float)
| RStr (s : string)
| RNone.

(** A number read by [pd.to_numeric]: an integer or a float. *)
Inductive numeric : Type :=
| NInt (z : Z)
| NFloat (x : float).

(** The two string-to-number readers: Python's [float(s)], which [astype]
    applies and which raises [ValueError] on other strings, and the parser
    of [pd.to_numeric]. *)
Class TextParsers : Type := {
  py_float_of_str : string → option float;
  pd_numeric_of_str : string → option numeric
}.

(** An integer that fits 64 bits, and its cells. *)
Definition is_int64 (z : Z) : bool :=
  bool_decide (- 2 ^ 63 ≤ z < 2 ^ 63)%Z.

Definition int64_cell (c : rawcell) : bool :=
  match c with
  | RInt z => is_int64 z
  | _ => true
  end.

(** The sum of [int64] numbers wraps around. *)
Definition wrap_int64 (z : Z) : Z :=
  ((z + 2 ^ 63) `mod` 2 ^ 64 - 2 ^ 63)%Z.

(** [float(z)] raises [OverflowError] for an integer that rounds beyond
    the largest float. *)
Definition float_overflows (z : Z) : bool :=
  bool_decide (2 ^ 1024 - 2 ^ 970 ≤ Z.abs z)%Z.

Fixpoint result_mapM {A B} (f : A → result B) (l : list A) : result (list B) :=
  match l with
  | [] => Ok []
  | x :: l' =>
      try y <- f x;
      try ys <- result_mapM f l';
      Ok (y :: ys)
  end.

(** [df.drop(name, axis=0)]: all rows labelled [name] go. *)
Definition drop_label {V} (df : DataFrame V) (name : label) : DataFrame V :=
  let kept := filter (λ p, p.1 ≠ name) (zip (index df) (values df)) in
  mkDF kept.*1 (columns df) kept.*2.

(** Sorting labels, smallest first, in the order of their characters. *)
Fixpoint insert_label (x : label) (l : list label) : list label :=
  match l with
  | [] => [x]
  | y :: l' => if String.leb x y then x :: y :: l' else y :: insert_label x l'
  end.

Definition sort_labels (l : list label) : list label :=
  foldr insert_label [] l.

Definition is_int_cell (c : rawcell) : bool :=
  match c with
  | RInt _ => true
  | _ => false
  end.

(** [isnull] of a cell. *)
Definition is_missing (c : rawcell) : bool :=
  match c with
  | RNone => true
  | RFloat x => PrimFloat.is_nan x
  | _ => false
  end.

(** A cell that holds a number and is not missing. *)
Definition is_number (c : rawcell) : bool :=
  match c with
  | RInt _ => true
  | RFloat x => negb (PrimFloat.is_nan x)
  | _ => false
  end.

(** A cell of float type that is not missing. *)
Definition is_float_number (c : rawcell) : bool :=
  match c with
  | RFloat x => negb (PrimFloat.is_nan x)
  | _ => false
  end.

Definition int_of_cell (c : rawcell) : Z :=
  match c with
  | RInt z => z
  | _ => 0
  end.

Definition float_of_cell (c : rawcell) : float :=
  match c with
  | RInt z => float_of_Z z
  | RFloat x => x
  | _ => nan
  end.

(** A cell that holds a number, possibly NaN. *)
Definition is_numeric_cell (c : rawcell) : bool :=
  match c with
  | RInt _ | RFloat _ => true
  | _ => false
  end.

(** [df.fillna(0)], cell by cell. *)
Definition fillna0_cell (c : rawcell) : rawcell :=
  if is_missing c then RFloat 0%float else c.

Section Loader.
Context `{NumericKernels} `{TextParsers}.

(** [astype(float)] of one cell; [None] becomes NaN. *)
Definition astype_float_cell (c : rawcell) : result rawcell :=
  match c with
  | RInt z =>
      if float_overflows z
      then Raise (OverflowError "int too large to convert to float")
      else Ok (RFloat (float_of_Z z))
  | RFloat x => Ok (RFloat x)
  | RStr s =>
      match py_float_of_str s with
      | Some x => Ok (RFloat x)
      | None => Raise (ValueError "could not convert string to float")
      end
  | RNone => Ok (RFloat nan)
  end.

(** [df.astype(float)]: every cell is converted.  pandas converts column
    by column, so the exception raised, if any, is that of the first cell
    in column order that cannot be converted. *)
Definition astype_float (df : DataFrame rawcell) : result (DataFrame rawcell) :=
  try _ <- result_mapM (result_mapM astype_float_cell)
             (block_T (length (columns df)) (values df));
  try vals <- result_mapM (result_mapM astype_float_cell) (values df);
  Ok (mkDF (index df) (columns df) vals).

(** What [pd.to_numeric(..., errors='coerce')] reads in a cell; what it
    cannot read becomes NaN, and an integer that does not fit 64 bits is
    read as a float. *)
Definition to_numeric_cell (c : rawcell) : numeric :=
  match c with
  | RInt z => if is_int64 z then NInt z else NFloat (float_of_Z z)
  | RFloat x => NFloat x
  | RStr s => default (NFloat nan) (pd_numeric_of_str s)
  | RNone => NFloat nan
  end.

(** [pd.to_numeric(column, errors='coerce')]: a column in which only
    integers are read stays an integer column; any other column becomes a
    float column. *)
Definition to_numeric_coerce (column : list rawcell) : list rawcell :=
  let read := map to_numeric_cell column in
  if forallb (λ n, match n with NInt _ => true | NFloat _ => false end) read
  then map (λ n, match n with NInt z => RInt z | NFloat x => RFloat x end) read
  else map (λ n, match n with NInt z => RFloat (float_of_Z z) | NFloat x => RFloat x end) read.

(** [df.apply(pd.to_numeric, errors='coerce')], column by column. *)
Definition apply_to_numeric (df : DataFrame rawcell) : DataFrame rawcell :=
  mkDF (index df) (columns df)
    (block_T (length (index df))
       (map to_numeric_coerce (block_T (length (columns df)) (values df)))).

(** The sum of one column within one group: the [int64] sum, which wraps
    around, in an integer column, otherwise the float sum that skips NaN. *)
Definition group_sum (int_column : bool) (cells : list rawcell) : rawcell :=
  if int_column then RInt (wrap_int64 (foldr Z.add 0%Z (map int_of_cell cells)))
  else RFloat (np_nansum (map float_of_cell cells)).

(** [df.groupby(df.index).sum()]: one row per distinct label, labels
    sorted, every column summed within the group. *)
Definition groupby_index_sum (df : DataFrame rawcell) : DataFrame rawcell :=
  let keys := sort_labels (unique_from [] (index df)) in
  let int_columns :=
    map (λ j, forallb is_int_cell (column_values (values df) j))
        (seq 0 (length (columns df))) in
  mkDF keys (columns df)
    (map (λ g,
       let group := (label_matches (index df) (values df) g).*2 in
       imap (λ j int_column, group_sum int_column (column_values group j)) int_columns)
     keys).

(** [df.index.duplicated().sum()] *)
Definition n_duplicated (idx : list label) : nat :=
  length idx - length (unique_from [] idx).

Definition isnull_any (df : DataFrame rawcell) : bool :=
  existsb (existsb is_missing) (values df).

Definition clean_and_validate_df (df : DataFrame rawcell) (index_name : string)
    : Py (DataFrame rawcell) :=
  let df_clean := df in
  (* 1. Remove rows that might be leftover headers *)
  do df_clean <-
    (if bool_decide (index_name ∈ index df_clean) then
       do_ py_print (WarnDroppingArtifact index_name);
       py_ret (drop_label df_clean index_name)
     else py_ret df_clean);
  (* 2. Convert to float *)
  do df_clean <-
    (match astype_float df_clean with
     | Ok converted => py_ret converted
     | Raise (ValueError _) =>
         do_ py_print WarnCoercing;
         py_ret (apply_to_numeric df_clean)
     | Raise e => py_raise e
     end);
  (* 3. Handle duplicates *)
  do df_clean <-
    (if bool_decide (NoDup (index df_clean)) then py_ret df_clean
     else
       do_ py_print (WarnDuplicates (n_duplicated (index df_clean)));
       py_ret (groupby_index_sum df_clean));
  (* 4. Fill NaNs *)
  do df_clean <-
    (if isnull_any df_clean then
       do_ py_print WarnFillingNaN;
       py_ret (frame_map fillna0_cell df_clean)
     else py_ret df_clean);
  py_ret df_clean.

(** [pd.concat(dfs, axis=1, join='outer')]: the frames side by side.  When
    all indexes are equal the rows are joined in place; otherwise the rows
    are aligned on the union of the indexes, a missing cell being NaN, which
    pandas refuses when an index has duplicates. *)
Definition union_index (dfs : list (DataFrame rawcell)) : list label :=
  unique_from [] (dfs ≫= index).

Definition row_of (df : DataFrame rawcell) (g : label) : list rawcell :=
  match label_matches (index df) (values df) g with
  | (_, row) :: _ => row
  | [] => replicate (length (columns df)) (RFloat nan)
  end.

Definition concat_columns (dfs : list (DataFrame rawcell))
    : result (DataFrame rawcell) :=
  match dfs with
  | [] => Raise (ValueError "No objects to concatenate")
  | first :: _ =>
      if forallb (λ df, bool_decide (index df = index first)) dfs then
        Ok (mkDF (index first) (dfs ≫= columns)
              (imap (λ i _, dfs ≫= λ df, default [] (values df !! i)) (index first)))
      else if forallb (λ df, bool_decide (NoDup (index df))) dfs then
        let idx := union_index dfs in
        Ok (mkDF idx (dfs ≫= columns) (map (λ g, dfs ≫= λ df, row_of df g) idx))
      else Raise (InvalidIndexError
                    "Reindexing only valid with uniquely valued Index objects")
  end.

Definition merge_expression_tables (dfs : list (DataFrame rawcell))
    : Py (DataFrame rawcell) :=
  match dfs with
  | [] => py_raise (ValueError "Input list of DataFrames is empty.")
  | _ =>
      do combined <- py_lift (concat_columns dfs);
      do combined_clean <- clean_and_validate_df combined "GENE";
      py_ret combined_clean
  end.

End Loader.

(** An instance of the readers for running examples: decimal integers
    only. *)
Definition example_int_of_str (s : string) : option Z :=
  match s with
  | "" => None
  | _ => (λ u, Z.of_N (N.of_uint u)) <$> DecimalString.NilEmpty.uint_of_string s
  end.

Definition example_parsers : TextParsers := {|
  py_float_of_str := λ s, float_of_Z <$> example_int_of_str s;
  pd_numeric_of_str := λ s, NInt <$> example_int_of_str s
|}.

(** The invariant of a cleaned table as stated: unique index, every cell a
    float that is not missing. *)
Definition cleaned_as_stated (r : DataFrame rawcell) : Prop :=
  NoDup (index r) ∧ Forall (Forall (λ c, is_float_number c = true)) (values r).

(** The part of it that holds on every path: unique index, every cell a
    number that is not missing. *)
Definition cleaned_numeric (r : DataFrame rawcell) : Prop :=
  NoDup (index r) ∧ Forall (Forall (λ c, is_number c = true)) (values r).

(** A table with an integer column and a text column. *)
Definition annotated_counts : DataFrame rawcell :=
  mkDF ["g1"; "g2"] ["S1"; "note"]
       [[RInt 5; RStr "foo"]; [RInt 7; RStr "bar"]].

(** ** Dataset loaders: the entry guards

    The loaders read directories of text files.  What they find there, and
    the parsing of the files they find, is the interface [DatasetFiles];
    the guards around it are the loaders' own.  A loop over files that
    catches the exceptions of its body is a routine that prints and returns
    what it collected. *)

Class DatasetFiles : Type := {
  (** [glob.glob(os.path.join(directory, pattern))] *)
  glob_in : string → string → list string;
  (** [os.path.exists] and [os.path.isdir] *)
  path_exists : string → bool;
  path_isdir : string → bool;
  (** GSE42268: the loop over the files and the merge with the SRA table *)
  gse42268_read_files : list string → string → Py (DataFrame float * DataFrame pyval);
  (** GSE74596: [_process_sra_metadata], and the loop over the count files
      with the final concatenation *)
  gse74596_process_sra_metadata : string → Py (DataFrame pyval);
  gse74596_read_counts : list string → Py (DataFrame float);
  (** GSE41265: the labelling and re-indexing of a non-empty SRA table *)
  gse41265_build_metadata :
    DataFrame pyval → option (DataFrame pyval) → option (DataFrame float) →
    Py (DataFrame pyval);
  (** GSE45719: the loop over the expression files of a directory, and the
      concatenation with the parsing of the metadata *)
  gse45719_read_series : string → Py (list (label * Series float));
  gse45719_build :
    list (label * Series float) → string → Py (DataFrame float * DataFrame pyval);
  (** GSE52583: the loop over the FPKM files of a directory, the
      concatenation, and the metadata with the optional filter *)
  gse52583_read_series : string → Py (list (label * Series float));
  gse52583_concat : list (label * Series float) → Py (DataFrame float);
  gse52583_build_metadata :
    DataFrame float → string → bool → Py (DataFrame float * DataFrame pyval);
  (** GSE65528: the loop over the count files, and the pivot with the
      parsing of the series matrix *)
  gse65528_read_chunks : list string → Py (list (DataFrame pyval));
  gse65528_build :
    list (DataFrame pyval) → string → Py (DataFrame float * DataFrame pyval);
  (** GSE55291: [pd.read_csv] of the metadata with the conversion of its
      accession column, the loop over the expression files, and the merge
      with the pivot *)
  gse55291_read_metadata : string → result (DataFrame pyval);
  gse55291_read_files : list string → Py (list (DataFrame pyval));
  gse55291_build :
    list (DataFrame pyval) → DataFrame pyval → Py (DataFrame float * DataFrame pyval)
}.

(** [df[keys]] on the columns. *)
Definition frame_loc_columns {V} (df : DataFrame V) (keys : list label)
    : result (DataFrame V) :=
  try selected <- frame_loc_rows (frame_T df) keys;
  Ok (mkDF (index df) (index selected)
        (block_T (length (columns selected)) (values selected))).

Section DatasetLoaders.
Context `{DatasetFiles}.

(** [Datasets/GSE42268/sc_loader.py] *)
Definition load_gse42268_data (data_folder metadata_path : string)
    : Py (DataFrame float * DataFrame pyval) :=
  let files := glob_in data_folder "*.txt" in
  match files with
  | [] => py_raise (ValueError "No .txt files found. Check your DATA_PATH.")
  | _ => gse42268_read_files files metadata_path
  end.

(** [Datasets/GSE74596/sc_loader.py] *)
Definition _load_counts (data_dir : string) : Py (DataFrame float) :=
  let files := glob_in data_dir "GSM*_MappedReads_Annotations.txt*" in
  match files with
  | [] => py_ret pd_DataFrame
  | _ => gse74596_read_counts files
  end.

Definition load_gse74596_data (data_dir sra_path : string)
    : Py (DataFrame float * DataFrame pyval) :=
  (* 1. Load metadata *)
  do meta_df <- gse74596_process_sra_metadata sra_path;
  (* 2. Load counts *)
  do raw_counts <- _load_counts data_dir;
  if empty raw_counts then py_raise (ValueError "No count data loaded.")
  else
    (* 3. Align *)
    let common := index_intersection (columns raw_counts) (index meta_df) in
    match common with
    | [] =>
        do_ py_print ErrNoIntersection;
        py_ret (raw_counts, meta_df)
    | _ =>
        do raw_counts <- py_lift (frame_loc_columns raw_counts common);
        do meta_df <- py_lift (frame_loc_rows meta_df common);
        py_ret (raw_counts, meta_df)
    end.

(** [Datasets/GSE41265/sc_metadata.py] *)
Definition prepare_sample_metadata (sra_run_table_df : DataFrame pyval)
    (qc_metrics_df : option (DataFrame pyval)) (pca_df : option (DataFrame float))
    : Py (DataFrame pyval) :=
  if empty sra_run_table_df then
    do_ py_print ErrEmptySraTable;
    py_ret pd_DataFrame
  else gse41265_build_metadata sra_run_table_df qc_metrics_df pca_df.

(** [Datasets/GSE45719/sc_loader.py] *)
Definition load_gse45719_data (expression_dir sra_path : string)
    : Py (DataFrame float * DataFrame pyval) :=
  (* Part 1: load expression files *)
  if negb (path_exists expression_dir) then
    py_raise (FileNotFoundError ("Directory not found: " +:+ expression_dir))
  else
    do all_series <- gse45719_read_series expression_dir;
    match all_series with
    | [] => py_raise (ValueError "No valid data loaded.")
    | _ => gse45719_build all_series sra_path
    end.

(** [Datasets/GSE52583/sc_loader.py] *)
Definition _load_raw_fpkm_files (data_dir : string) : Py (DataFrame float) :=
  if negb (path_isdir data_dir) then
    py_raise (FileNotFoundError ("Directory not found: " +:+ data_dir))
  else
    do series_list <- gse52583_read_series data_dir;
    match series_list with
    | [] => py_ret pd_DataFrame
    | _ => gse52583_concat series_list
    end.

Definition load_gse52583_data (expression_dir sra_path : string)
    (filter_single_cells : bool) : Py (DataFrame float * DataFrame pyval) :=
  (* 1. Load expression *)
  do raw_df <- _load_raw_fpkm_files expression_dir;
  if empty raw_df then py_raise (ValueError "No expression data loaded.")
  else gse52583_build_metadata raw_df sra_path filter_single_cells.

(** [Datasets/GSE65528/sc_loader.py] *)
Definition load_gse65528_data (data_dir series_matrix_path : string)
    : Py (DataFrame float * DataFrame pyval) :=
  (* 1. Load and melt count files *)
  let count_files := glob_in data_dir "*TPM_table.txt.gz" in
  do melted_chunks <- gse65528_read_chunks count_files;
  match melted_chunks with
  | [] => py_raise (ValueError "No count data loaded.")
  | _ => gse65528_build melted_chunks series_matrix_path
  end.

(** [Datasets/GSE55291/sc_loader.py] *)
Definition load_dataset_5 (expression_path metadata_path : string)
    : Py (DataFrame float * DataFrame pyval) :=
  (* 1. Load SRA metadata *)
  match gse55291_read_metadata metadata_path with
  | Raise e => py_raise (ValueError ("Could not load metadata: " +:+ exn_str e))
  | Ok sra_df =>
      (* 2. Load expression files *)
      let files := glob_in expression_path "*.fpkm_tracking" in
      do all_data <- gse55291_read_files files;
      match all_data with
      | [] => py_raise (ValueError "No expression data loaded.")
      | _ => gse55291_build all_data sra_df
      end
  end.

End DatasetLoaders.

(** A file system with the empty directory [data] and the metadata file
    [SraRunTable.csv], for running examples. *)
Definition empty_directory : DatasetFiles := {|
  glob_in := λ _ _, [];
  path_exists := λ path, bool_decide (path = "data");
  path_isdir := λ path, bool_decide (path = "data");
  gse42268_read_files := λ _ _, py_ret (pd_DataFrame, pd_DataFrame);
  gse74596_process_sra_metadata := λ _, py_ret pd_DataFrame;
  gse74596_read_counts := λ _, py_ret pd_DataFrame;
  gse41265_build_metadata := λ sra _ _, py_ret sra;
  gse45719_read_series := λ _, py_ret [];
  gse45719_build := λ _ _, py_ret (pd_DataFrame, pd_DataFrame);
  gse52583_read_series := λ _, py_ret [];
  gse52583_concat := λ _, py_ret pd_DataFrame;
  gse52583_build_metadata := λ raw _ _, py_ret (raw, pd_DataFrame);
  gse65528_read_chunks := λ _, py_ret [];
  gse65528_build := λ _ _, py_ret (pd_DataFrame, pd_DataFrame);
  gse55291_read_metadata := λ path,
    if bool_decide (path = "SraRunTable.csv") then Ok pd_DataFrame
    else Raise (FileNotFoundError "No such file or directory");
  gse55291_read_files := λ _, py_ret [];
  gse55291_build := λ _ _, py_ret (pd_DataFrame, pd_DataFrame)
|}.

(** Failure handling as stated: no operation raises. *)
Definition never_raises_as_stated `{NumericKernels} `{TextParsers} : Prop :=
  ∀ dfs, ∃ r, outcome (merge_expression_tables dfs) = Ok r.

(** ** Python strings

    A string is the sequence of its code points, one [ascii] per code
    point; the annotations of these tables stay below U+0100. *)

(** [c.isspace()] for a code point below U+0100. *)
Definition py_isspace (c : Ascii.ascii) : bool :=
  match Ascii.N_of_ascii c with
  | 9 | 10 | 11 | 12 | 13 | 28 | 29 | 30 | 31 | 32 | 133 | 160 => true
  | _ => false
  end%N.

Fixpoint lstrip_chars (l : list Ascii.ascii) : list Ascii.ascii :=
  match l with
  | [] => []
  | c :: l' => if py_isspace c then lstrip_chars l' else l
  end.

Definition strip_chars (l : list Ascii.ascii) : list Ascii.ascii :=
  reverse (lstrip_chars (reverse (lstrip_chars l))).

(** [s.strip()] *)
Definition py_strip (s : string) : string :=
  String.string_of_list_ascii (strip_chars (String.list_ascii_of_string s)).

(** [sub in s] *)
Fixpoint py_in (sub s : string) : bool :=
  String.prefix sub s ||
  match s with
  | EmptyString => false
  | String _ s' => py_in sub s'
  end.

(** ** [Datasets/GSE41265/sc_metadata.py]: the label of one sample *)

Section Metadata.
Context `{NumericKernels}.

(** [row.get(key, default)] on a row with distinct labels. *)
Definition row_get (row : dict) (key : string) (fallback : pyval) : pyval :=
  match dict_get row key with
  | Some v => v
  | None => fallback
  end.

Definition _parse_condition_row (row : dict) : dict :=
  (* 1. Extract values safely and ensure they are strings *)
  let cell_count_val := py_strip (py_str (row_get row "cell_count" (PStr "Unknown"))) in
  let protocol_val := py_strip (py_str (row_get row "protocol" (PStr ""))) in
  let source_name_val := py_strip (py_str (row_get row "source_name" (PStr ""))) in
  let treatment_val := py_strip (py_str (row_get row "treatment" (PStr ""))) in
  (* 2. Determine cell type *)
  let label_part1 :=
    if py_in "1 cell" cell_count_val then "SC"
    else if py_in "10,000 cells" cell_count_val then "Bulk_10k"
    else "Unknown_Cells" in
  (* 3. Determine protocol *)
  let label_part2 :=
    if py_in "molecular barcodes (MB)" protocol_val then "MB_Protocol"
    else if bool_decide (protocol_val = "") || bool_decide (protocol_val = "nan")
    then "Std_Protocol"
    else "Other_Protocol" in
  (* 4. Determine stimulation *)
  let label_part3 :=
    if py_in "BMDC (4h LPS stim)" source_name_val then "LPS_4h"
    else if bool_decide (treatment_val = "LPS-stimulation") &&
            (bool_decide (source_name_val = "") || bool_decide (source_name_val = "nan"))
    then
      if bool_decide (label_part1 = "SC") && bool_decide (label_part2 = "Std_Protocol")
      then "LPS_4h"
      else if bool_decide (label_part1 = "Bulk_10k") then "LPS_4h"
      else if bool_decide (label_part1 = "SC") && bool_decide (label_part2 = "MB_Protocol")
      then "LPS_4h"
      else "LPS_UnknownDetail"
    else "Unstimulated" in
  (* 5. Return the constructed dictionary *)
  [("Combined_Label", PStr (label_part1 +:+ "_" +:+ label_part2 +:+ "_" +:+ label_part3));
   ("Cell_Count_Detail", PStr cell_count_val);
   ("Protocol_Detail", PStr label_part2);
   ("Stimulation_Detail", PStr label_part3)].

End Metadata.

(** ** [Datasets/GSE41265/sc_loader.py]: the QC figure

    The three panels are drawn by seaborn and matplotlib; the drawing is a
    routine of the interface [Plotting], which may raise. *)

Class Plotting : Type := {
  draw_qc_figure : Series float → Series Z → Series Z → result unit
}.

Definition plot_qc_metrics `{NumericKernels} `{Plotting} (df : DataFrame float)
    (detection_threshold : float) : result (Series float * Series Z) :=
  (* 1. Library size *)
  let lib_size := sum_columns df in
  (* 2. Detected genes per sample *)
  let n_genes := sum_axis0 (frame_gt df detection_threshold) in
  (* 3. Gene detection frequency *)
  let gene_freq := sum_axis1 (frame_gt df detection_threshold) in
  match draw_qc_figure lib_size n_genes gene_freq with
  | Ok _ => Ok (lib_size, n_genes)
  | Raise e => Raise e
  end.

(** A drawing routine that accepts every figure, for running examples. *)
Definition example_plotting : Plotting := {|
  draw_qc_figure := λ _ _ _, Ok tt
|}.

(** A row of the SRA table, with padded annotations. *)
Definition sra_row_example : dict :=
  [("cell_count", PStr " 1 cell "); ("protocol", PFloat nan);
   ("source_name", PStr ""); ("treatment", PStr "LPS-stimulation")].

(** A printed message of the form ["[{method_name} Failed: {e}]"]. *)
Definition is_model_failure (e : event) : bool :=
  match e with
  | ModelFailed _ _ => true
  | _ => false
  end.

(** A cell that [astype(float)] converts without raising. *)
Definition float_convertible `{TextParsers} (c : rawcell) : bool :=
  match c with
  | RStr s => bool_decide (is_Some (py_float_of_str s))
  | RInt z => negb (float_overflows z)
  | _ => true
  end.

(** A raw table with a repeated header row, a repeated gene and a missing
    cell. *)
Definition header_counts : DataFrame rawcell :=
  mkDF ["GENE"; "g2"; "g1"; "g2"] ["S1"; "S2"]
       [[RStr "S1"; RStr "S2"]; [RStr "1"; RInt 2]; [RInt 3; RNone];
        [RFloat 1.5; RStr "4"]].

(** A string of whitespace only (the empty string included). *)
Definition is_blank (s : string) : bool :=
  forallb py_isspace (String.list_ascii_of_string s).

(** An annotation that is absent from the row, NaN, or blank. *)
Definition unannotated (v : option pyval) : Prop :=
  v = None ∨ v = Some (PFloat nan) ∨ ∃ s, v = Some (PStr s) ∧ is_blank s = true.

(** ** An instance of the scaler, for running examples

    The scaler of scikit-learn in binary64 arithmetic: the mean, the
    variance by the corrected two-pass formula, a scale of 1 for a feature
    that is constant up to rounding, and [(x - mean) / scale].  The sums
    are taken from left to right and skip missing values; the order in
    which numpy adds depends on the memory layout of its input, and the
    rows of the examples give the same floats in its orders.  The
    validation refuses infinite values. *)
Definition float_standardize (xs : list float) : list float :=
  let sum := λ l, fold_left PrimFloat.add l 0%float in
  let seen := drop_nan xs in
  let n := float_of_nat (length seen) in
  let new_sum := sum seen in
  let mean := (new_sum / n)%float in
  let temp := map (λ x, x - mean)%float seen in
  let correction := sum temp in
  let unnormalized :=
    (sum (map (λ t, t * t)%float temp) - correction * correction / n)%float in
  let var := (unnormalized / n)%float in
  let eps := 0x1p-52%float in
  let upper_bound := (n * eps * var + (n * mean * eps) * (n * mean * eps))%float in
  let scale := if PrimFloat.leb var upper_bound then 1%float else PrimFloat.sqrt var in
  map (λ x, (x - mean) / scale)%float xs.

Definition example_scaler_check (X : DataFrame float) : result unit :=
  if existsb (existsb PrimFloat.is_infinity) (values X)
  then Raise (ValueError "Input X contains infinity or a value too large for dtype('float64').")
  else Ok tt.

Definition example_scaler : StandardScaler := {|
  scaler_check := example_scaler_check;
  standardize := float_standardize;
  standardize_length := λ xs, length_map _ xs
|}.



(* ===================================================================== *)
(** * Properties *)
(* ===================================================================== *)

(** ** Lists: masks against positions *)

Lemma omap_ext_Forall {A B} (f g : A → option B) (l : list A) :
  Forall (λ x, f x = g x) l → omap f l = omap g l.
Proof.
  induction 1 as [|x l Hx ? IH]; [done|].
  cbn [omap list_omap]. by rewrite Hx, IH.
Qed.

Lemma filter_ext_Forall {A} (P Q : A → Prop)
    `{!∀ x, Decision (P x)} `{!∀ x, Decision (Q x)} (l : list A) :
  Forall (λ x, P x ↔ Q x) l → filter P l = filter Q l.
Proof.
  induction 1 as [|x l Hx ? IH]; [done|].
  rewrite !filter_cons, IH.
  destruct (decide (P x)), (decide (Q x)); tauto.
Qed.

Lemma mask_select_shift {A} (P : nat → bool) (l : list A) (k : nat) :
  mask_select (map P (seq k (length l))) l =
  omap (λ p, l !! (p - k)) (filter (λ p, P p = true) (seq k (length l))).
Proof.
  revert k. induction l as [|x l IH]; intros k; simpl; [done|].
  rewrite filter_cons.
  assert (Hext : omap (λ p, (x :: l) !! (p - k))
                   (filter (λ p, P p = true) (seq (S k) (length l))) =
                 omap (λ p, l !! (p - S k))
                   (filter (λ p, P p = true) (seq (S k) (length l)))).
  { apply omap_ext_Forall, Forall_forall. intros p Hp.
    apply list_elem_of_filter in Hp as [_ Hp].
    apply elem_of_seq in Hp.
    replace (p - k) with (S (p - S k)) by lia. done. }
  destruct (P k) eqn:HP.
  - rewrite decide_True by done. cbn [omap list_omap].
    rewrite Nat.sub_diag. change ((x :: l) !! 0) with (Some x).
    cbv beta iota. by rewrite Hext, IH.
  - rewrite decide_False by congruence. by rewrite IH, Hext.
Qed.

Lemma mask_select_positions {A} (P : nat → bool) (l : list A) :
  mask_select (map P (seq 0 (length l))) l =
  select_at (filter (λ p, P p = true) (seq 0 (length l))) l.
Proof.
  rewrite mask_select_shift. unfold select_at.
  apply omap_ext_Forall, Forall_forall. intros p _. by rewrite Nat.sub_0_r.
Qed.

Lemma map_as_seq {A B} (g : A → B) (d : B) (l : list A) :
  map g l = map (λ i, from_option g d (l !! i)) (seq 0 (length l)).
Proof.
  induction l as [|x l IH] using rev_ind; [done|].
  rewrite length_app. cbn [length]. rewrite Nat.add_1_r.
  rewrite seq_S, !map_app. cbn [map]. f_equal.
  - rewrite IH. apply map_ext_in. intros i Hi.
    apply in_seq in Hi. rewrite lookup_app_l by lia. done.
  - cbn [Nat.add]. rewrite lookup_app_r by lia. by rewrite Nat.sub_diag.
Qed.

Lemma count_filter_seq {A} (Q : option A → bool) (l : list A) :
  length (filter (λ i, Q (l !! i) = true) (seq 0 (length l))) =
  length (filter (λ x, Q (Some x) = true) l).
Proof.
  induction l as [|x l IH] using rev_ind; [done|].
  rewrite length_app. cbn [length]. rewrite Nat.add_1_r.
  rewrite seq_S, !filter_app, !length_app. cbn [Nat.add]. f_equal.
  - rewrite <- IH. f_equal. apply filter_ext_Forall, Forall_forall.
    intros i Hi. apply elem_of_seq in Hi. by rewrite lookup_app_l by lia.
  - rewrite !filter_cons, !filter_nil.
    rewrite lookup_app_r by lia. rewrite Nat.sub_diag. simpl.
    destruct (decide (Q (Some x) = true)); done.
Qed.

Lemma filter_none {A} (P : A → Prop) `{!∀ x, Decision (P x)} (l : list A) :
  Forall (λ x, ¬ P x) l → filter P l = [].
Proof.
  induction 1 as [|x l Hx ? IH]; [done|].
  by rewrite filter_cons, decide_False.
Qed.

Lemma select_at_length_le {A} (ps : list nat) (l : list A) :
  Forall (λ p, p < length l) ps → length (select_at ps l) = length ps.
Proof.
  induction 1 as [|p ps Hp _ IH]; [done|].
  unfold select_at in *. cbn [omap list_omap].
  destruct (lookup_lt_is_Some_2 l p Hp) as [x ->]. cbn [length]. by rewrite IH.
Qed.

Lemma select_at_map {A B} (f : A → B) (ps : list nat) (l : list A) :
  select_at ps (map f l) = map f (select_at ps l).
Proof.
  unfold select_at. induction ps as [|p ps IH]; [done|].
  cbn [omap list_omap]. change (map f l) with (f <$> l) in *.
  rewrite list_lookup_fmap.
  destruct (l !! p); cbn [fmap option_fmap option_map];
    [rewrite IH; reflexivity | exact IH].
Qed.

Lemma positions_of_filter_seq (P : nat → Prop) `{!∀ x, Decision (P x)} (n : nat) :
  positions_of n (filter P (seq 0 n)).
Proof.
  split.
  - assert (Hs : ∀ k m, StronglySorted lt (seq k m)).
    { intros k m. revert k. induction m as [|m IH]; intros k; simpl.
      - constructor.
      - constructor; [apply IH|]. apply Forall_forall. intros x Hx.
        apply elem_of_seq in Hx. lia. }
    generalize (Hs 0 n). generalize (seq 0 n). intros l Hl.
    induction Hl as [|x l Hl IH Hx]; [rewrite filter_nil; constructor|].
    rewrite filter_cons. destruct (decide (P x)); [|done].
    constructor; [done|].
    apply Forall_forall. intros y Hy. apply list_elem_of_filter in Hy as [_ Hy].
    rewrite Forall_forall in Hx. auto.
  - apply Forall_forall. intros p Hp. apply list_elem_of_filter in Hp as [_ Hp].
    apply elem_of_seq in Hp. lia.
Qed.

(** ** [filter_tpm_matrix]: the masks computed by the code are the
    thresholds of the description *)

Lemma count_true_column (t : float) (vals : list (list float)) (j : nat) :
  count_true (column_values (map (map (λ x, PrimFloat.ltb t x)) vals) j) =
  Z.of_nat (length (filter (λ row, detected t (row !! j) = true) vals)).
Proof.
  unfold count_true, column_values. f_equal.
  induction vals as [|row vals IH]; [done|].
  cbn [map omap list_omap]. rewrite filter_cons.
  rewrite list_lookup_fmap.
  destruct (row !! j) as [x|] eqn:Hx; cbn [fmap option_fmap option_map detected].
  - rewrite filter_cons.
    destruct (decide (PrimFloat.ltb t x = true)); cbn [length]; by rewrite IH.
  - rewrite decide_False by done. done.
Qed.

Lemma samples_mask_spec (df : DataFrame float) (t : float) (mg : Z) :
  wf_frame df →
  series_ge (sum_axis0 (frame_gt df t)) mg =
  map (λ j, bool_decide (mg ≤ genes_detected_in_sample df t j)%Z)
      (seq 0 (length (columns df))).
Proof.
  intros [Hlen _]. unfold series_ge, sum_axis0, frame_gt.
  cbn [s_values s_index columns values index].
  rewrite map_map. apply map_ext. intros j.
  rewrite count_true_column. unfold genes_detected_in_sample, cell.
  rewrite <- Hlen.
  by rewrite (count_filter_seq (λ o, detected t (o ≫= λ row, row !! j))).
Qed.

Lemma loc_columns_positions {V} (df : DataFrame V) (P : nat → bool) :
  wf_frame df →
  loc_columns_mask df (map P (seq 0 (length (columns df)))) =
  mkDF (index df)
       (select_at (filter (λ j, P j = true) (seq 0 (length (columns df)))) (columns df))
       (map (select_at (filter (λ j, P j = true) (seq 0 (length (columns df)))))
            (values df)).
Proof.
  intros [_ Hrows]. unfold loc_columns_mask. f_equal.
  - apply mask_select_positions.
  - apply map_ext_in. intros row Hrow.
    rewrite Forall_forall in Hrows.
    rewrite <- (Hrows row) by by apply list_elem_of_In.
    apply mask_select_positions.
Qed.

Lemma count_true_row (t : float) (kept : list nat) (row : list float) :
  count_true (map (λ x, PrimFloat.ltb t x) (select_at kept row)) =
  Z.of_nat (length (filter (λ j, detected t (row !! j) = true) kept)).
Proof.
  unfold count_true, select_at. f_equal.
  induction kept as [|j kept IH]; [done|].
  cbn [omap list_omap]. rewrite filter_cons.
  destruct (row !! j) as [x|] eqn:Hx; cbn [map detected].
  - rewrite filter_cons.
    destruct (decide (PrimFloat.ltb t x = true)); cbn [length]; by rewrite IH.
  - rewrite decide_False by done. done.
Qed.

Lemma genes_mask_spec (df : DataFrame float) (t : float) (ms : Z) (kept : list nat) :
  wf_frame df →
  series_ge (sum_axis1 (frame_gt
     (mkDF (index df) (select_at kept (columns df))
           (map (select_at kept) (values df))) t)) ms =
  map (λ i, bool_decide (ms ≤ samples_detecting_gene df t kept i)%Z)
      (seq 0 (length (index df))).
Proof.
  intros [Hlen _]. unfold series_ge, sum_axis1, frame_gt.
  cbn [s_values s_index columns values index].
  rewrite !map_map. rewrite <- Hlen.
  rewrite (map_as_seq _ (bool_decide (ms ≤ 0)%Z)).
  apply map_ext. intros i.
  unfold samples_detecting_gene, cell.
  destruct (values df !! i) as [row|] eqn:Hrow; cbn.
  - by rewrite count_true_row.
  - by rewrite filter_none by (apply Forall_forall; intros ? ? ?; done).
Qed.

Lemma loc_rows_positions {V} (df : DataFrame V) (P : nat → bool) :
  length (values df) = length (index df) →
  loc_rows_mask df (map P (seq 0 (length (index df)))) =
  mkDF (select_at (filter (λ i, P i = true) (seq 0 (length (index df)))) (index df))
       (columns df)
       (select_at (filter (λ i, P i = true) (seq 0 (length (index df)))) (values df)).
Proof.
  intros Hlen. unfold loc_rows_mask. f_equal.
  - apply mask_select_positions.
  - rewrite <- Hlen. apply mask_select_positions.
Qed.

Lemma filter_bool_decide_seq (Q : nat → Prop) `{!∀ x, Decision (Q x)} (n : nat) :
  filter (λ j, bool_decide (Q j) = true) (seq 0 n) = filter Q (seq 0 n).
Proof.
  apply filter_ext_Forall, Forall_forall. intros j _.
  by rewrite bool_decide_eq_true.
Qed.

(** The matrix that the code keeps after both stages. *)
Lemma df_final_spec (df : DataFrame float) (t : float) (mg ms : Z) :
  wf_frame df →
  let df_filtered_samples :=
    loc_columns_mask df (series_ge (sum_axis0 (frame_gt df t)) mg) in
  let kept := surviving_samples df t mg in
  df_filtered_samples =
    mkDF (index df) (select_at kept (columns df)) (map (select_at kept) (values df)) ∧
  loc_rows_mask df_filtered_samples
    (series_ge (sum_axis1 (frame_gt df_filtered_samples t)) ms) =
    submatrix df (surviving_genes df t ms kept) kept.
Proof.
  intros Hwf. cbn zeta.
  assert (H1 : loc_columns_mask df (series_ge (sum_axis0 (frame_gt df t)) mg) =
    mkDF (index df) (select_at (surviving_samples df t mg) (columns df))
      (map (select_at (surviving_samples df t mg)) (values df))).
  { rewrite samples_mask_spec by done.
    rewrite loc_columns_positions by done.
    by rewrite filter_bool_decide_seq. }
  split; [done|].
  rewrite H1. rewrite genes_mask_spec by done.
  set (kept := surviving_samples df t mg).
  pose proof (loc_rows_positions
    (mkDF (index df) (select_at kept (columns df)) (map (select_at kept) (values df)))
    (λ i, bool_decide (ms ≤ samples_detecting_gene df t kept i)%Z)) as Hr.
  cbn [index columns values] in Hr. rewrite Hr by (rewrite length_map; apply Hwf).
  rewrite filter_bool_decide_seq. unfold submatrix, surviving_genes.
  f_equal. apply select_at_map.
Qed.

(** ** The interpreter monad *)

Lemma py_bind_lift_ok {A B} (a : A) (f : A → Py B) :
  py_bind (py_lift (Ok a)) f = f a.
Proof. unfold py_bind, py_lift. by destruct (f a). Qed.

Lemma py_bind_lift_raise {A B} (e : exn) (f : A → Py B) :
  py_bind (py_lift (Raise e)) f = ([], Raise e).
Proof. done. Qed.

(** ** Label-based selection on unique labels *)

Lemma label_matches_fst {V} (idx : list label) (vals : list V) (k : label) :
  length vals = length idx →
  (label_matches idx vals k).*1 = filter (λ l, l = k) idx.
Proof.
  unfold label_matches. revert vals.
  induction idx as [|l idx IH]; intros [|v vals] Hlen; try done.
  cbn [zip zip_with]. rewrite !filter_cons. cbn [fst].
  destruct (decide (l = k)); cbn [fmap list_fmap fst]; rewrite IH; auto.
Qed.

Lemma loc_labels_unique {V} (idx : list label) (vals : list V) (keys : list label) :
  length vals = length idx →
  Forall (occurs_once idx) keys →
  ∃ hits, loc_labels idx vals keys = Ok hits ∧ hits.*1 = keys.
Proof.
  intros Hlen. induction 1 as [|k keys Hk _ IH].
  - by exists [].
  - destruct IH as (rest & Hrest & Hfst).
    pose proof (label_matches_fst idx vals k Hlen) as Hm.
    unfold occurs_once in Hk. rewrite Hk in Hm.
    cbn [loc_labels]. rewrite Hrest.
    destruct (label_matches idx vals k) as [|hit hits]; [done|].
    exists ((hit :: hits) ++ rest). split; [done|].
    rewrite fmap_app, Hm, Hfst. done.
Qed.

Lemma NoDup_occurs_once (idx : list label) (k : label) :
  NoDup idx → k ∈ idx → occurs_once idx k.
Proof.
  unfold occurs_once. induction 1 as [|l idx Hl Hnd IH]; intros Hk.
  - by apply elem_of_nil in Hk.
  - rewrite filter_cons. destruct (decide (l = k)) as [->|Hne].
    + f_equal. apply filter_none, Forall_forall. by intros x Hx ->.
    + apply IH. apply elem_of_cons in Hk as [->|Hk]; done.
Qed.

Lemma label_matches_nonempty {V} (idx : list label) (vals : list V) (k : label) :
  length vals = length idx → k ∈ idx → label_matches idx vals k ≠ [].
Proof.
  intros Hlen Hk Hnil. apply (f_equal (fmap fst)) in Hnil.
  rewrite label_matches_fst in Hnil by done.
  assert (k ∈ filter (λ l, l = k) idx) as Hin by by apply list_elem_of_filter.
  rewrite Hnil in Hin. by apply elem_of_nil in Hin.
Qed.

Lemma loc_labels_ok {V} (idx : list label) (vals : list V) (keys : list label) :
  length vals = length idx → Forall (λ k, k ∈ idx) keys →
  loc_labels idx vals keys = Ok (keys ≫= label_matches idx vals).
Proof.
  intros Hlen. induction 1 as [|k keys Hk _ IH]; [done|].
  cbn [loc_labels mbind list_bind]. rewrite IH.
  pose proof (label_matches_nonempty idx vals k Hlen Hk) as Hne.
  destruct (label_matches idx vals k) eqn:Hm; done.
Qed.

(** Selecting labels of which one is repeated in the index gives more
    entries than labels, and a repeated label among them. *)
Lemma bind_filter_repeated (idx keys : list label) :
  Forall (λ k, k ∈ idx) keys →
  ¬ Forall (occurs_once idx) keys →
  length keys < length (keys ≫= λ k, filter (λ l, l = k) idx) ∧
  ¬ NoDup (keys ≫= λ k, filter (λ l, l = k) idx).
Proof.
  assert (Hpos : ∀ k, k ∈ idx → 0 < length (filter (λ l, l = k) idx)).
  { intros k Hk.
    assert (Hin : k ∈ filter (λ l, l = k) idx) by by apply list_elem_of_filter.
    destruct (filter (λ l, l = k) idx); [by apply elem_of_nil in Hin|cbn; lia]. }
  assert (Hle : ∀ ks, Forall (λ k, k ∈ idx) ks →
                length ks ≤ length (ks ≫= λ k, filter (λ l, l = k) idx)).
  { induction 1 as [|k ks Hk _ IH]; [done|].
    cbn [mbind list_bind length]. rewrite length_app.
    specialize (Hpos k Hk). lia. }
  induction 1 as [|k keys Hk Hkeys IH]; intros Hrep.
  { exfalso. apply Hrep. constructor. }
  cbn [mbind list_bind length]. rewrite length_app.
  destruct (decide (filter (λ l, l = k) idx = [k])) as [Hone|Hmany].
  - destruct IH as [Hlen Hdup].
    { intros Hall. apply Hrep. by constructor. }
    unfold occurs_once in Hone. rewrite Hone. cbn [length]. split; [lia|].
    intros Hnd. apply NoDup_app in Hnd as (_ & _ & Hnd). done.
  - assert (Hall : Forall (λ l, l = k) (filter (λ l, l = k) idx)).
    { apply Forall_forall. intros l Hl. by apply list_elem_of_filter in Hl as [? _]. }
    specialize (Hpos k Hk). specialize (Hle keys Hkeys).
    unfold occurs_once in Hmany.
    destruct (filter (λ l, l = k) idx) as [|l1 [|l2 rest]] eqn:Hf.
    + cbn in Hpos. lia.
    + apply Forall_cons in Hall as [-> _]. done.
    + apply Forall_cons in Hall as [-> Hall]. apply Forall_cons in Hall as [-> _].
      cbn [length]. split; [lia|].
      intros Hnd. apply NoDup_app in Hnd as (Hnd & _ & _).
      apply NoDup_cons in Hnd as [Hnin _]. apply Hnin. by left.
Qed.

Lemma bind_label_matches_fst {V} (idx : list label) (vals : list V)
    (keys : list label) :
  length vals = length idx →
  (keys ≫= label_matches idx vals).*1 = keys ≫= λ k, filter (λ l, l = k) idx.
Proof.
  intros Hlen. induction keys as [|k keys IH]; [done|].
  cbn [mbind list_bind]. by rewrite fmap_app, IH, label_matches_fst.
Qed.

Lemma elem_of_select_at {A} (ps : list nat) (l : list A) (x : A) :
  x ∈ select_at ps l → x ∈ l.
Proof.
  unfold select_at. intros Hx. apply list_elem_of_omap in Hx as (p & _ & Hp).
  by eapply list_elem_of_lookup_2.
Qed.

Lemma frame_setitem_same_index (df : DataFrame pyval) (name : label) (s : Series pyval) :
  s_index s = index df →
  ∃ vals, frame_setitem df name s = Ok (mkDF (index df) (columns df ++ [name]) vals).
Proof.
  intros Hs. unfold frame_setitem.
  destruct (bool_decide (index df = [])) eqn:He.
  - apply bool_decide_eq_true in He. rewrite Hs, He. eauto.
  - rewrite bool_decide_eq_true_2 by done. eauto.
Qed.

(** ** [filter_tpm_matrix] *)

Section ProcessorFacts.
Context `{NumericKernels}.

Lemma filter_tpm_matrix_empty (df : DataFrame float) t mg ms :
  empty df = true →
  filter_tpm_matrix df t mg ms = ([WarnEmptyInput], Ok (pd_DataFrame, pd_DataFrame)).
Proof. intros He. unfold filter_tpm_matrix. by rewrite He. Qed.

Lemma empty_columns_nil {V} (idx cols : list label) (vals : list (list V)) :
  idx ≠ [] → empty (mkDF idx cols vals) = bool_decide (cols = []).
Proof.
  intros Hidx. unfold empty. cbn. by rewrite bool_decide_eq_false_2.
Qed.

Lemma empty_false_index {V} (df : DataFrame V) : empty df = false → index df ≠ [].
Proof.
  unfold empty. intros He Hi. by rewrite bool_decide_eq_true_2 in He.
Qed.

Lemma filter_tpm_matrix_none_pass (df : DataFrame float) t mg ms :
  wf_frame df → empty df = false →
  select_at (surviving_samples df t mg) (columns df) = [] →
  filter_tpm_matrix df t mg ms =
    ([WarnNoSamplesPassed], Ok (pd_DataFrame, pd_DataFrame)).
Proof.
  intros Hwf He Hnone. unfold filter_tpm_matrix. rewrite He.
  destruct (df_final_spec df t mg ms Hwf) as [-> _].
  rewrite empty_columns_nil by by apply empty_false_index.
  by rewrite bool_decide_eq_true_2.
Qed.

Lemma filter_tpm_matrix_some_pass (df : DataFrame float) t mg ms :
  wf_frame df → empty df = false →
  let kept := surviving_samples df t mg in
  select_at kept (columns df) ≠ [] →
  Forall (occurs_once (columns df)) (select_at kept (columns df)) →
  ∃ qc, filter_tpm_matrix df t mg ms =
          ([], Ok (submatrix df (surviving_genes df t ms kept) kept, qc)).
Proof.
  intros Hwf He kept Hsome Huniq. unfold filter_tpm_matrix. rewrite He.
  destruct (df_final_spec df t mg ms Hwf) as [H1 H2].
  cbn zeta in H1, H2. rewrite H2. rewrite H1.
  rewrite empty_columns_nil by by apply empty_false_index.
  rewrite bool_decide_eq_false_2 by done.
  fold kept. cbn [columns submatrix].
  destruct (loc_labels_unique (columns df)
              (s_values (sum_axis0 (frame_gt df t)))
              (select_at kept (columns df))) as (hits & Hhits & Hfst).
  { unfold sum_axis0. cbn. by rewrite length_map, length_seq. }
  { done. }
  unfold series_getitem. cbn [s_index sum_axis0 frame_gt columns] in *.
  rewrite Hhits. rewrite py_bind_lift_ok.
  match goal with |- context [frame_setitem ?d ?n ?s] =>
    destruct (frame_setitem_same_index d n s) as [vals1 ->]; [done|] end.
  rewrite py_bind_lift_ok.
  match goal with |- context [frame_setitem ?d ?n ?s] =>
    destruct (frame_setitem_same_index d n s) as [vals2 ->]; [done|] end.
  rewrite py_bind_lift_ok.
  eauto.
Qed.

(** A surviving sample label that is repeated among the columns: the
    selection of the detected counts by label returns every column carrying
    the label, and the assignment of that series to the QC table raises. *)
Lemma filter_tpm_matrix_repeated_label (df : DataFrame float) t mg ms :
  wf_frame df → empty df = false →
  ¬ Forall (occurs_once (columns df))
      (select_at (surviving_samples df t mg) (columns df)) →
  filter_tpm_matrix df t mg ms =
    ([], Raise (ValueError "cannot reindex on an axis with duplicate labels")).
Proof.
  intros Hwf He Hrep. unfold filter_tpm_matrix. rewrite He.
  destruct (df_final_spec df t mg ms Hwf) as [H1 H2].
  cbn zeta in H1, H2. rewrite H2. rewrite H1.
  set (kept := surviving_samples df t mg) in *.
  assert (Hsome : select_at kept (columns df) ≠ []).
  { intros Hnil. apply Hrep. rewrite Hnil. constructor. }
  rewrite empty_columns_nil by by apply empty_false_index.
  rewrite bool_decide_eq_false_2 by done.
  cbn [columns submatrix].
  assert (Hin : Forall (λ k, k ∈ columns df) (select_at kept (columns df))).
  { apply Forall_forall. intros k. apply elem_of_select_at. }
  assert (Hlen : length (s_values (sum_axis0 (frame_gt df t))) = length (columns df)).
  { unfold sum_axis0. cbn. by rewrite length_map, length_seq. }
  unfold series_getitem. cbn [s_index sum_axis0 frame_gt columns] in *.
  rewrite loc_labels_ok by done.
  rewrite py_bind_lift_ok.
  destruct (bind_filter_repeated (columns df) (select_at kept (columns df)) Hin Hrep)
    as [Hlong Hdup].
  rewrite <- (bind_label_matches_fst (columns df) _ _ Hlen) in Hlong, Hdup.
  unfold frame_setitem at 1. cbn [index frame_of_index series_map s_index].
  rewrite bool_decide_eq_false_2 by done.
  rewrite bool_decide_eq_false_2.
  2:{ intros Heq. rewrite Heq in Hlong. lia. }
  rewrite bool_decide_eq_false_2 by done.
  done.
Qed.

End ProcessorFacts.

Section FilterTheorems.
Context `{NumericKernels}.

Lemma surviving_samples_positions (df : DataFrame float) t mg :
  positions_of (length (columns df)) (surviving_samples df t mg).
Proof. apply positions_of_filter_seq. Qed.

Lemma surviving_genes_positions (df : DataFrame float) t ms kept :
  positions_of (length (index df)) (surviving_genes df t ms kept).
Proof. apply positions_of_filter_seq. Qed.

Lemma select_at_nil_iff {A} (ps : list nat) (l : list A) :
  Forall (λ p, p < length l) ps → select_at ps l = [] ↔ ps = [].
Proof.
  intros Hps. split; [|by intros ->].
  intros Hnil. apply (f_equal length) in Hnil.
  rewrite select_at_length_le in Hnil by done. by destruct ps.
Qed.

(** C1 (amended).  On a non-empty matrix whose surviving sample labels are
    not repeated among the columns, [filter_tpm_matrix] keeps exactly the
    samples in which at least [min_genes_per_sample] genes exceed
    [min_tpm], and, when at least one sample survives, exactly the genes
    that exceed [min_tpm] in at least [min_samples_per_gene] of the
    surviving samples; when no sample survives it warns and returns the
    empty frame, whatever [min_samples_per_gene] is.  When the label of a
    surviving sample is repeated among the columns, the call raises
    [ValueError] while it builds the QC table, and prints nothing. *)
Theorem filter_tpm_matrix_two_stage (df : DataFrame float) (min_tpm : float)
    (min_genes_per_sample min_samples_per_gene : Z) :
  wf_frame df → empty df = false →
  let kept := surviving_samples df min_tpm min_genes_per_sample in
  let genes := surviving_genes df min_tpm min_samples_per_gene kept in
  let run :=
    filter_tpm_matrix df min_tpm min_genes_per_sample min_samples_per_gene in
  (Forall (occurs_once (columns df)) (select_at kept (columns df)) →
     (kept ≠ [] → ∃ qc, run = ([], Ok (submatrix df genes kept, qc))) ∧
     (kept = [] → run = ([WarnNoSamplesPassed], Ok (pd_DataFrame, pd_DataFrame)))) ∧
  (¬ Forall (occurs_once (columns df)) (select_at kept (columns df)) →
     ∃ msg, run = ([], Raise (ValueError msg))).
Proof.
  intros Hwf He kept genes run.
  pose proof (surviving_samples_positions df min_tpm min_genes_per_sample) as [_ Hlt].
  split.
  - intros Huniq. split; intros Hk.
    + apply filter_tpm_matrix_some_pass; try done.
      fold kept. by rewrite select_at_nil_iff.
    + apply filter_tpm_matrix_none_pass; try done.
      fold kept. by rewrite Hk.
  - intros Hrep. eexists. by apply filter_tpm_matrix_repeated_label.
Qed.

End FilterTheorems.

Lemma filter_tpm_matrix_two_stage_witness :
  ∃ qc, @filter_tpm_matrix example_kernels tpm_example 1%float 2 2 =
          ([], Ok (mkDF ["g1"] ["s1"; "s3"] [[2; 5]]%float, qc)).
Proof.
  assert (Hwf : wf_frame tpm_example).
  { split; [reflexivity | repeat constructor]. }
  assert (Huniq : Forall (occurs_once (columns tpm_example))
            (select_at (surviving_samples tpm_example 1%float 2) (columns tpm_example))).
  { vm_compute. repeat constructor. }
  destruct (@filter_tpm_matrix_two_stage example_kernels tpm_example 1%float 2 2
              Hwf eq_refl) as [Hunique _].
  destruct (Hunique Huniq) as [Hsome _].
  apply Hsome. vm_compute. discriminate.
Defined.

(** One gene, one sample, value 0: no sample has a gene above 1, so no
    sample survives; with [min_samples_per_gene = 0] the gene meets its
    threshold over the (empty) set of surviving samples, yet the code
    returns the frame without rows.  Second input: two samples carrying
    the same label, of which the first survives; the call raises. *)
Lemma filter_tpm_matrix_two_stage_counterexample :
  ¬ @two_stage_as_stated example_kernels
      (mkDF ["g"] ["s"] [[0%float]]) 1%float 1 0 ∧
  ¬ @two_stage_as_stated example_kernels
      (mkDF ["g1"; "g2"] ["s"; "s"] [[2; 0]; [3; 0]]%float) 1%float 2 1.
Proof.
  split; intros (r & qc & Hout & Hkeep).
  - vm_compute in Hout. injection Hout as <- <-.
    destruct Hkeep as [Hidx _]. vm_compute in Hidx. discriminate.
  - vm_compute in Hout. discriminate.
Qed.

(** ** [filter_tpm_matrix] returns a submatrix and leaves its input alone *)

Section FilterFrame.
Context `{NumericKernels}.

Lemma is_submatrix_empty {V} (df : DataFrame V) : is_submatrix pd_DataFrame df.
Proof.
  exists [], []. repeat split; constructor.
Qed.

Lemma filter_tpm_matrix_returns_submatrix (df : DataFrame float) t mg ms r qc :
  wf_frame df →
  outcome (filter_tpm_matrix df t mg ms) = Ok (r, qc) →
  is_submatrix r df.
Proof.
  intros Hwf Hout. unfold filter_tpm_matrix in Hout.
  destruct (empty df) eqn:He.
  { cbn in Hout. injection Hout as <- _. apply is_submatrix_empty. }
  destruct (df_final_spec df t mg ms Hwf) as [H1 H2]. cbn zeta in H1, H2.
  destruct (empty (loc_columns_mask df _)) eqn:He2.
  { cbn in Hout. injection Hout as <- _. apply is_submatrix_empty. }
  rewrite H2 in Hout.
  assert (r = submatrix df (surviving_genes df t ms (surviving_samples df t mg))
                (surviving_samples df t mg)) as ->.
  { unfold outcome, py_bind, py_lift, py_ret in Hout.
    repeat match type of Hout with
    | context [series_getitem ?a ?b] => destruct (series_getitem a b); cbn in Hout; [|done]
    | context [frame_setitem ?a ?b ?c] => destruct (frame_setitem a b c); cbn in Hout; [|done]
    end.
    by injection Hout as <- _. }
  eexists _, _. split; [apply surviving_genes_positions|].
  split; [apply surviving_samples_positions|done].
Qed.

Lemma filter_tpm_matrix_returns (df : DataFrame float) t mg ms :
  wf_frame df → NoDup (columns df) →
  ∃ r qc, outcome (filter_tpm_matrix df t mg ms) = Ok (r, qc).
Proof.
  intros Hwf Hnd.
  destruct (empty df) eqn:He.
  { rewrite filter_tpm_matrix_empty by done. eauto. }
  set (kept := surviving_samples df t mg).
  destruct (decide (select_at kept (columns df) = [])) as [Hk|Hk].
  - rewrite filter_tpm_matrix_none_pass; eauto.
  - destruct (filter_tpm_matrix_some_pass df t mg ms Hwf He Hk) as [qc ->].
    + apply Forall_forall. intros k Hk'. apply NoDup_occurs_once; [done|].
      unfold select_at in Hk'. apply list_elem_of_omap in Hk' as (p & _ & Hp).
      by apply list_elem_of_lookup_2 in Hp.
    + eauto.
Qed.

Lemma select_at_sublist_shift {A} (l : list A) (k : nat) (ps : list nat) :
  StronglySorted lt ps → Forall (λ p, k ≤ p) ps →
  omap (λ p, l !! (p - k)) ps `sublist_of` l.
Proof.
  revert k ps. induction l as [|x l IH]; intros k ps Hs Hk.
  - rewrite (omap_ext_Forall _ (λ _, None)).
    + clear. induction ps; [constructor|done].
    + apply Forall_forall. intros p _. apply lookup_nil.
  - destruct Hs as [|p ps Hs Hp]; [apply sublist_nil_l|].
    apply Forall_cons in Hk as [Hkp Hk].
    assert (Hps : Forall (λ q, S k ≤ q) ps).
    { apply Forall_forall. intros q Hq. rewrite Forall_forall in Hp.
      specialize (Hp q Hq). lia. }
    assert (Hext : omap (λ q, (x :: l) !! (q - k)) ps =
                   omap (λ q, l !! (q - S k)) ps).
    { apply omap_ext_Forall. eapply Forall_impl; [exact Hps|].
      intros q Hq. cbn beta in *. replace (q - k) with (S (q - S k)) by lia. done. }
    destruct (decide (p = k)) as [->|Hne].
    + cbn [omap list_omap]. rewrite Nat.sub_diag.
      change ((x :: l) !! 0) with (Some x). cbv beta iota.
      rewrite Hext. apply sublist_skip. by apply IH.
    + apply sublist_cons.
      rewrite (omap_ext_Forall _ (λ q, l !! (q - S k))).
      * apply IH; [by constructor|]. constructor; [lia|done].
      * constructor; [|eapply Forall_impl; [exact Hps|]].
        -- replace (p - k) with (S (p - S k)) by lia. done.
        -- intros q Hq. cbn beta in *.
           replace (q - k) with (S (q - S k)) by lia. done.
Qed.

Lemma select_at_sublist {A} (l : list A) (ps : list nat) :
  positions_of (length l) ps → select_at ps l `sublist_of` l.
Proof.
  intros [Hs _]. unfold select_at.
  rewrite (omap_ext_Forall _ (λ p, l !! (p - 0))).
  - apply select_at_sublist_shift; [done|].
    apply Forall_forall. intros; lia.
  - apply Forall_forall. intros p _. by rewrite Nat.sub_0_r.
Qed.

Lemma is_submatrix_sublist {V} (r df : DataFrame V) :
  is_submatrix r df →
  index r `sublist_of` index df ∧ columns r `sublist_of` columns df.
Proof.
  intros (rows & cols & Hr & Hc & ->). cbn [submatrix index columns].
  split; by apply select_at_sublist.
Qed.

Lemma select_at_lookup {A} (l : list A) (ps : list nat) (a : nat) :
  Forall (λ p, p < length l) ps →
  select_at ps l !! a = ps !! a ≫= λ p, l !! p.
Proof.
  intros Hps. revert a. induction Hps as [|p ps Hp _ IH]; intros a; [done|].
  unfold select_at in *. cbn [omap list_omap].
  destruct (lookup_lt_is_Some_2 l p Hp) as [x Hx]. rewrite Hx.
  destruct a as [|a]; cbn; [by rewrite Hx|apply IH].
Qed.

(** The cells of a submatrix are the cells of the frame at the selected
    row and column. *)
Lemma submatrix_cell {V} (df : DataFrame V) (rows cols : list nat) (a b i j : nat) :
  wf_frame df →
  positions_of (length (index df)) rows →
  positions_of (length (columns df)) cols →
  rows !! a = Some i → cols !! b = Some j →
  cell (submatrix df rows cols) a b = cell df i j.
Proof.
  intros [Hlen Hrows] [_ Hr] [_ Hc] Ha Hb. unfold cell, submatrix. cbn [values].
  change (map (select_at cols) (select_at rows (values df)))
    with (select_at cols <$> select_at rows (values df)).
  rewrite list_lookup_fmap, select_at_lookup by by rewrite Hlen.
  rewrite Ha. cbn.
  destruct (values df !! i) as [row|] eqn:Hrow; [|done]. cbn.
  rewrite select_at_lookup.
  - by rewrite Hb.
  - rewrite Forall_forall in Hrows. rewrite (Hrows row); [done|].
    by eapply list_elem_of_lookup_2.
Qed.

Lemma alloc_fresh (o : object) (h : gmap ref object) r' h' :
  alloc o h = (r', h') →
  h !! r' = None ∧ h' !! r' = Some o ∧ ∀ r, is_Some (h !! r) → h' !! r = h !! r.
Proof.
  unfold alloc. intros [= <- <-].
  assert (Hf : h !! fresh (dom h) = None).
  { apply not_elem_of_dom, is_fresh. }
  split; [done|]. split; [apply lookup_insert_eq|].
  intros r [o' Hr]. apply lookup_insert_ne. intros <-. congruence.
Qed.

(** C9.  Whatever [filter_tpm_matrix] returns is an exact submatrix of its
    input: some of the input's rows and some of its columns, in their
    original order, every cell being the input's cell at that row and
    column; the input object is the same after the call, as is every other
    object of the store.  The call returns whenever the sample labels are
    distinct. *)
Theorem filter_tpm_matrix_frame (h : gmap ref object) (r : ref)
    (df : DataFrame float) (min_tpm : float)
    (min_genes_per_sample min_samples_per_gene : Z) :
  h !! r = Some (ExprFrame df) → wf_frame df →
  match outcome (filter_tpm_matrix_call r min_tpm min_genes_per_sample
                   min_samples_per_gene h) with
  | Ok (r1, _, h') =>
      (∃ res, h' !! r1 = Some (ExprFrame res) ∧ is_submatrix res df ∧
              index res `sublist_of` index df ∧
              columns res `sublist_of` columns df) ∧
      r1 ≠ r ∧
      h' !! r = Some (ExprFrame df) ∧
      (∀ r', is_Some (h !! r') → h' !! r' = h !! r')
  | Raise _ => ¬ NoDup (columns df)
  end.
Proof.
  intros Hr Hwf. unfold filter_tpm_matrix_call. rewrite Hr.
  destruct (filter_tpm_matrix df min_tpm min_genes_per_sample min_samples_per_gene)
    as [out [[res qc]|e]] eqn:Hf.
  - pose proof (filter_tpm_matrix_returns_submatrix df min_tpm
      min_genes_per_sample min_samples_per_gene res qc Hwf) as Hsub.
    rewrite Hf in Hsub. specialize (Hsub eq_refl).
    cbn [py_bind fst snd].
    destruct (alloc (ExprFrame res) h) as [r1 h1] eqn:Ha1.
    destruct (alloc (ObjFrame qc) h1) as [r2 h2] eqn:Ha2.
    cbn [py_ret outcome snd].
    apply alloc_fresh in Ha1 as (Hf1 & Hn1 & Hk1).
    apply alloc_fresh in Ha2 as (Hf2 & Hn2 & Hk2).
    split; [|split; [|split]].
    + exists res. split; [|split; [done|by apply is_submatrix_sublist]].
      rewrite Hk2 by (rewrite Hn1; eauto). done.
    + intros ->. congruence.
    + rewrite Hk2, Hk1; rewrite ?Hk1; eauto.
    + intros r' Hr'. rewrite Hk2, Hk1; rewrite ?Hk1; eauto.
  - cbn [py_bind outcome snd]. intros Hnd.
    destruct (filter_tpm_matrix_returns df min_tpm min_genes_per_sample
                min_samples_per_gene Hwf Hnd) as (r0 & qc & Hok).
    rewrite Hf in Hok. done.
Qed.

End FilterFrame.

Lemma filter_tpm_matrix_frame_witness :
  match outcome (@filter_tpm_matrix_call example_kernels 0 1%float 2 2
                   {[ 0 := ExprFrame tpm_example ]}) with
  | Ok (r1, _, h') =>
      (∃ res, h' !! r1 = Some (ExprFrame res) ∧ is_submatrix res tpm_example ∧
              index res `sublist_of` index tpm_example ∧
              columns res `sublist_of` columns tpm_example) ∧
      r1 ≠ 0 ∧
      h' !! 0 = Some (ExprFrame tpm_example) ∧
      (∀ r', is_Some (({[ 0 := ExprFrame tpm_example ]} : gmap ref object) !! r') →
             h' !! r' = ({[ 0 := ExprFrame tpm_example ]} : gmap ref object) !! r')
  | Raise _ => ¬ NoDup (columns tpm_example)
  end.
Proof.
  apply (@filter_tpm_matrix_frame example_kernels).
  - reflexivity.
  - split; [reflexivity | repeat constructor].
Defined.

(** ** Order of binary64 numbers *)

Lemma SFleb_rank (f1 f2 : spec_float) :
  f1 ≠ S754_nan → f2 ≠ S754_nan →
  SFleb f1 f2 = true ↔ lex_le (sf_rank f1) (sf_rank f2).
Proof.
  intros H1 H2. unfold SFleb, lex_le.
  destruct f1 as [s1|s1| |s1 m1 e1], f2 as [s2|s2| |s2 m2 e2]; try done;
    try destruct s1; try destruct s2; cbn; try (split; [intros _; lia | done]);
    try (split; [done | lia]).
  - change (Pos.compare_cont Eq m1 m2) with (Pos.compare m1 m2).
    destruct (Z.compare_spec e1 e2), (Pos.compare_spec m1 m2); cbn;
      split; try done; try lia.
  - change (Pos.compare_cont Eq m1 m2) with (Pos.compare m1 m2).
    destruct (Z.compare_spec e1 e2), (Pos.compare_spec m1 m2); cbn;
      split; try done; try lia.
Qed.

Lemma is_nan_false_spec (x : float) :
  PrimFloat.is_nan x = false → Prim2SF x ≠ S754_nan.
Proof.
  unfold PrimFloat.is_nan. rewrite FloatAxioms.eqb_spec. intros Hx Hnan.
  rewrite Hnan in Hx. done.
Qed.

Lemma leb_rank (x y : float) :
  PrimFloat.is_nan x = false → PrimFloat.is_nan y = false →
  PrimFloat.leb x y = true ↔ lex_le (sf_rank (Prim2SF x)) (sf_rank (Prim2SF y)).
Proof.
  intros Hx Hy. rewrite FloatAxioms.leb_spec.
  apply SFleb_rank; by apply is_nan_false_spec.
Qed.

Lemma leb_total (x y : float) :
  PrimFloat.is_nan x = false → PrimFloat.is_nan y = false →
  PrimFloat.leb x y = false → PrimFloat.leb y x = true.
Proof.
  intros Hx Hy Hxy. apply leb_rank; [done..|].
  assert (¬ lex_le (sf_rank (Prim2SF x)) (sf_rank (Prim2SF y))) as Hn.
  { rewrite <- leb_rank by done. by rewrite Hxy. }
  unfold lex_le in *. lia.
Qed.

Lemma leb_trans (x y z : float) :
  PrimFloat.is_nan x = false → PrimFloat.is_nan y = false →
  PrimFloat.is_nan z = false →
  PrimFloat.leb x y = true → PrimFloat.leb y z = true → PrimFloat.leb x z = true.
Proof.
  intros Hx Hy Hz. rewrite !leb_rank by done. unfold lex_le. lia.
Qed.

Lemma SFeqb_SFleb (f1 f2 : spec_float) : SFeqb f1 f2 = true → SFleb f2 f1 = true.
Proof.
  unfold SFeqb, SFleb.
  destruct f1 as [s1|s1| |s1 m1 e1], f2 as [s2|s2| |s2 m2 e2]; try done;
    try destruct s1; try destruct s2; cbn; try done.
  - change (Pos.compare_cont Eq m1 m2) with (Pos.compare m1 m2).
    change (Pos.compare_cont Eq m2 m1) with (Pos.compare m2 m1).
    destruct (Z.compare_spec e1 e2) as [->| |]; cbn; try done.
    destruct (Pos.compare_spec m1 m2) as [->| |]; cbn; try done.
    intros _. by rewrite Z.compare_refl, Pos.compare_refl.
  - change (Pos.compare_cont Eq m1 m2) with (Pos.compare m1 m2).
    change (Pos.compare_cont Eq m2 m1) with (Pos.compare m2 m1).
    destruct (Z.compare_spec e1 e2) as [->| |]; cbn; try done.
    destruct (Pos.compare_spec m1 m2) as [->| |]; cbn; try done.
    intros _. by rewrite Z.compare_refl, Pos.compare_refl.
Qed.

Lemma eqb_leb (x y : float) :
  PrimFloat.eqb x y = true → PrimFloat.leb y x = true.
Proof.
  rewrite FloatAxioms.eqb_spec, FloatAxioms.leb_spec. apply SFeqb_SFleb.
Qed.

(** ** [log_transform] *)

Lemma cell_frame_map {V W} (f : V → W) (df : DataFrame V) (i j : nat) :
  cell (frame_map f df) i j = f <$> cell df i j.
Proof.
  unfold cell, frame_map. cbn [values].
  change (map (map f) (values df)) with (map f <$> values df).
  rewrite list_lookup_fmap.
  destruct (values df !! i) as [row|]; [|done]. cbn.
  change (map f row) with (f <$> row). apply list_lookup_fmap.
Qed.

Section ProcessorTheorems.
Context `{NumericKernels} `{SkLearn}.

(** C8.  On a non-empty frame, [log_transform] with method ['log2'] puts
    [log2(x + 1)] in every cell, and with any other method string puts
    [log1p(x)], the natural logarithm of [1 + x], in every cell; the row
    labels, the column labels and the shape are those of the input. *)
Theorem log_transform_elementwise (df : DataFrame float) (method : string) :
  empty df = false →
  (method = "log2" →
     log_transform df method = frame_map (λ x, np_log2 (PrimFloat.add x 1%float)) df) ∧
  (method ≠ "log2" → log_transform df method = frame_map np_log1p df) ∧
  index (log_transform df method) = index df ∧
  columns (log_transform df method) = columns df ∧
  shape (log_transform df method) = shape df ∧
  ∀ i j, cell (log_transform df method) i j =
         (λ x, if bool_decide (method = "log2")
               then np_log2 (PrimFloat.add x 1%float) else np_log1p x) <$> cell df i j.
Proof.
  intros He. unfold log_transform. rewrite He.
  destruct (bool_decide (method = "log2")) eqn:Hm.
  - apply bool_decide_eq_true in Hm.
    assert (Heq : frame_map np_log2 (frame_map (λ x, PrimFloat.add x 1%float) df) =
                  frame_map (λ x, np_log2 (PrimFloat.add x 1%float)) df).
    { unfold frame_map. cbn [index columns values]. f_equal.
      rewrite map_map. apply map_ext. intros row. by rewrite map_map. }
    rewrite Heq. repeat split; try done. intros i j. apply cell_frame_map.
  - apply bool_decide_eq_false in Hm.
    repeat split; try done. intros i j. apply cell_frame_map.
Qed.

(** ** [run_pca_pipeline] *)

Lemma length_block_T {V} (n : nat) (m : list (list V)) : length (block_T n m) = n.
Proof. unfold block_T. by rewrite length_map, length_seq. Qed.

Lemma frame_of_values_ok {V} (vals : list (list V)) (idx cols : list label) :
  length vals = length idx →
  Forall (λ row, length row = length cols) vals →
  frame_of_values vals idx cols = Ok (mkDF idx cols vals).
Proof.
  intros Hlen Hrows. unfold frame_of_values.
  rewrite bool_decide_eq_true_2 by done.
  rewrite (proj2 (forallb_forall _ _)); [done|].
  intros row Hrow. apply bool_decide_eq_true.
  rewrite Forall_forall in Hrows. apply Hrows. by apply list_elem_of_In.
Qed.

Lemma pc_cols_names (n : nat) :
  map (λ i : nat, "PC" +:+ pretty (i + 1)) (seq 0 n) = pc_names n.
Proof.
  unfold pc_names. rewrite <- (fmap_S_seq 0 n).
  change (map ?f (S <$> ?l)) with (f <$> (S <$> l)).
  rewrite <- list_fmap_compose. apply map_ext. intros i. cbn.
  by rewrite Nat.add_1_r.
Qed.

(** C7 (amended).  On a non-empty scaled frame, [run_pca_pipeline] asks
    the PCA routine for exactly [min(n_components, number of samples,
    number of genes)] components of the samples × genes block; when the
    routine returns, the coordinate frame is indexed by the samples of the
    input and its columns are named [PC1] to [PC{actual_n}]; when the
    routine raises, as it does for a negative request, the exception is
    passed on and nothing is returned. *)
Theorem run_pca_pipeline_components (df_scaled : DataFrame float) (n_components : Z) :
  empty df_scaled = false →
  let actual_n :=
    Z.min (Z.min n_components (Z.of_nat (length (columns df_scaled))))
          (Z.of_nat (length (index df_scaled))) in
  match PCA_fit_transform actual_n (values (frame_T df_scaled)) with
  | Ok (X_pca, ratio) =>
      run_pca_pipeline df_scaled n_components =
        Ok (mkDF (columns df_scaled) (pc_names (Z.to_nat actual_n)) X_pca,
            ratio, Some (mkPCA actual_n))
  | Raise e => run_pca_pipeline df_scaled n_components = Raise e
  end.
Proof.
  intros He actual_n. unfold run_pca_pipeline. rewrite He.
  cbn [frame_T index columns values]. fold actual_n.
  destruct (PCA_fit_transform actual_n _) as [[X_pca ratio]|e] eqn:Hpca; [|done].
  apply PCA_fit_transform_shape in Hpca as [Hlen Hrows].
  rewrite length_block_T in Hlen.
  rewrite pc_cols_names.
  rewrite frame_of_values_ok; [done|done|].
  unfold pc_names. by rewrite length_map, length_seq.
Qed.

End ProcessorTheorems.

Lemma log_transform_elementwise_witness :
  @log_transform example_kernels hvg_example "log2" =
    frame_map (λ x, @np_log2 example_kernels (PrimFloat.add x 1%float)) hvg_example ∧
  @log_transform example_kernels hvg_example "log1p" =
    frame_map (@np_log1p example_kernels) hvg_example ∧
  shape (@log_transform example_kernels hvg_example "ln") = (4, 3).
Proof.
  destruct (@log_transform_elementwise example_kernels hvg_example "log2" eq_refl)
    as (Hlog2 & _).
  destruct (@log_transform_elementwise example_kernels hvg_example "log1p" eq_refl)
    as (_ & Hlog1p & _).
  destruct (@log_transform_elementwise example_kernels hvg_example "ln" eq_refl)
    as (_ & _ & _ & _ & Hshape & _).
  split; [by apply Hlog2|]. split; [by apply Hlog1p|]. exact Hshape.
Defined.

Lemma run_pca_pipeline_components_witness :
  ∃ X_pca ratio,
    @run_pca_pipeline example_sklearn hvg_example 50 =
      Ok (mkDF ["s1"; "s2"; "s3"] ["PC1"; "PC2"; "PC3"] X_pca, ratio, Some (mkPCA 3)).
Proof.
  pose proof (@run_pca_pipeline_components example_sklearn hvg_example 50 eq_refl) as Hrun.
  cbv zeta in Hrun.
  destruct (@PCA_fit_transform example_sklearn _ _) as [[X_pca ratio]|e] eqn:Hpca.
  - exists X_pca, ratio. exact Hrun.
  - vm_compute in Hpca. discriminate.
Defined.

(** A request for -1 components of the 4 × 3 example: [actual_n] is -1,
    the PCA routine refuses it, and the call raises instead of returning
    coordinates. *)
Lemma run_pca_pipeline_components_counterexample :
  (∃ msg, @run_pca_pipeline example_sklearn hvg_example (-1) =
            Raise (ValueError msg)) ∧
  ¬ @pca_as_stated example_sklearn hvg_example (-1).
Proof.
  split.
  - eexists. vm_compute. reflexivity.
  - intros (df_pca & explained & pca & Hrun & _). vm_compute in Hrun. discriminate.
Qed.

(** ** Sorting, largest first *)

Section SortDesc.
Context {A : Type} (key : A → float).

Lemma insert_desc_perm (x : A) (l : list A) : insert_desc key x l ≡ₚ x :: l.
Proof.
  induction l as [|y l IH]; cbn [insert_desc]; [done|].
  destruct (PrimFloat.leb (key y) (key x)); [done|].
  rewrite IH. apply Permutation_swap.
Qed.

Lemma sort_desc_perm (l : list A) : sort_desc key l ≡ₚ l.
Proof.
  induction l as [|x l IH]; [done|].
  cbn [sort_desc foldr]. fold (sort_desc key l).
  by rewrite insert_desc_perm, IH.
Qed.

Lemma insert_desc_sorted (x : A) (l : list A) :
  PrimFloat.is_nan (key x) = false →
  Forall (λ a, PrimFloat.is_nan (key a) = false) l →
  StronglySorted (ge_key key) l → StronglySorted (ge_key key) (insert_desc key x l).
Proof.
  intros Hx Hl Hs. induction Hs as [|y l Hs IH Hy]; cbn [insert_desc].
  - repeat constructor.
  - apply Forall_cons in Hl as [Hny Hl].
    destruct (PrimFloat.leb (key y) (key x)) eqn:Hyx.
    + constructor; [by constructor|]. constructor; [done|].
      rewrite Forall_forall in Hy, Hl. apply Forall_forall. intros z Hz.
      unfold ge_key in *. eapply leb_trans; [| | |apply Hy|]; eauto.
    + constructor; [by apply IH|].
      rewrite (insert_desc_perm x l). constructor; [|done].
      unfold ge_key. by apply leb_total.
Qed.

Lemma sort_desc_sorted (l : list A) :
  Forall (λ a, PrimFloat.is_nan (key a) = false) l →
  StronglySorted (ge_key key) (sort_desc key l).
Proof.
  induction 1 as [|x l Hx Hl IH]; [constructor|].
  cbn [sort_desc foldr]. fold (sort_desc key l).
  apply insert_desc_sorted; [done| |done].
  by rewrite sort_desc_perm.
Qed.

(** The first [n] entries of the sorted list dominate the others. *)
Lemma sort_desc_top (l : list A) (n : nat) (a b : A) :
  Forall (λ a, PrimFloat.is_nan (key a) = false) l →
  a ∈ take n (sort_desc key l) → b ∈ drop n (sort_desc key l) →
  PrimFloat.leb (key b) (key a) = true.
Proof.
  intros Hl Ha Hb. pose proof (sort_desc_sorted l Hl) as Hs.
  rewrite <- (take_drop n (sort_desc key l)) in Hs.
  by apply (StronglySorted_app_1_elem_of _ _ _ a b) in Hs.
Qed.

End SortDesc.

(** ** Sorting without stability *)

Section QuicksortDesc.
Context {A : Type} (key : A → float) (swaps : nat → nat → bool).

Lemma insert_desc_by_perm (x : nat * A) (l : list (nat * A)) :
  insert_desc_by key swaps x l ≡ₚ x :: l.
Proof.
  induction l as [|y l IH]; cbn [insert_desc_by]; [done|].
  destruct (_ && _); [done|].
  rewrite IH. apply Permutation_swap.
Qed.

Lemma foldr_insert_desc_by_perm (l : list (nat * A)) :
  foldr (insert_desc_by key swaps) [] l ≡ₚ l.
Proof.
  induction l as [|x l IH]; [done|].
  cbn [foldr]. by rewrite insert_desc_by_perm, IH.
Qed.

Lemma imap_pair_snd (l : list A) : (imap pair l).*2 = l.
Proof.
  apply list_eq. intros i. rewrite list_lookup_fmap, list_lookup_imap.
  by destruct (l !! i).
Qed.

Lemma quicksort_desc_perm (l : list A) : quicksort_desc key swaps l ≡ₚ l.
Proof.
  unfold quicksort_desc. rewrite foldr_insert_desc_by_perm.
  by rewrite imap_pair_snd.
Qed.

Lemma insert_desc_by_sorted (x : nat * A) (l : list (nat * A)) :
  PrimFloat.is_nan (key x.2) = false →
  Forall (λ a, PrimFloat.is_nan (key a.2) = false) l →
  StronglySorted (ge_key (λ a, key a.2)) l →
  StronglySorted (ge_key (λ a, key a.2)) (insert_desc_by key swaps x l).
Proof.
  intros Hx Hl Hs. induction Hs as [|y l Hs IH Hy]; cbn [insert_desc_by].
  - repeat constructor.
  - apply Forall_cons in Hl as [Hny Hl].
    destruct (PrimFloat.leb (key y.2) (key x.2)) eqn:Hyx; cbn [andb].
    + destruct (PrimFloat.eqb (key y.2) (key x.2) && swaps x.1 y.1) eqn:Hswap;
        cbn [negb].
      * constructor; [by apply IH|].
        rewrite (insert_desc_by_perm x l). constructor; [|done].
        unfold ge_key. apply andb_true_iff in Hswap as [Heq _].
        by apply eqb_leb.
      * constructor; [by constructor|]. constructor; [done|].
        rewrite Forall_forall in Hy, Hl. apply Forall_forall. intros z Hz.
        unfold ge_key in *. eapply leb_trans; [| | |apply Hy|]; eauto.
    + constructor; [by apply IH|].
      rewrite (insert_desc_by_perm x l). constructor; [|done].
      unfold ge_key. by apply leb_total.
Qed.

Lemma quicksort_desc_sorted (l : list A) :
  Forall (λ a, PrimFloat.is_nan (key a) = false) l →
  StronglySorted (ge_key key) (quicksort_desc key swaps l).
Proof.
  intros Hl. unfold quicksort_desc.
  assert (Hl' : Forall (λ a : nat * A, PrimFloat.is_nan (key a.2) = false)
                  (imap pair l)).
  { apply Forall_forall. intros [i a] Hin.
    apply elem_of_lookup_imap_1 in Hin as (j & b & [= -> ->] & Hb).
    rewrite Forall_forall in Hl. apply Hl. by eapply list_elem_of_lookup_2. }
  assert (Hs : StronglySorted (ge_key (λ a : nat * A, key a.2))
                 (foldr (insert_desc_by key swaps) [] (imap pair l))).
  { induction Hl' as [|x l' Hx Hl' IH]; [constructor|].
    cbn [foldr]. apply insert_desc_by_sorted; [done| |done].
    by rewrite foldr_insert_desc_by_perm. }
  induction Hs as [|x l' Hs IH Hx]; [constructor|].
  cbn [fmap list_fmap]. constructor; [done|].
  apply Forall_fmap. eapply Forall_impl; [exact Hx|]. done.
Qed.

End QuicksortDesc.

(** ** [select_highly_variable_genes] *)

Lemma fillna0_not_nan (x : float) : PrimFloat.is_nan (fillna0 x) = false.
Proof. unfold fillna0. by destruct (PrimFloat.is_nan x) eqn:Hx. Qed.

Lemma loc_labels_hits {V} (idx : list label) (vals : list V) (keys : list label) hits :
  loc_labels idx vals keys = Ok hits → Forall (λ p, p ∈ zip idx vals) hits.
Proof.
  revert hits. induction keys as [|k keys IH]; intros hits; cbn [loc_labels].
  - intros [= <-]. constructor.
  - destruct (label_matches idx vals k) as [|hit hs] eqn:Hm; [done|].
    destruct (loc_labels idx vals keys) as [rest|]; [|done].
    intros [= <-]. change (hit :: hs ++ rest) with ((hit :: hs) ++ rest).
    apply Forall_app. split; [|by apply IH].
    rewrite <- Hm. apply Forall_forall. intros p Hp.
    unfold label_matches in Hp. by apply list_elem_of_filter in Hp as [_ Hp].
Qed.

Lemma elem_of_zip_fmap {V W} (f : V → W) (idx : list label) (vals : list V) g v :
  (g, v) ∈ zip idx vals → (g, f v) ∈ zip idx (map f vals).
Proof.
  revert vals. induction idx as [|l idx IH]; intros [|w vals] Hin;
    cbn in *; try by apply elem_of_nil in Hin.
  apply elem_of_cons in Hin as [[= -> ->]|Hin]; [left|right; by apply IH].
Qed.

Lemma zip_fst_length {V} (idx : list label) (vals : list V) :
  length vals = length idx → (zip idx vals).*1 = idx.
Proof. intros Hlen. apply fst_zip. lia. Qed.

Lemma filter_all {A} (P : A → Prop) `{!∀ x, Decision (P x)} (l : list A) :
  Forall P l → filter P l = l.
Proof.
  induction 1 as [|x l Hx ? IH]; [done|].
  by rewrite filter_cons, decide_True, IH.
Qed.

Section Hvg.
Context `{NumericKernels}.

Lemma dispersion_values (vals : list (list float)) :
  map fillna0
    (zip_with PrimFloat.div (map np_nanvar vals)
       (map (λ m, PrimFloat.add m epsilon) (map np_nanmean vals))) =
  map gene_dispersion vals.
Proof. induction vals as [|row vals IH]; [done|]. cbn. by rewrite IH. Qed.

(** What [nlargest] selects among the (NaN-free) dispersions. *)
Lemma nlargest_dispersion (idx : list label) (vals : list (list float)) (n : Z) :
  (0 < n)%Z →
  nlargest n (mkSeries idx (map gene_dispersion vals)) =
  let top := take (Z.to_nat n) (sort_desc snd (zip idx (map gene_dispersion vals))) in
  mkSeries top.*1 top.*2.
Proof.
  intros Hn. unfold nlargest. rewrite bool_decide_eq_false_2 by lia.
  cbn [s_index s_values].
  set (entries := zip idx (map gene_dispersion vals)).
  assert (Hnn : Forall (λ p : label * float, PrimFloat.is_nan p.2 = false) entries).
  { apply Forall_forall. intros [g d] Hin. cbn.
    apply elem_of_zip_r in Hin. apply list_elem_of_fmap in Hin as (row & -> & _).
    apply fillna0_not_nan. }
  rewrite (filter_all _ entries Hnn).
  assert (Hnans : (if bool_decide (Z.of_nat (length entries) ≤ n)%Z
                   then filter (λ p : label * float, PrimFloat.is_nan p.2 = true) entries
                   else filter (λ p : label * float, p.1 ∉ entries.*1) entries) = []).
  { case_bool_decide.
    - apply filter_none. eapply Forall_impl; [exact Hnn|].
      intros p Hp. cbn in *. by rewrite Hp.
    - apply filter_none, Forall_forall. intros p Hp Hnot. apply Hnot.
      apply list_elem_of_fmap. eauto. }
  rewrite Hnans, app_nil_r. done.
Qed.

End Hvg.

Lemma frame_loc_rows_unique {V} (df : DataFrame V) (keys : list label) :
  wf_frame df → NoDup (index df) → Forall (λ k, k ∈ index df) keys →
  ∃ hits, frame_loc_rows df keys = Ok (mkDF keys (columns df) hits.*2) ∧
          hits.*1 = keys ∧ Forall (λ p, p ∈ zip (index df) (values df)) hits.
Proof.
  intros [Hlen _] Hnd Hkeys.
  destruct (loc_labels_unique (index df) (values df) keys Hlen) as (hits & Hhits & Hfst).
  { eapply Forall_impl; [exact Hkeys|]. intros k Hk. by apply NoDup_occurs_once. }
  exists hits. unfold frame_loc_rows. rewrite Hhits, Hfst.
  split; [done|]. split; [done|]. by eapply loc_labels_hits.
Qed.

Lemma metrics_lookup `{NumericKernels} (idx hvg : list label)
    (vals : list (list float)) (i : nat) (g : label) (row : list float) :
  idx !! i = Some g → vals !! i = Some row →
  zip_with (λ (mv : float * float) (db : float * bool),
              [PFloat mv.1; PFloat mv.2; PFloat db.1; PBool db.2])
    (zip (map np_nanmean vals) (map np_nanvar vals))
    (zip (map gene_dispersion vals) (index_isin idx hvg)) !! i =
  Some [PFloat (np_nanmean row); PFloat (np_nanvar row);
        PFloat (gene_dispersion row); PBool (bool_decide (g ∈ hvg))].
Proof.
  intros Hg Hrow. unfold index_isin.
  change (map ?f ?l) with (f <$> l).
  rewrite !lookup_zip_with, !list_lookup_fmap, Hg, Hrow. done.
Qed.

Section HvgTheorem.
Context `{NumericKernels}.

(** C2 (amended).  On a non-empty frame with distinct gene labels,
    [select_highly_variable_genes] computes for each gene the dispersion
    [variance / (mean + 1e-9)] with NaN replaced by 0, and returns
    [max(0, min(n_top_genes, number of genes))] rows of the input, no row
    twice, such that every returned gene has a dispersion at least as large
    as every gene that is not returned; in the metrics table, indexed like
    the input, [is_hvg] is true exactly for the returned genes. *)
Theorem select_highly_variable_genes_top (df : DataFrame float) (n_top_genes : Z) :
  wf_frame df → empty df = false → NoDup (index df) →
  ∃ df_hvg metrics,
    select_highly_variable_genes df n_top_genes = Ok (df_hvg, metrics) ∧
    length (index df_hvg) =
      Z.to_nat (Z.min n_top_genes (Z.of_nat (length (index df)))) ∧
    columns df_hvg = columns df ∧
    length (values df_hvg) = length (index df_hvg) ∧
    NoDup (index df_hvg) ∧
    (∀ p, p ∈ zip (index df_hvg) (values df_hvg) → p ∈ zip (index df) (values df)) ∧
    (∀ g row g' row',
       (g, row) ∈ zip (index df) (values df) → g ∈ index df_hvg →
       (g', row') ∈ zip (index df) (values df) → g' ∉ index df_hvg →
       PrimFloat.leb (gene_dispersion row') (gene_dispersion row) = true) ∧
    index metrics = index df ∧
    columns metrics = ["mean"; "variance"; "dispersion"; "is_hvg"] ∧
    (∀ i g row, index df !! i = Some g → values df !! i = Some row →
       values metrics !! i =
         Some [PFloat (np_nanmean row); PFloat (np_nanvar row);
               PFloat (gene_dispersion row); PBool (bool_decide (g ∈ index df_hvg))]).
Proof.
  intros Hwf He Hnd. pose proof Hwf as [Hlen _].
  unfold select_highly_variable_genes. rewrite He.
  cbn [s_index s_values]. rewrite dispersion_values.
  set (n := Z.min n_top_genes (Z.of_nat (length (index df)))).
  set (entries := zip (index df) (map gene_dispersion (values df))).
  set (sorted := sort_desc snd entries).
  assert (Hperm : sorted ≡ₚ entries) by apply sort_desc_perm.
  assert (Hentries1 : entries.*1 = index df).
  { apply zip_fst_length. by rewrite length_map. }
  assert (Hsorted_nd : NoDup sorted.*1).
  { rewrite Hperm, Hentries1. done. }
  assert (Hnn : Forall (λ p : label * float, PrimFloat.is_nan p.2 = false) entries).
  { apply Forall_forall. intros [g d] Hin. cbn.
    apply elem_of_zip_r in Hin. apply list_elem_of_fmap in Hin as (row & -> & _).
    apply fillna0_not_nan. }
  (* the labels selected by [nlargest] *)
  assert (Hsel : s_index (nlargest n (mkSeries (index df) (map gene_dispersion (values df))))
                 = (take (Z.to_nat n) sorted).*1).
  { destruct (decide (n ≤ 0)%Z) as [Hle|Hgt].
    - unfold nlargest. rewrite bool_decide_eq_true_2 by done.
      replace (Z.to_nat n) with 0 by lia. done.
    - rewrite nlargest_dispersion by lia. done. }
  rewrite Hsel. set (hvg := (take (Z.to_nat n) sorted).*1).
  assert (Hhvg_sub : Forall (λ k, k ∈ index df) hvg).
  { apply Forall_forall. intros k Hk. rewrite <- Hentries1, <- Hperm.
    unfold hvg in Hk. rewrite fmap_take in Hk.
    apply elem_of_take in Hk as (i & Hi & _). by eapply list_elem_of_lookup_2. }
  destruct (frame_loc_rows_unique df hvg Hwf Hnd Hhvg_sub) as (hits & -> & Hfst & Hin).
  eexists _, _. split; [reflexivity|]. cbn [index columns values].
  assert (Hsplit : sorted.*1 = hvg ++ (drop (Z.to_nat n) sorted).*1).
  { unfold hvg. by rewrite <- fmap_app, take_drop. }
  repeat split.
  - unfold hvg. rewrite length_fmap, length_take.
    assert (length sorted = length (index df)) as ->.
    { rewrite Hperm. unfold entries. rewrite length_zip_with, length_map. lia. }
    lia.
  - rewrite <- Hfst. by rewrite !length_fmap.
  - rewrite Hsplit in Hsorted_nd. by apply NoDup_app in Hsorted_nd as [? _].
  - intros p Hp. rewrite <- Hfst, zip_fst_snd in Hp.
    rewrite Forall_forall in Hin. by apply Hin.
  - intros g row g' row' Hg Hghvg Hg' Hg'hvg.
    apply (elem_of_zip_fmap gene_dispersion) in Hg, Hg'.
    fold entries in Hg, Hg'. rewrite <- Hperm in Hg, Hg'.
    rewrite Hsplit in Hsorted_nd. apply NoDup_app in Hsorted_nd as (_ & Hdisj & _).
    rewrite <- (take_drop (Z.to_nat n) sorted) in Hg, Hg'.
    apply elem_of_app in Hg as [Hg|Hg]; apply elem_of_app in Hg' as [Hg'|Hg'].
    + exfalso. apply Hg'hvg. unfold hvg. apply list_elem_of_fmap. by exists (g', gene_dispersion row').
    + apply (sort_desc_top snd entries (Z.to_nat n) (g, gene_dispersion row)
               (g', gene_dispersion row')); done.
    + exfalso. apply Hg'hvg. unfold hvg. apply list_elem_of_fmap. by exists (g', gene_dispersion row').
    + exfalso. apply (Hdisj g Hghvg). apply list_elem_of_fmap. by exists (g, gene_dispersion row).
  - intros i g row Hg Hrow. by apply metrics_lookup.
Qed.

End HvgTheorem.

Lemma select_highly_variable_genes_top_witness :
  ∃ df_hvg metrics,
    @select_highly_variable_genes example_kernels hvg_example 2 = Ok (df_hvg, metrics) ∧
    length (index df_hvg) = 2 ∧
    NoDup (index df_hvg) ∧
    index metrics = ["g1"; "g2"; "g3"; "g4"].
Proof.
  assert (Hwf : wf_frame hvg_example).
  { split; [reflexivity | repeat constructor]. }
  assert (Hnd : NoDup (index hvg_example)).
  { apply (bool_decide_unpack _). vm_compute. exact I. }
  destruct (@select_highly_variable_genes_top example_kernels hvg_example 2
              Hwf eq_refl Hnd)
    as (df_hvg & metrics & Hrun & Hlen & _ & _ & Hnodup & _ & _ & Hidx & _).
  exists df_hvg, metrics. repeat split; done.
Defined.

(** Two genes carrying the same label: asking for one gene returns both
    rows.  A negative [n_top_genes] returns no row. *)
Lemma select_highly_variable_genes_counterexample :
  ¬ @hvg_as_stated example_kernels
      (mkDF ["g"; "g"] ["s1"; "s2"; "s3"] [[2; 0; 4]; [3; 0; 0]]%float) 1 ∧
  ¬ @hvg_as_stated example_kernels hvg_example (-1).
Proof.
  split; intros (df_hvg & metrics & Hrun & Hlen);
    vm_compute in Hrun; injection Hrun as <- _; vm_compute in Hlen; discriminate.
Qed.

(** ** Transposition *)

Lemma column_values_lookup {V} (m : list (list V)) (j i : nat) (row : list V) :
  Forall (λ r, j < length r) m → m !! i = Some row →
  column_values m j !! i = row !! j.
Proof.
  intros Hm. revert i. induction Hm as [|r m Hr _ IH]; intros i Hi; [done|].
  unfold column_values in *. cbn [omap list_omap].
  destruct (lookup_lt_is_Some_2 r j Hr) as [x Hx]. rewrite Hx.
  destruct i as [|i]; cbn in *.
  - injection Hi as <-. by rewrite Hx.
  - by apply IH.
Qed.

Lemma length_column_values {V} (m : list (list V)) (j : nat) :
  Forall (λ r, j < length r) m → length (column_values m j) = length m.
Proof.
  induction 1 as [|r m Hr _ IH]; [done|].
  unfold column_values in *. cbn [omap list_omap].
  destruct (lookup_lt_is_Some_2 r j Hr) as [x ->]. cbn. by rewrite IH.
Qed.

Lemma omap_lookup_seq {V} (row : list V) :
  omap (λ j, row !! j) (seq 0 (length row)) = row.
Proof.
  induction row as [|x row IH] using rev_ind; [done|].
  rewrite length_app. cbn [length]. rewrite Nat.add_1_r, seq_S, omap_app.
  cbn [Nat.add omap list_omap]. rewrite lookup_app_r by lia.
  rewrite Nat.sub_diag. cbn. f_equal. etrans; [|exact IH].
  apply omap_ext_Forall, Forall_forall. intros j Hj.
  apply elem_of_seq in Hj. by rewrite lookup_app_l by lia.
Qed.

Lemma omap_fmap_compose {A B C} (g : A → B) (f : B → option C) (l : list A) :
  omap f (g <$> l) = omap (λ x, f (g x)) l.
Proof.
  induction l as [|x l IH]; [done|].
  cbn [fmap list_fmap omap list_omap]. by rewrite <- IH.
Qed.

Lemma block_T_involutive {V} (n c : nat) (m : list (list V)) :
  length m = n → Forall (λ row, length row = c) m →
  block_T n (block_T c m) = m.
Proof.
  intros Hn Hc. apply list_eq. intros i. unfold block_T.
  change (map ?f ?l) with (f <$> l). rewrite list_lookup_fmap.
  destruct (decide (i < n)) as [Hi|Hi].
  - rewrite lookup_seq_lt by done. cbn.
    destruct (lookup_lt_is_Some_2 m i) as [row Hrow]; [lia|]. rewrite Hrow. f_equal.
    unfold column_values at 1. rewrite omap_fmap_compose.
    assert (Hrowlen : length row = c).
    { rewrite Forall_forall in Hc. apply Hc. by eapply list_elem_of_lookup_2. }
    etrans; [|apply (omap_lookup_seq row)]. rewrite Hrowlen.
    apply omap_ext_Forall, Forall_forall. intros j Hj. apply elem_of_seq in Hj.
    apply column_values_lookup; [|done].
    eapply Forall_impl; [exact Hc|]. intros r Hr. cbn in *. lia.
  - rewrite lookup_seq_ge by lia. cbn. symmetry. apply lookup_ge_None. lia.
Qed.

Lemma block_T_rows {V} (c : nat) (m : list (list V)) :
  Forall (λ row, length row = c) m →
  Forall (λ col, length col = length m) (block_T c m).
Proof.
  intros Hc. unfold block_T. apply Forall_forall. intros col Hcol.
  change (map ?f ?l) with (f <$> l) in Hcol.
  apply list_elem_of_fmap in Hcol as (j & -> & Hj). apply elem_of_seq in Hj.
  apply length_column_values. eapply Forall_impl; [exact Hc|].
  intros r Hr. cbn in *. lia.
Qed.

(** ** [scale_data] *)

Section ScaleData.
Context `{StandardScaler}.

(** Transposing, scaling every feature and transposing back scales every
    gene row of the frame, when the scaler accepts the transposed frame. *)
Lemma scale_data_rows (df : DataFrame float) :
  wf_frame df → empty df = false →
  scale_data df =
    match scaler_check (frame_T df) with
    | Ok _ => Ok (mkDF (index df) (columns df) (map standardize (values df)))
    | Raise e => Raise e
    end.
Proof.
  intros [Hlen Hrows] He. unfold scale_data, fit_transform. rewrite He.
  destruct (scaler_check (frame_T df)) as [[]|e]; [|done].
  cbn [res_bind frame_T index columns values].
  rewrite length_block_T.
  rewrite (block_T_involutive (length (index df)) (length (columns df)) (values df))
    by done.
  rewrite (block_T_involutive (length (index df)) (length (columns df))).
  - apply frame_of_values_ok.
    + by rewrite length_map.
    + apply Forall_forall. intros row Hrow.
      change (map ?f ?l) with (f <$> l) in Hrow.
      apply list_elem_of_fmap in Hrow as (row0 & -> & Hrow0).
      rewrite standardize_length. rewrite Forall_forall in Hrows. by apply Hrows.
  - by rewrite length_map.
  - apply Forall_forall. intros row Hrow.
    change (map ?f ?l) with (f <$> l) in Hrow.
    apply list_elem_of_fmap in Hrow as (row0 & -> & Hrow0).
    rewrite standardize_length. rewrite Forall_forall in Hrows. by apply Hrows.
Qed.


End ScaleData.



(** ** Index intersection and label selection *)

Lemma elem_of_unique_from (seen l : list label) (x : label) :
  x ∈ unique_from seen l ↔ x ∈ l ∧ x ∉ seen.
Proof.
  revert seen. induction l as [|y l IH]; intros seen; cbn [unique_from].
  - split; [by intros ?%elem_of_nil|]. by intros [?%elem_of_nil _].
  - case_bool_decide as Hy.
    + rewrite IH, elem_of_cons. split; [intros [? ?]; split; [by right|done]|].
      intros [[->|Hx] Hn]; [done|done].
    + rewrite elem_of_cons, IH, !elem_of_cons. split.
      * intros [->|(Hx & Hn)]; [by split; [left|]|]. split; [by right|].
        intros Hs. apply Hn. by right.
      * intros [[->|Hx] Hn]; [by left|].
        destruct (decide (x = y)) as [->|Hne]; [by left|].
        right. split; [done|]. by intros [?|?].
Qed.

Lemma NoDup_unique_from (seen l : list label) : NoDup (unique_from seen l).
Proof.
  revert seen. induction l as [|y l IH]; intros seen; cbn [unique_from].
  - constructor.
  - case_bool_decide; [apply IH|]. constructor; [|apply IH].
    rewrite elem_of_unique_from. intros [_ Hn]. apply Hn. by left.
Qed.

Lemma unique_from_NoDup (seen l : list label) :
  NoDup l → Forall (λ x, x ∉ seen) l → unique_from seen l = l.
Proof.
  intros Hnd. revert seen. induction Hnd as [|y l Hy Hnd IH]; intros seen Hs; [done|].
  apply Forall_cons in Hs as [Hys Hs]. cbn [unique_from].
  rewrite bool_decide_eq_false_2 by done. f_equal. apply IH.
  apply Forall_forall. intros x Hx. rewrite Forall_forall in Hs.
  intros [->|Hin]%elem_of_cons; [done|]. by apply (Hs x).
Qed.

Lemma elem_of_index_intersection (left right : list label) (x : label) :
  x ∈ index_intersection left right ↔ x ∈ left ∧ x ∈ right.
Proof.
  unfold index_intersection. rewrite elem_of_unique_from, list_elem_of_filter.
  split; [by intros [[? ?] _]|]. intros [? ?]. split; [done|]. by intros ?%elem_of_nil.
Qed.

Lemma NoDup_index_intersection (left right : list label) :
  NoDup (index_intersection left right).
Proof. apply NoDup_unique_from. Qed.

Lemma filter_cons_key_perm {V} (k : label) (keys : list label)
    (l : list (label * V)) :
  k ∉ keys →
  filter (λ p, p.1 ∈ k :: keys) l ≡ₚ
  filter (λ p, p.1 = k) l ++ filter (λ p, p.1 ∈ keys) l.
Proof.
  intros Hk. induction l as [|x l IH]; [done|].
  rewrite !filter_cons.
  destruct (decide (x.1 = k)) as [Hx|Hx].
  - rewrite decide_True by (rewrite Hx; by left).
    rewrite decide_False by by rewrite Hx.
    cbn. by rewrite IH.
  - destruct (decide (x.1 ∈ keys)) as [Hin|Hin].
    + rewrite decide_True by by right.
      rewrite IH. apply Permutation_middle.
    + rewrite decide_False; [done|]. by intros [?|?]%elem_of_cons.
Qed.

(** Selecting distinct labels keeps each row carrying one of them exactly
    once, and nothing else. *)
Lemma bind_label_matches_perm {V} (idx : list label) (vals : list V)
    (keys : list label) :
  NoDup keys →
  keys ≫= label_matches idx vals ≡ₚ filter (λ p, p.1 ∈ keys) (zip idx vals).
Proof.
  induction 1 as [|k keys Hk Hnd IH].
  - cbn. symmetry. rewrite filter_none; [done|].
    apply Forall_forall. intros p _ Hp. by apply elem_of_nil in Hp.
  - cbn [mbind list_bind]. rewrite filter_cons_key_perm by done.
    by rewrite IH.
Qed.

(** Rows selected by distinct labels that all occur in the index. *)
Lemma frame_loc_rows_ok {V} (df : DataFrame V) (keys : list label) :
  wf_frame df → NoDup keys → Forall (λ k, k ∈ index df) keys →
  ∃ aligned,
    frame_loc_rows df keys = Ok aligned ∧
    columns aligned = columns df ∧
    length (values aligned) = length (index aligned) ∧
    zip (index aligned) (values aligned) ≡ₚ
      filter (λ p, p.1 ∈ keys) (zip (index df) (values df)).
Proof.
  intros [Hlen _] Hnd Hkeys. unfold frame_loc_rows.
  rewrite loc_labels_ok by done.
  eexists. split; [reflexivity|]. cbn [index columns values].
  split; [done|]. split; [by rewrite !length_fmap|].
  rewrite zip_fst_snd. by apply bind_label_matches_perm.
Qed.

Lemma elem_of_index_zip {V} (idx : list label) (vals : list V) (l : label) :
  length vals = length idx → l ∈ idx → ∃ v, (l, v) ∈ zip idx vals.
Proof.
  revert vals. induction idx as [|k idx IH]; intros [|v vals] Hlen Hl;
    try done; try by apply elem_of_nil in Hl.
  apply elem_of_cons in Hl as [->|Hl].
  - exists v. by left.
  - destruct (IH vals) as [w Hw]; [by injection Hlen|done|].
    exists w. by right.
Qed.

Lemma filter_common_index {V} (left right : list label) (vals : list V) :
  filter (λ p, p.1 ∈ index_intersection left right) (zip left vals) =
  filter (λ p, p.1 ∈ right) (zip left vals).
Proof.
  apply filter_ext_Forall, Forall_forall. intros [l v] Hp. cbn.
  rewrite elem_of_index_intersection. apply elem_of_zip_l in Hp. tauto.
Qed.

Lemma filter_common_index_r {V} (left right : list label) (vals : list V) :
  filter (λ p, p.1 ∈ index_intersection left right) (zip right vals) =
  filter (λ p, p.1 ∈ left) (zip right vals).
Proof.
  apply filter_ext_Forall, Forall_forall. intros [l v] Hp. cbn.
  rewrite elem_of_index_intersection. apply elem_of_zip_l in Hp. tauto.
Qed.

Lemma length_filter_lt_iff {A} (P : A → Prop) `{!∀ x, Decision (P x)} (l : list A) :
  length (filter P l) < length l ↔ ∃ x, x ∈ l ∧ ¬ P x.
Proof.
  split.
  - intros Hlt. destruct (decide (Forall P l)) as [Hall|Hnot].
    + rewrite filter_all in Hlt by done. lia.
    + apply not_Forall_Exists in Hnot; [|done].
      apply Exists_exists in Hnot as (x & Hx & Hnx). eauto.
  - intros (x & Hx & Hnx). by eapply length_filter_lt.
Qed.

Section Alignment.
Context `{NumericKernels} `{SkLearn}.

(** C3 (amended).  [run_clustering_benchmark] clusters and scores on the
    two tables restricted to the labels that occur in both indexes: every
    row of either aligned table is a row of its input table whose label is
    in both indexes, each such row is kept exactly once, and nothing is
    added.  A warning is printed exactly when the common index is shorter
    than [pca_df]; with distinct labels in [pca_df] that is exactly when a
    sample of [pca_df] is missing from the metadata.  Samples that occur
    only in the metadata are dropped without a warning. *)
Theorem run_clustering_benchmark_alignment (pca_df : DataFrame float)
    (cell_metadata : DataFrame pyval) (n_clusters_range : list Z)
    (target_cols : list label) :
  wf_frame pca_df → wf_frame cell_metadata →
  let common := common_index pca_df cell_metadata in
  ∃ pca_aligned meta_aligned,
    run_clustering_benchmark pca_df cell_metadata n_clusters_range target_cols =
      py_bind (alignment_warning pca_df common)
        (λ _, benchmark_aligned pca_aligned meta_aligned n_clusters_range target_cols) ∧
    zip (index pca_aligned) (values pca_aligned) ≡ₚ
      filter (λ p, p.1 ∈ index cell_metadata) (zip (index pca_df) (values pca_df)) ∧
    zip (index meta_aligned) (values meta_aligned) ≡ₚ
      filter (λ p, p.1 ∈ index pca_df)
        (zip (index cell_metadata) (values cell_metadata)) ∧
    (∀ l, l ∈ index pca_aligned ∨ l ∈ index meta_aligned →
          l ∈ index pca_df ∧ l ∈ index cell_metadata) ∧
    printed (alignment_warning pca_df common) =
      (if bool_decide (length common < length (index pca_df))
       then [WarnDroppingSamples (length (index pca_df) - length common)]
       else []) ∧
    (NoDup (index pca_df) →
       length common < length (index pca_df) ↔
       ∃ l, l ∈ index pca_df ∧ l ∉ index cell_metadata).
Proof.
  intros Hwp Hwm common.
  assert (Hnd : NoDup common) by apply NoDup_index_intersection.
  assert (Hin : ∀ l, l ∈ common ↔ l ∈ index pca_df ∧ l ∈ index cell_metadata).
  { intros l. apply elem_of_index_intersection. }
  destruct (frame_loc_rows_ok pca_df common Hwp Hnd) as (pa & Hpa & _ & Hpalen & Hpaperm).
  { apply Forall_forall. intros l Hl. by apply Hin in Hl as [? _]. }
  destruct (frame_loc_rows_ok cell_metadata common Hwm Hnd) as (ma & Hma & _ & Hmalen & Hmaperm).
  { apply Forall_forall. intros l Hl. by apply Hin in Hl as [_ ?]. }
  unfold common, common_index in Hpaperm, Hmaperm.
  rewrite filter_common_index in Hpaperm. rewrite filter_common_index_r in Hmaperm.
  exists pa, ma. split; [|split; [done|split; [done|split; [|split]]]].
  - unfold run_clustering_benchmark. fold common. rewrite Hpa, Hma.
    by rewrite !py_bind_lift_ok.
  - intros l [Hl|Hl].
    + destruct (elem_of_index_zip _ _ l Hpalen Hl) as [v Hv].
      rewrite Hpaperm in Hv. apply list_elem_of_filter in Hv as [Hm Hv].
      apply elem_of_zip_l in Hv. done.
    + destruct (elem_of_index_zip _ _ l Hmalen Hl) as [v Hv].
      rewrite Hmaperm in Hv. apply list_elem_of_filter in Hv as [Hm Hv].
      apply elem_of_zip_l in Hv. done.
  - unfold alignment_warning. by case_bool_decide.
  - intros Hndp. unfold common, common_index, index_intersection.
    rewrite unique_from_NoDup.
    + apply length_filter_lt_iff.
    + by apply NoDup_filter.
    + apply Forall_forall. intros x _. by intros ?%elem_of_nil.
Qed.

End Alignment.

Lemma run_clustering_benchmark_alignment_witness :
  ∃ pca_aligned meta_aligned,
    @run_clustering_benchmark example_kernels example_sklearn
      pca_example metadata_example [2; 3]%Z ["Stage"] =
      py_bind (alignment_warning pca_example ["a"; "b"])
        (λ _, @benchmark_aligned example_kernels example_sklearn
                pca_aligned meta_aligned [2; 3]%Z ["Stage"]) ∧
    (∀ l, l ∈ index pca_aligned ∨ l ∈ index meta_aligned →
          l ∈ index pca_example ∧ l ∈ index metadata_example).
Proof.
  assert (Hwp : wf_frame pca_example).
  { split; [reflexivity | repeat constructor]. }
  assert (Hwm : wf_frame metadata_example).
  { split; [reflexivity | repeat constructor]. }
  destruct (@run_clustering_benchmark_alignment example_kernels example_sklearn
              pca_example metadata_example [2; 3]%Z ["Stage"] Hwp Hwm)
    as (pa & ma & Hrun & _ & _ & Hboth & _).
  exists pa, ma. split; [exact Hrun | exact Hboth].
Defined.

(** The sample ["d"] occurs only in the metadata: it is dropped, and no
    warning is printed. *)
Lemma run_clustering_benchmark_alignment_counterexample :
  ("d" ∈ index metadata_example ∧ "d" ∉ ["a"; "b"]) ∧
  ¬ @alignment_warns_as_stated example_kernels example_sklearn
      (mkDF ["a"; "b"] ["PC1"; "PC2"] [[1; 2]; [3; 4]]%float)
      metadata_example [2]%Z ["Stage"].
Proof.
  assert (Hd : "d" ∈ index metadata_example ∧ "d" ∉ ["a"; "b"]).
  { split; apply (bool_decide_unpack _); vm_compute; exact I. }
  split; [exact Hd|].
  intros Hclaim. destruct Hclaim as [n Hn].
  - exists "d". right. exact Hd.
  - vm_compute in Hn.
    repeat (apply elem_of_cons in Hn as [Hn|Hn]; [discriminate Hn|]).
    by apply elem_of_nil in Hn.
Qed.

(** ** Python dictionaries *)

Lemma dict_get_set_eq (d : dict) (k : string) (v : pyval) :
  dict_get (dict_set d k v) k = Some v.
Proof.
  induction d as [|[k' v'] d IH]; cbn [dict_set dict_get].
  - by rewrite bool_decide_eq_true_2.
  - case_bool_decide as Hk; cbn [dict_get].
    + by rewrite bool_decide_eq_true_2.
    + by rewrite bool_decide_eq_false_2.
Qed.

Lemma dict_get_set_ne (d : dict) (k k' : string) (v : pyval) :
  k ≠ k' → dict_get (dict_set d k v) k' = dict_get d k'.
Proof.
  intros Hne. induction d as [|[k0 v0] d IH]; cbn [dict_set dict_get].
  - by rewrite bool_decide_eq_false_2.
  - case_bool_decide as Hk; cbn [dict_get].
    + subst k0. by rewrite !bool_decide_eq_false_2.
    + case_bool_decide; [done|apply IH].
Qed.

Lemma dict_get_key (d : dict) (k : string) (v : pyval) :
  dict_get d k = Some v → k ∈ d.*1.
Proof.
  induction d as [|[k0 v0] d IH]; cbn [dict_get]; [done|].
  case_bool_decide as Hk.
  - intros _. subst. by left.
  - intros Hd. right. by apply IH.
Qed.

Lemma all_keys_foldl (acc : list string) (rows : list dict) (k : string) :
  k ∈ acc ∨ (∃ d, d ∈ rows ∧ k ∈ d.*1) →
  k ∈ foldl (λ acc d, acc ++ filter (λ k, k ∉ acc) d.*1) acc rows.
Proof.
  revert acc. induction rows as [|d rows IH]; intros acc; cbn [foldl].
  - intros [?|(d & Hd & _)]; [done|by apply elem_of_nil in Hd].
  - intros Hk. apply IH. rewrite elem_of_app, list_elem_of_filter.
    destruct Hk as [Hk|(d' & Hd' & Hk)]; [by left; left|].
    apply elem_of_cons in Hd' as [->|Hd'].
    + left. destruct (decide (k ∈ acc)); [by left|by right].
    + right. eauto.
Qed.

Lemma all_keys_contains (rows : list dict) (d : dict) (k : string) :
  d ∈ rows → k ∈ d.*1 → k ∈ all_keys rows.
Proof. intros Hd Hk. apply all_keys_foldl. right. eauto. Qed.

(** ** Sorting a frame by a column *)

Lemma StronglySorted_lookup {A} (R : relation A) (l : list A) (i j : nat) (a b : A) :
  StronglySorted R l → i < j → l !! i = Some a → l !! j = Some b → R a b.
Proof.
  intros Hs. revert i j. induction Hs as [|x l Hs IH Hx]; intros i j Hij Hi Hj; [done|].
  destruct j as [|j]; [lia|]. destruct i as [|i]; cbn in *.
  - injection Hi as <-. rewrite Forall_forall in Hx. apply Hx.
    by eapply list_elem_of_lookup_2.
  - apply (IH i j); [lia|done..].
Qed.

(** Whatever the order among equal keys, the sorted rows followed by the
    rows without a key are in descending order. *)
Lemma descending_quicksort_desc {A} (key : A → float) (swaps : nat → nat → bool)
    (l : list A) :
  descending key
    (quicksort_desc key swaps (filter (λ p, PrimFloat.is_nan (key p) = false) l)
     ++ filter (λ p, PrimFloat.is_nan (key p) = true) l).
Proof.
  set (nn := filter (λ p, PrimFloat.is_nan (key p) = false) l).
  set (na := filter (λ p, PrimFloat.is_nan (key p) = true) l).
  assert (Hnn : Forall (λ a, PrimFloat.is_nan (key a) = false) nn).
  { apply Forall_forall. intros a Ha. by apply list_elem_of_filter in Ha as [? _]. }
  assert (Hsorted_nn : Forall (λ a, PrimFloat.is_nan (key a) = false)
                         (quicksort_desc key swaps nn)).
  { by rewrite quicksort_desc_perm. }
  intros i j a b Hij Hi Hj.
  destruct (PrimFloat.is_nan (key b)) eqn:Hb; [by left|right].
  assert (Hjlt : j < length (quicksort_desc key swaps nn)).
  { destruct (decide (j < length (quicksort_desc key swaps nn))) as [|Hge]; [done|].
    rewrite lookup_app_r in Hj by lia.
    apply list_elem_of_lookup_2, list_elem_of_filter in Hj as [Hnan _]. congruence. }
  rewrite lookup_app_l in Hi by lia. rewrite lookup_app_l in Hj by lia.
  split.
  - rewrite Forall_forall in Hsorted_nn. apply Hsorted_nn.
    by eapply list_elem_of_lookup_2.
  - by apply (StronglySorted_lookup (ge_key key) (quicksort_desc key swaps nn) i j a b
                (quicksort_desc_sorted key swaps nn Hnn)).
Qed.

Lemma filter_partition_perm {A} (f : A → bool) (l : list A) :
  filter (λ p, f p = false) l ++ filter (λ p, f p = true) l ≡ₚ l.
Proof.
  induction l as [|x l IH]; [done|]. rewrite !filter_cons.
  destruct (f x) eqn:Hx.
  - rewrite decide_False by done. rewrite decide_True by done.
    rewrite <- Permutation_middle. by rewrite IH.
  - rewrite decide_True by done. rewrite decide_False by done.
    cbn. by rewrite IH.
Qed.

Lemma sort_values_desc_spec `{NumericKernels} (df : DataFrame pyval) (col : label) :
  let sorted := sort_values_desc df col in
  columns sorted = columns df ∧
  zip (index sorted) (values sorted) ≡ₚ zip (index df) (values df) ∧
  descending (sort_key sorted col) (zip (index sorted) (values sorted)).
Proof.
  cbn zeta. unfold sort_values_desc. cbn [index columns values].
  split; [done|]. rewrite zip_fst_snd. split.
  - rewrite quicksort_desc_perm.
    apply (filter_partition_perm (λ p, PrimFloat.is_nan (sort_key df col p))).
  - apply (descending_quicksort_desc (sort_key df col)).
Qed.

(** ** The rows of the leaderboard *)

Lemma AMI_ne_ARI (t t' : string) : "AMI_" +:+ t ≠ "ARI_" +:+ t'.
Proof. cbn. discriminate. Qed.

Lemma AMI_inj (t t' : string) : "AMI_" +:+ t = "AMI_" +:+ t' → t = t'.
Proof. intros Heq. simpl in Heq. by injection Heq. Qed.

Lemma ARI_inj (t t' : string) : "ARI_" +:+ t = "ARI_" +:+ t' → t = t'.
Proof. intros Heq. simpl in Heq. by injection Heq. Qed.

Section Leaderboard.
Context `{NumericKernels} `{SkLearn}.

Lemma score_targets_spec (ma : DataFrame pyval) (labels_pred : list Z)
    (targets : list label) (row row' : dict) :
  score_targets ma labels_pred targets row = Ok row' →
  (∀ key, (∀ t, t ∈ targets → key ≠ "AMI_" +:+ t ∧ key ≠ "ARI_" +:+ t) →
          dict_get row' key = dict_get row key) ∧
  (∀ t, t ∈ targets →
     ∃ column ami ari,
       frame_getitem ma t = Ok column ∧
       adjusted_mutual_info_score (map astype_str column) labels_pred = Ok ami ∧
       adjusted_rand_score (map astype_str column) labels_pred = Ok ari ∧
       dict_get row' ("AMI_" +:+ t) = Some (PFloat (py_round3 ami)) ∧
       dict_get row' ("ARI_" +:+ t) = Some (PFloat (py_round3 ari))).
Proof.
  revert row. induction targets as [|t0 targets IH]; intros row; cbn [score_targets].
  - intros [= <-]. split; [done|]. by intros t ?%elem_of_nil.
  - destruct (frame_getitem ma t0) as [column|] eqn:Hcol; [|done]. cbn [res_bind].
    destruct (adjusted_mutual_info_score _ _) as [ami|] eqn:Hami; [|done]. cbn [res_bind].
    destruct (adjusted_rand_score _ _) as [ari|] eqn:Hari; [|done]. cbn [res_bind].
    intros Hrest. destruct (IH _ Hrest) as [Hkeep Hscored]. split.
    + intros key Hkey. rewrite Hkeep.
      * destruct (Hkey t0) as [Hk1 Hk2]; [by left|].
        rewrite !dict_get_set_ne by done. done.
      * intros t Ht. apply Hkey. by right.
    + intros t Ht. destruct (decide (t ∈ targets)) as [Hin|Hnin]; [by apply Hscored|].
      apply elem_of_cons in Ht as [->|Ht]; [|done].
      exists column, ami, ari. split; [done|]. split; [done|]. split; [done|]. split.
      * rewrite Hkeep.
        -- rewrite dict_get_set_ne by (intros ?; by eapply AMI_ne_ARI).
           apply dict_get_set_eq.
        -- intros t Ht. split; [|apply AMI_ne_ARI].
           intros Heq. apply AMI_inj in Heq. by subst t.
      * rewrite Hkeep; [apply dict_get_set_eq|].
        intros t Ht. split; [intros Heq; by eapply AMI_ne_ARI|].
        intros Heq. apply ARI_inj in Heq. by subst t.
Qed.

Lemma benchmark_row_scored (pa : DataFrame float) (ma : DataFrame pyval)
    (valid : list label) (k : Z) (m : clustering_method) (row : dict) :
  benchmark_row pa ma valid k m = Ok row → scored_row pa ma valid k m row.
Proof.
  unfold benchmark_row, scored_row.
  destruct (cluster_fit_predict m k (values pa)) as [labels_pred|] eqn:Hfit; [|done].
  cbn [res_bind]. intros Hrow.
  destruct (score_targets_spec _ _ _ _ _ Hrow) as [Hkeep Hscored].
  split; [|split].
  - rewrite Hkeep; [done|]. intros t _. cbn. split; discriminate.
  - rewrite Hkeep; [done|]. intros t _. cbn. split; discriminate.
  - exists labels_pred. split; [done|]. exact Hscored.
Qed.

Lemma benchmark_loop_spec (pa : DataFrame float) (ma : DataFrame pyval)
    (valid : list label) (todo : list (Z * clustering_method)) :
  benchmark_loop pa ma valid todo =
    (failed_events pa ma valid todo, completed_rows pa ma valid todo).
Proof.
  induction todo as [|[k m] todo IH]; [done|].
  cbn [benchmark_loop]. rewrite IH.
  unfold failed_events, completed_rows. cbn [omap list_omap fst snd].
  by destruct (benchmark_row pa ma valid k m).
Qed.

Lemma length_failed_completed (pa : DataFrame float)
    (ma : DataFrame pyval) (valid : list label) (todo : list (Z * clustering_method)) :
  length (completed_rows pa ma valid todo) + length (failed_events pa ma valid todo) =
  length todo.
Proof.
  unfold completed_rows, failed_events.
  induction todo as [|[k m] todo IH]; [done|].
  cbn [omap list_omap fst snd].
  destruct (benchmark_row pa ma valid k m); cbn [length]; lia.
Qed.

Lemma length_attempts (ks : list Z) : length (attempts ks) = 3 * length ks.
Proof.
  unfold attempts. induction ks as [|k ks IH]; [done|].
  cbn [mbind list_bind]. rewrite length_app, IH. cbn. lia.
Qed.


Lemma elem_of_completed_rows (pa : DataFrame float) (ma : DataFrame pyval)
    (valid : list label) (todo : list (Z * clustering_method)) (row : dict) :
  row ∈ completed_rows pa ma valid todo ↔
  ∃ k m, (k, m) ∈ todo ∧ benchmark_row pa ma valid k m = Ok row.
Proof.
  unfold completed_rows. rewrite list_elem_of_omap. split.
  - intros ([k m] & Hin & Hrow). exists k, m. split; [done|].
    cbn in Hrow. destruct (benchmark_row pa ma valid k m); by simplify_eq.
  - intros (k & m & Hin & Hrow). exists (k, m). split; [done|]. cbn. by rewrite Hrow.
Qed.



End Leaderboard.

Lemma sort_values_desc_length `{NumericKernels} (df : DataFrame pyval) (col : label) :
  length (index (sort_values_desc df col)) = length (zip (index df) (values df)).
Proof.
  destruct (sort_values_desc_spec df col) as (_ & Hperm & _).
  rewrite <- Hperm. unfold sort_values_desc. cbn [index values].
  by rewrite zip_fst_snd, length_fmap.
Qed.

Lemma frame_of_records_zip_length (rows : list dict) :
  length (zip (index (frame_of_records rows)) (values (frame_of_records rows))) =
  length rows.
Proof.
  unfold frame_of_records. cbn [index values].
  rewrite length_zip, !length_map, length_seq. lia.
Qed.

Lemma py_bind_alignment_warning {A} (pca_df : DataFrame float) (common : list label)
    (f : unit → Py A) :
  outcome (py_bind (alignment_warning pca_df common) f) = outcome (f tt) ∧
  printed (py_bind (alignment_warning pca_df common) f) =
    printed (alignment_warning pca_df common) ++ printed (f tt).
Proof.
  unfold alignment_warning, py_bind, py_print, py_ret, outcome, printed.
  case_bool_decide; by destruct (f tt).
Qed.

Section LeaderboardTheorem.
Context `{NumericKernels} `{SkLearn}.

(** The leaderboard built from the aligned tables. *)
Lemma benchmark_aligned_spec (pa : DataFrame float) (ma : DataFrame pyval)
    (ks : list Z) (targets : list label) :
  let valid := filter (λ c, c ∈ columns ma) targets in
  let rows := completed_rows pa ma valid (attempts ks) in
  (valid = [] →
     benchmark_aligned pa ma ks targets =
       ([ErrNoTargetColumns targets], Ok pd_DataFrame)) ∧
  (valid ≠ [] →
     ∃ lb, benchmark_aligned pa ma ks targets =
             (failed_events pa ma valid (attempts ks), Ok lb) ∧
           columns lb = all_keys rows ∧
           zip (index lb) (values lb) ≡ₚ
             zip (index (frame_of_records rows)) (values (frame_of_records rows)) ∧
           length (index lb) = length rows ∧
           descending (sort_key lb ("AMI_" +:+ hd "" valid))
             (zip (index lb) (values lb))).
Proof.
  intros valid rows. unfold benchmark_aligned. fold valid.
  split; [by intros ->|].
  intros Hvalid. destruct valid as [|t0 rest] eqn:Hv; [done|]. clear Hvalid.
  rewrite benchmark_loop_spec. fold rows. cbn [hd].
  destruct rows as [|row0 rows'] eqn:Hrows.
  - (* no attempt completed *)
    eexists. split; [reflexivity|].
    split; [done|]. split; [done|]. split; [done|].
    intros i j a b _ Hi. done.
  - assert (Hprim : "AMI_" +:+ t0 ∈ columns (frame_of_records (row0 :: rows'))).
    { assert (Hin : row0 ∈ rows) by (rewrite Hrows; by left).
      apply elem_of_completed_rows in Hin as (k & m & _ & Hrow).
      apply benchmark_row_scored in Hrow as (_ & _ & labels & _ & Hscored).
      destruct (Hscored t0) as (c & ami & ari & _ & _ & _ & Hget & _); [by left|].
      apply dict_get_key in Hget.
      unfold frame_of_records. cbn [columns].
      eapply all_keys_contains; [by left|done]. }
    assert (Hne : empty (frame_of_records (row0 :: rows')) = false).
    { unfold empty. apply orb_false_intro; apply bool_decide_eq_false.
      - unfold frame_of_records. cbn. done.
      - intros Hnil. rewrite Hnil in Hprim. by apply elem_of_nil in Hprim. }
    rewrite Hne. rewrite bool_decide_eq_true_2 by done.
    eexists. split; [reflexivity|].
    destruct (sort_values_desc_spec (frame_of_records (row0 :: rows'))
                ("AMI_" +:+ t0)) as (Hcols & Hperm & Hdesc).
    split; [by rewrite Hcols|]. split; [done|]. split; [|done].
    by rewrite sort_values_desc_length, frame_of_records_zip_length.
Qed.


End LeaderboardTheorem.



(** ** [clean_and_validate_df] *)

Lemma insert_label_perm (x : label) (l : list label) : insert_label x l ≡ₚ x :: l.
Proof.
  induction l as [|y l IH]; cbn [insert_label]; [done|].
  destruct (String.leb x y); [done|]. rewrite IH. apply Permutation_swap.
Qed.

Lemma sort_labels_perm (l : list label) : sort_labels l ≡ₚ l.
Proof.
  induction l as [|x l IH]; [done|].
  cbn [sort_labels foldr]. fold (sort_labels l). by rewrite insert_label_perm, IH.
Qed.

Lemma Forall_column_values {V} (P : V → Prop) (m : list (list V)) (j : nat) :
  Forall (Forall P) m → Forall P (column_values m j).
Proof.
  intros Hm. unfold column_values. apply Forall_forall. intros c Hc.
  apply list_elem_of_omap in Hc as (row & Hrow & Hc).
  rewrite Forall_forall in Hm. specialize (Hm row Hrow).
  rewrite Forall_forall in Hm. apply Hm. by eapply list_elem_of_lookup_2.
Qed.

Lemma Forall_block_T {V} (P : V → Prop) (n : nat) (m : list (list V)) :
  Forall (Forall P) m → Forall (Forall P) (block_T n m).
Proof.
  intros Hm. unfold block_T. apply Forall_forall. intros col Hcol.
  change (map ?f ?l) with (f <$> l) in Hcol.
  apply list_elem_of_fmap in Hcol as (j & -> & _). by apply Forall_column_values.
Qed.

Lemma fillna0_cell_number (c : rawcell) :
  is_numeric_cell c = true → is_number (fillna0_cell c) = true.
Proof.
  destruct c as [z|x|s|]; try done. cbn. unfold fillna0_cell. cbn.
  by destruct (PrimFloat.is_nan x) eqn:Hx; cbn; [|rewrite Hx].
Qed.

Lemma not_missing_number (c : rawcell) :
  is_numeric_cell c = true → is_missing c = false → is_number c = true.
Proof. destruct c; try done. cbn. by intros _ ->. Qed.

Lemma isnull_any_false (df : DataFrame rawcell) :
  isnull_any df = false →
  Forall (Forall (λ c, is_missing c = false)) (values df).
Proof.
  unfold isnull_any. intros Hany.
  apply Forall_forall. intros row Hrow. apply Forall_forall. intros c Hc.
  destruct (is_missing c) eqn:Hm; [|done].
  assert (existsb (existsb is_missing) (values df) = true) as Ht; [|congruence].
  apply existsb_exists. exists row. split; [by apply list_elem_of_In|].
  apply existsb_exists. exists c. split; [by apply list_elem_of_In|done].
Qed.

(** An integer of 64 bits is far below the largest float. *)
Lemma is_int64_no_overflow (z : Z) : is_int64 z = true → float_overflows z = false.
Proof.
  unfold is_int64, float_overflows. intros Hz%bool_decide_eq_true.
  apply bool_decide_eq_false.
  assert (Hbig : (2 ^ 63 < 2 ^ 1024 - 2 ^ 970)%Z) by (vm_compute; reflexivity).
  revert Hz Hbig. generalize (2 ^ 1024 - 2 ^ 970)%Z. generalize (2 ^ 63)%Z. lia.
Qed.

Section Clean.
Context `{NumericKernels} `{TextParsers}.

Lemma astype_float_cell_float (c c' : rawcell) :
  astype_float_cell c = Ok c' → ∃ x, c' = RFloat x.
Proof.
  destruct c as [z|x|s|]; cbn; try (intros [= <-]; eauto).
  - destruct (float_overflows z); [done|]. intros [= <-]. eauto.
  - destruct (py_float_of_str s); [|done]. intros [= <-]. eauto.
Qed.

Lemma result_mapM_Forall {A B} (f : A → result B) (P : B → Prop)
    (l : list A) (l' : list B) :
  (∀ x y, f x = Ok y → P y) → result_mapM f l = Ok l' → Forall P l'.
Proof.
  intros Hf. revert l'. induction l as [|x l IH]; intros l'; cbn [result_mapM].
  - intros [= <-]. constructor.
  - destruct (f x) as [y|] eqn:Hy; [|done]. cbn [res_bind].
    destruct (result_mapM f l) as [ys|]; [|done]. cbn [res_bind].
    intros [= <-]. constructor; [by eapply Hf|by apply IH].
Qed.

Lemma astype_float_spec (df converted : DataFrame rawcell) :
  astype_float df = Ok converted →
  index converted = index df ∧ columns converted = columns df ∧
  Forall (Forall (λ c, ∃ x, c = RFloat x)) (values converted).
Proof.
  unfold astype_float.
  destruct (result_mapM _ (block_T _ _)) as [cols|]; [|done]. cbn [res_bind].
  destruct (result_mapM _ (values df)) as [vals|] eqn:Hvals; [|done].
  cbn [res_bind]. intros [= <-]. split; [done|]. split; [done|]. cbn [values].
  eapply result_mapM_Forall; [|exact Hvals].
  intros row row' Hrow. eapply result_mapM_Forall; [|exact Hrow].
  apply astype_float_cell_float.
Qed.

Lemma to_numeric_coerce_numeric (column : list rawcell) :
  Forall (λ c, is_numeric_cell c = true) (to_numeric_coerce column).
Proof.
  unfold to_numeric_coerce. destruct (forallb _ _);
    apply Forall_forall; intros c Hc;
    change (map ?f ?l) with (f <$> l) in Hc;
    apply list_elem_of_fmap in Hc as (n & -> & _); by destruct n.
Qed.

Lemma apply_to_numeric_spec (df : DataFrame rawcell) :
  index (apply_to_numeric df) = index df ∧
  Forall (Forall (λ c, is_numeric_cell c = true)) (values (apply_to_numeric df)).
Proof.
  split; [done|]. unfold apply_to_numeric. cbn [values].
  apply Forall_block_T. apply Forall_forall. intros col Hcol.
  change (map ?f ?l) with (f <$> l) in Hcol.
  apply list_elem_of_fmap in Hcol as (col0 & -> & _).
  apply to_numeric_coerce_numeric.
Qed.

Lemma groupby_index_sum_spec (df : DataFrame rawcell) :
  NoDup (index (groupby_index_sum df)) ∧
  (∀ g, g ∈ index (groupby_index_sum df) ↔ g ∈ index df) ∧
  Forall (Forall (λ c, is_numeric_cell c = true)) (values (groupby_index_sum df)).
Proof.
  unfold groupby_index_sum. cbn [index values]. split; [|split].
  - rewrite sort_labels_perm. apply NoDup_unique_from.
  - intros g. rewrite sort_labels_perm, elem_of_unique_from.
    split; [by intros [? _]|]. intros Hg. split; [done|]. by intros ?%elem_of_nil.
  - apply Forall_forall. intros row Hrow.
    change (map ?f ?l) with (f <$> l) in Hrow.
    apply list_elem_of_fmap in Hrow as (g & -> & _).
    apply Forall_forall. intros c Hc.
    apply list_elem_of_lookup in Hc as (j & Hc).
    rewrite list_lookup_imap in Hc.
    destruct (_ !! j) as [b|]; [|done]. cbn in Hc. injection Hc as <-.
    unfold group_sum. by destruct b.
Qed.

Lemma drop_label_spec {V} (df : DataFrame V) (name : label) :
  name ∉ index (drop_label df name).
Proof.
  unfold drop_label. cbn [index]. intros Hin.
  apply list_elem_of_fmap in Hin as ([l v] & -> & Hp).
  apply list_elem_of_filter in Hp as [Hne _]. done.
Qed.

Lemma result_mapM_raise {A B} (f : A → result B) (l : list A) (e : exn) :
  result_mapM f l = Raise e → ∃ x, x ∈ l ∧ f x = Raise e.
Proof.
  induction l as [|x l IH]; cbn [result_mapM]; [done|].
  destruct (f x) as [y|e'] eqn:Hy; cbn [res_bind].
  - destruct (result_mapM f l) as [ys|e']; cbn [res_bind]; [done|].
    intros [= ->]. destruct IH as (x' & Hin & Hx'); [done|].
    exists x'. split; [by right|done].
  - intros [= ->]. exists x. split; [by left|done].
Qed.

Lemma astype_float_cell_raise (c : rawcell) (e : exn) :
  int64_cell c = true → astype_float_cell c = Raise e → ∃ msg, e = ValueError msg.
Proof.
  destruct c as [z|x|s|]; cbn; try done.
  - intros Hz. by rewrite (is_int64_no_overflow z Hz).
  - intros _. destruct (py_float_of_str s); [done|]. intros [= <-]. eauto.
Qed.

(** On a table whose integers fit 64 bits the strict conversion can only
    fail with [ValueError], the exception that the code catches. *)
Lemma astype_float_raise (df : DataFrame rawcell) (e : exn) :
  Forall (Forall (λ c, int64_cell c = true)) (values df) →
  astype_float df = Raise e → ∃ msg, e = ValueError msg.
Proof.
  intros Hint. unfold astype_float.
  destruct (result_mapM _ (block_T _ _)) as [cols|e'] eqn:Hcols; cbn [res_bind].
  - destruct (result_mapM _ (values df)) as [vals|e'] eqn:Hvals; [done|].
    cbn [res_bind]. intros [= ->].
    apply result_mapM_raise in Hvals as (row & Hin & Hrow).
    apply result_mapM_raise in Hrow as (c & Hc & Hraise).
    rewrite Forall_forall in Hint. specialize (Hint row Hin).
    rewrite Forall_forall in Hint.
    apply (astype_float_cell_raise c); [by apply Hint|done].
  - intros [= ->].
    apply result_mapM_raise in Hcols as (col & Hin & Hcol).
    apply result_mapM_raise in Hcol as (c & Hc & Hraise).
    apply (Forall_block_T _ (length (columns df))) in Hint.
    rewrite Forall_forall in Hint. specialize (Hint col Hin).
    rewrite Forall_forall in Hint.
    apply (astype_float_cell_raise c); [by apply Hint|done].
Qed.

Lemma drop_label_int64 (df : DataFrame rawcell) (name : label) :
  Forall (Forall (λ c, int64_cell c = true)) (values df) →
  Forall (Forall (λ c, int64_cell c = true)) (values (drop_label df name)).
Proof.
  intros Hint. unfold drop_label. cbn [values].
  apply Forall_forall. intros row Hrow.
  apply list_elem_of_fmap in Hrow as ([g row'] & -> & Hin).
  apply list_elem_of_filter in Hin as [_ Hin]. apply elem_of_zip_r in Hin.
  rewrite Forall_forall in Hint. by apply Hint.
Qed.

Lemma outcome_py_bind_ok {A B} (m : Py A) (a : A) (f : A → Py B) :
  outcome m = Ok a → outcome (py_bind m f) = outcome (f a).
Proof.
  destruct m as [out [a'|e]]; cbn; [|done]. intros [= ->]. by destruct (f a).
Qed.

(** The table after each of the four steps, when the strict conversion
    returns or fails with [ValueError]; any other exception of the
    conversion is passed on. *)
Lemma clean_and_validate_df_steps (df : DataFrame rawcell) (index_name : string) :
  let df1 := if bool_decide (index_name ∈ index df)
             then drop_label df index_name else df in
  let df2 := match astype_float df1 with
             | Ok converted => converted
             | Raise _ => apply_to_numeric df1
             end in
  let df3 := if bool_decide (NoDup (index df2)) then df2 else groupby_index_sum df2 in
  let df4 := if isnull_any df3 then frame_map fillna0_cell df3 else df3 in
  outcome (clean_and_validate_df df index_name) =
    match astype_float df1 with
    | Raise (ValueError msg) => Ok df4
    | Raise e => Raise e
    | Ok _ => Ok df4
    end.
Proof.
  intros df1 df2 df3 df4. unfold clean_and_validate_df.
  rewrite (outcome_py_bind_ok _ df1) by (subst df1; by case_bool_decide).
  subst df4 df3 df2.
  destruct (astype_float df1) as [c|e] eqn:Ha.
  - rewrite (outcome_py_bind_ok _ c) by done.
    set (df3 := if bool_decide (NoDup (index c)) then c else groupby_index_sum c).
    rewrite (outcome_py_bind_ok _ df3) by (subst df3; by case_bool_decide).
    set (df4 := if isnull_any df3 then frame_map fillna0_cell df3 else df3).
    rewrite (outcome_py_bind_ok _ df4) by (subst df4; by destruct (isnull_any df3)).
    done.
  - destruct e as [msg|msg|msg|msg|msg|msg]; try done.
    rewrite (outcome_py_bind_ok _ (apply_to_numeric df1)) by done.
    set (df3 := if bool_decide (NoDup (index (apply_to_numeric df1)))
                then apply_to_numeric df1 else groupby_index_sum (apply_to_numeric df1)).
    rewrite (outcome_py_bind_ok _ df3) by (subst df3; by case_bool_decide).
    set (df4 := if isnull_any df3 then frame_map fillna0_cell df3 else df3).
    rewrite (outcome_py_bind_ok _ df4) by (subst df4; by destruct (isnull_any df3)).
    done.
Qed.

(** On a table whose integers fit 64 bits the call returns. *)
Lemma clean_and_validate_df_steps_int64 (df : DataFrame rawcell) (index_name : string) :
  Forall (Forall (λ c, int64_cell c = true)) (values df) →
  let df1 := if bool_decide (index_name ∈ index df)
             then drop_label df index_name else df in
  let df2 := match astype_float df1 with
             | Ok converted => converted
             | Raise _ => apply_to_numeric df1
             end in
  let df3 := if bool_decide (NoDup (index df2)) then df2 else groupby_index_sum df2 in
  let df4 := if isnull_any df3 then frame_map fillna0_cell df3 else df3 in
  outcome (clean_and_validate_df df index_name) = Ok df4.
Proof.
  intros Hint df1 df2 df3 df4.
  pose proof (clean_and_validate_df_steps df index_name) as Hsteps.
  cbn zeta in Hsteps. fold df1 in Hsteps. fold df2 in Hsteps. fold df3 in Hsteps.
  fold df4 in Hsteps. rewrite Hsteps.
  destruct (astype_float df1) as [c|e] eqn:Ha; [done|].
  apply astype_float_raise in Ha as [msg ->]; [done|].
  subst df1. case_bool_decide; [by apply drop_label_int64|done].
Qed.

(** Every cleaned table has a unique index without the artifact label, and
    holds numbers only, none of them missing. *)
Lemma clean_and_validate_df_numeric (df : DataFrame rawcell) (index_name : string)
    (r : DataFrame rawcell) :
  outcome (clean_and_validate_df df index_name) = Ok r →
  cleaned_numeric r ∧ (index_name ∉ index r).
Proof.
  intros Hout.
  pose proof (clean_and_validate_df_steps df index_name) as Hsteps.
  cbn zeta in Hsteps. rewrite Hout in Hsteps.
  set (df1 := if bool_decide (index_name ∈ index df)
              then drop_label df index_name else df) in *.
  set (df2 := match astype_float df1 with
              | Ok converted => converted
              | Raise _ => apply_to_numeric df1
              end) in *.
  set (df3 := if bool_decide (NoDup (index df2)) then df2 else groupby_index_sum df2) in *.
  assert (Hr : r = if isnull_any df3 then frame_map fillna0_cell df3 else df3).
  { destruct (astype_float df1) as [c|e]; [by injection Hsteps|].
    destruct e; try done. by injection Hsteps. }
  clear Hsteps Hout. subst r.
  assert (H1 : index_name ∉ index df1).
  { subst df1. case_bool_decide; [apply drop_label_spec|done]. }
  assert (H2 : index df2 = index df1 ∧
               Forall (Forall (λ c, is_numeric_cell c = true)) (values df2)).
  { subst df2. destruct (astype_float df1) as [c|e] eqn:Ha.
    - apply astype_float_spec in Ha as (Hi & _ & Hf). split; [done|].
      eapply Forall_impl; [exact Hf|]. intros row Hrow.
      eapply Forall_impl; [exact Hrow|]. by intros c0 [x ->].
    - apply apply_to_numeric_spec. }
  destruct H2 as [H2i H2n].
  assert (H3 : NoDup (index df3) ∧ (index_name ∉ index df3) ∧
               Forall (Forall (λ c, is_numeric_cell c = true)) (values df3)).
  { subst df3. case_bool_decide as Hnd.
    - split; [done|]. split; [by rewrite H2i|done].
    - destruct (groupby_index_sum_spec df2) as (Hn & Hin & Hc).
      split; [done|]. split; [|done]. rewrite Hin, H2i. done. }
  destruct H3 as (H3d & H3i & H3n).
  destruct (isnull_any df3) eqn:Hnull.
  - split; [split|]; cbn [frame_map index values]; [done| |done].
    apply Forall_forall. intros row Hrow.
    change (map ?f ?l) with (f <$> l) in Hrow.
    apply list_elem_of_fmap in Hrow as (row0 & -> & Hrow0).
    apply Forall_forall. intros c Hc.
    change (map ?f ?l) with (f <$> l) in Hc.
    apply list_elem_of_fmap in Hc as (c0 & -> & Hc0).
    apply fillna0_cell_number.
    rewrite Forall_forall in H3n. specialize (H3n row0 Hrow0).
    rewrite Forall_forall in H3n. by apply H3n.
  - split; [split|]; [done| |done].
    apply isnull_any_false in Hnull.
    apply Forall_forall. intros row Hrow. apply Forall_forall. intros c Hc.
    apply not_missing_number.
    + rewrite Forall_forall in H3n. specialize (H3n row Hrow).
      rewrite Forall_forall in H3n. by apply H3n.
    + rewrite Forall_forall in Hnull. specialize (Hnull row Hrow).
      rewrite Forall_forall in Hnull. by apply Hnull.
Qed.

(** Whatever [merge_expression_tables] returns is a cleaned table. *)
Lemma merge_expression_tables_numeric (dfs : list (DataFrame rawcell))
    (r : DataFrame rawcell) :
  outcome (merge_expression_tables dfs) = Ok r → cleaned_numeric r.
Proof.
  unfold merge_expression_tables. destruct dfs as [|df dfs]; [done|].
  destruct (concat_columns (df :: dfs)) as [combined|e]; [|done].
  rewrite py_bind_lift_ok.
  destruct (outcome (clean_and_validate_df combined "GENE")) as [r'|e] eqn:Hr'.
  - rewrite (outcome_py_bind_ok _ r') by done. cbn. intros [= <-].
    by apply (clean_and_validate_df_numeric combined "GENE").
  - destruct (clean_and_validate_df combined "GENE") as [out [r'|e']]; [done|].
    done.
Qed.

End Clean.

(** C10 (the code against its description).  On a table with an integer
    column and a text column the strict conversion fails, the columns are
    coerced one by one, and the integer column stays an integer column: the
    cleaned table has a unique index and no missing value, but its cells
    are not all floats. *)
Theorem clean_and_validate_df_integer_column :
  outcome (@clean_and_validate_df example_kernels example_parsers
             annotated_counts "GENE") =
    Ok (mkDF ["g1"; "g2"] ["S1"; "note"]
          [[RInt 5; RFloat 0]; [RInt 7; RFloat 0]]) ∧
  WarnCoercing ∈ printed (@clean_and_validate_df example_kernels example_parsers
                            annotated_counts "GENE") ∧
  cleaned_numeric (mkDF ["g1"; "g2"] ["S1"; "note"]
                     [[RInt 5; RFloat 0]; [RInt 7; RFloat 0]]) ∧
  ¬ cleaned_as_stated (mkDF ["g1"; "g2"] ["S1"; "note"]
                         [[RInt 5; RFloat 0]; [RInt 7; RFloat 0]]).
Proof.
  split; [by vm_compute|]. split; [vm_compute; by left|]. split.
  - apply (@clean_and_validate_df_numeric example_kernels example_parsers
             annotated_counts "GENE").
    by vm_compute.
  - intros [_ Hfloat]. apply Forall_cons in Hfloat as [Hrow _].
    apply Forall_cons in Hrow as [Hcell _]. done.
Qed.

(** ** Failure handling *)

Section FailureHandling.
Context `{NumericKernels} `{SkLearn} `{TextParsers} `{DatasetFiles}.

Lemma run_clustering_benchmark_returns (pca_df : DataFrame float)
    (cell_metadata : DataFrame pyval) (ks : list Z) (targets : list label) :
  wf_frame pca_df → wf_frame cell_metadata →
  (∃ lb, outcome (run_clustering_benchmark pca_df cell_metadata ks targets) = Ok lb) ∧
  (filter (λ c, c ∈ columns cell_metadata) targets = [] →
   outcome (run_clustering_benchmark pca_df cell_metadata ks targets) = Ok pd_DataFrame ∧
   ErrNoTargetColumns targets ∈
     printed (run_clustering_benchmark pca_df cell_metadata ks targets)).
Proof.
  intros Hwp Hwm.
  set (common := common_index pca_df cell_metadata).
  assert (Hnd : NoDup common) by apply NoDup_index_intersection.
  assert (Hin : ∀ l, l ∈ common ↔ l ∈ index pca_df ∧ l ∈ index cell_metadata).
  { intros l. apply elem_of_index_intersection. }
  destruct (frame_loc_rows_ok pca_df common Hwp Hnd) as (pa & Hpa & _).
  { apply Forall_forall. intros l Hl. by apply Hin in Hl as [? _]. }
  destruct (frame_loc_rows_ok cell_metadata common Hwm Hnd) as (ma & Hma & Hcols & _).
  { apply Forall_forall. intros l Hl. by apply Hin in Hl as [_ ?]. }
  assert (Hrun : run_clustering_benchmark pca_df cell_metadata ks targets =
                 py_bind (alignment_warning pca_df common)
                   (λ _, benchmark_aligned pa ma ks targets)).
  { unfold run_clustering_benchmark. fold common. rewrite Hpa, Hma.
    by rewrite !py_bind_lift_ok. }
  rewrite Hrun.
  destruct (py_bind_alignment_warning pca_df common
              (λ _, benchmark_aligned pa ma ks targets)) as [-> ->].
  destruct (benchmark_aligned_spec pa ma ks targets) as [Hnone Hsome].
  rewrite Hcols in Hnone, Hsome.
  split.
  - destruct (decide (filter (λ c, c ∈ columns cell_metadata) targets = []))
      as [Hv|Hv].
    + rewrite (Hnone Hv). by eexists.
    + destruct (Hsome Hv) as (lb & -> & _). by eexists.
  - intros Hv. rewrite (Hnone Hv). split; [done|].
    apply elem_of_app. right. by left.
Qed.

(** C4 (amended).  The processing functions answer an empty table with an
    empty result and no exception: [filter_tpm_matrix] (with a warning, and
    likewise when no sample passes the sample filter),
    [select_highly_variable_genes], [scale_data] and [run_pca_pipeline];
    [run_clustering_benchmark] never raises on well-formed tables and
    prints an error and returns the empty frame when no requested target
    column is in the metadata; [prepare_sample_metadata] prints an error
    and returns the empty frame for an empty SRA table.  The loaders do
    raise.  [merge_expression_tables] raises [ValueError] on an empty list
    of tables; [load_gse42268_data] raises [ValueError] when the folder has
    no text file; [load_gse74596_data] raises [ValueError] when the count
    matrix it loaded is empty, which it is when no count file is found;
    [load_gse45719_data] and [load_gse52583_data] raise
    [FileNotFoundError] for a directory that does not exist and
    [ValueError] when no expression data is loaded; [load_gse65528_data]
    raises [ValueError] when no count table is loaded; [load_dataset_5]
    raises [ValueError] when the metadata cannot be read and when no
    expression data is loaded. *)
Theorem failure_handling_by_operation :
  (∀ df t mg ms, empty df = true →
     filter_tpm_matrix df t mg ms =
       ([WarnEmptyInput], Ok (pd_DataFrame, pd_DataFrame))) ∧
  (∀ df t mg ms, wf_frame df → empty df = false →
     select_at (surviving_samples df t mg) (columns df) = [] →
     filter_tpm_matrix df t mg ms =
       ([WarnNoSamplesPassed], Ok (pd_DataFrame, pd_DataFrame))) ∧
  (∀ df n, empty df = true →
     select_highly_variable_genes df n = Ok (pd_DataFrame, pd_DataFrame)) ∧
  (∀ (scaler : StandardScaler) (df : DataFrame float), empty df = true →
     scale_data df = Ok pd_DataFrame) ∧
  (∀ df n, empty df = true →
     run_pca_pipeline df n = Ok (pd_DataFrame, [], None)) ∧
  (∀ pca_df cell_metadata ks targets, wf_frame pca_df → wf_frame cell_metadata →
     (∃ lb, outcome (run_clustering_benchmark pca_df cell_metadata ks targets) = Ok lb) ∧
     (filter (λ c, c ∈ columns cell_metadata) targets = [] →
      outcome (run_clustering_benchmark pca_df cell_metadata ks targets)
        = Ok pd_DataFrame ∧
      ErrNoTargetColumns targets ∈
        printed (run_clustering_benchmark pca_df cell_metadata ks targets))) ∧
  (∀ sra qc pca, empty sra = true →
     prepare_sample_metadata sra qc pca = ([ErrEmptySraTable], Ok pd_DataFrame)) ∧
  merge_expression_tables [] =
    ([], Raise (ValueError "Input list of DataFrames is empty.")) ∧
  (∀ data_folder metadata_path, glob_in data_folder "*.txt" = [] →
     load_gse42268_data data_folder metadata_path =
       ([], Raise (ValueError "No .txt files found. Check your DATA_PATH."))) ∧
  (∀ data_dir sra_path out meta_df out' raw_counts,
     gse74596_process_sra_metadata sra_path = (out, Ok meta_df) →
     _load_counts data_dir = (out', Ok raw_counts) →
     empty raw_counts = true →
     load_gse74596_data data_dir sra_path =
       (out ++ out', Raise (ValueError "No count data loaded."))) ∧
  (∀ data_dir, glob_in data_dir "GSM*_MappedReads_Annotations.txt*" = [] →
     _load_counts data_dir = ([], Ok pd_DataFrame)) ∧
  (∀ expression_dir sra_path, path_exists expression_dir = false →
     load_gse45719_data expression_dir sra_path =
       ([], Raise (FileNotFoundError ("Directory not found: " +:+ expression_dir)))) ∧
  (∀ expression_dir sra_path out, path_exists expression_dir = true →
     gse45719_read_series expression_dir = (out, Ok []) →
     load_gse45719_data expression_dir sra_path =
       (out, Raise (ValueError "No valid data loaded."))) ∧
  (∀ expression_dir sra_path flt, path_isdir expression_dir = false →
     load_gse52583_data expression_dir sra_path flt =
       ([], Raise (FileNotFoundError ("Directory not found: " +:+ expression_dir)))) ∧
  (∀ expression_dir sra_path flt out raw_df,
     _load_raw_fpkm_files expression_dir = (out, Ok raw_df) →
     empty raw_df = true →
     load_gse52583_data expression_dir sra_path flt =
       (out, Raise (ValueError "No expression data loaded."))) ∧
  (∀ data_dir out, path_isdir data_dir = true →
     gse52583_read_series data_dir = (out, Ok []) →
     _load_raw_fpkm_files data_dir = (out, Ok pd_DataFrame)) ∧
  (∀ data_dir series_matrix_path out,
     gse65528_read_chunks (glob_in data_dir "*TPM_table.txt.gz") = (out, Ok []) →
     load_gse65528_data data_dir series_matrix_path =
       (out, Raise (ValueError "No count data loaded."))) ∧
  (∀ expression_path metadata_path e,
     gse55291_read_metadata metadata_path = Raise e →
     load_dataset_5 expression_path metadata_path =
       ([], Raise (ValueError ("Could not load metadata: " +:+ exn_str e)))) ∧
  (∀ expression_path metadata_path sra_df out,
     gse55291_read_metadata metadata_path = Ok sra_df →
     gse55291_read_files (glob_in expression_path "*.fpkm_tracking") = (out, Ok []) →
     load_dataset_5 expression_path metadata_path =
       (out, Raise (ValueError "No expression data loaded."))).
Proof.
  split; [intros; by apply filter_tpm_matrix_empty|].
  split; [intros; by apply filter_tpm_matrix_none_pass|].
  split; [intros df n He; unfold select_highly_variable_genes; by rewrite He|].
  split; [intros scaler df He; unfold scale_data; by rewrite He|].
  split; [intros df n He; unfold run_pca_pipeline; by rewrite He|].
  split; [intros; by apply run_clustering_benchmark_returns|].
  split; [intros sra qc pca He; unfold prepare_sample_metadata; by rewrite He|].
  split; [done|].
  split; [intros folder meta Hg; unfold load_gse42268_data; by rewrite Hg|].
  split.
  { intros dir sra out meta out' raw Hmeta Hcounts He.
    unfold load_gse74596_data. rewrite Hmeta, Hcounts.
    unfold py_bind, py_raise. cbn. rewrite He. cbn. by rewrite app_nil_r. }
  split; [intros dir Hg; unfold _load_counts; by rewrite Hg|].
  split; [intros dir sra He; unfold load_gse45719_data; by rewrite He|].
  split.
  { intros dir sra out He Hread. unfold load_gse45719_data. rewrite He, Hread.
    unfold py_bind, py_raise. cbn. by rewrite app_nil_r. }
  split.
  { intros dir sra flt He. unfold load_gse52583_data, _load_raw_fpkm_files.
    by rewrite He. }
  split.
  { intros dir sra flt out raw Hraw He. unfold load_gse52583_data. rewrite Hraw.
    unfold py_bind, py_raise. cbn. rewrite He. cbn. by rewrite app_nil_r. }
  split.
  { intros dir out He Hread. unfold _load_raw_fpkm_files. rewrite He, Hread.
    unfold py_bind, py_ret. cbn. by rewrite app_nil_r. }
  split.
  { intros dir sm out Hread. unfold load_gse65528_data. rewrite Hread.
    unfold py_bind, py_raise. cbn. by rewrite app_nil_r. }
  split.
  { intros dir meta e Hmeta. unfold load_dataset_5. by rewrite Hmeta. }
  intros dir meta sra out Hmeta Hread. unfold load_dataset_5. rewrite Hmeta, Hread.
  unfold py_bind, py_raise. cbn. by rewrite app_nil_r.
Qed.

End FailureHandling.

Lemma failure_handling_by_operation_witness :
  @load_gse42268_data empty_directory "data" "SraRunTable.csv" =
    ([], Raise (ValueError "No .txt files found. Check your DATA_PATH.")) ∧
  @load_gse74596_data empty_directory "data" "SraRunTable.csv" =
    ([], Raise (ValueError "No count data loaded.")) ∧
  @filter_tpm_matrix example_kernels tpm_example 1%float 4 1 =
    ([WarnNoSamplesPassed], Ok (pd_DataFrame, pd_DataFrame)) ∧
  @prepare_sample_metadata empty_directory pd_DataFrame None None =
    ([ErrEmptySraTable], Ok pd_DataFrame) ∧
  @load_gse45719_data empty_directory "missing" "SraRunTable.csv" =
    ([], Raise (FileNotFoundError "Directory not found: missing")) ∧
  @load_gse45719_data empty_directory "data" "SraRunTable.csv" =
    ([], Raise (ValueError "No valid data loaded.")) ∧
  @load_gse52583_data empty_directory "missing" "SraRunTable.csv" true =
    ([], Raise (FileNotFoundError "Directory not found: missing")) ∧
  @load_gse52583_data empty_directory "data" "SraRunTable.csv" true =
    ([], Raise (ValueError "No expression data loaded.")) ∧
  @load_gse65528_data empty_directory "data" "series_matrix.txt" =
    ([], Raise (ValueError "No count data loaded.")) ∧
  @load_dataset_5 empty_directory "data" "missing.csv" =
    ([], Raise (ValueError "Could not load metadata: No such file or directory")) ∧
  @load_dataset_5 empty_directory "data" "SraRunTable.csv" =
    ([], Raise (ValueError "No expression data loaded.")).
Proof.
  destruct (@failure_handling_by_operation example_kernels example_sklearn
              example_parsers empty_directory)
    as (_ & Hnone & _ & _ & _ & _ & Hprep & _ & H42268 & H74596 & Hcounts &
        H45719 & H45719' & H52583 & H52583' & Hfpkm & H65528 & H55291 & H55291').
  split; [apply H42268; reflexivity|].
  split.
  { apply (H74596 "data" "SraRunTable.csv" [] pd_DataFrame [] pd_DataFrame);
      [reflexivity| |reflexivity].
    apply Hcounts. reflexivity. }
  split.
  { apply Hnone.
    - split; [reflexivity | repeat constructor].
    - reflexivity.
    - vm_compute. reflexivity. }
  split; [apply Hprep; reflexivity|].
  split; [apply H45719; reflexivity|].
  split; [apply H45719'; reflexivity|].
  split; [apply H52583; reflexivity|].
  split.
  { apply (H52583' "data" "SraRunTable.csv" true [] pd_DataFrame); [|reflexivity].
    apply Hfpkm; reflexivity. }
  split; [apply H65528; reflexivity|].
  split.
  { apply (H55291 "data" "missing.csv" (FileNotFoundError "No such file or directory")).
    reflexivity. }
  apply (H55291' "data" "SraRunTable.csv" pd_DataFrame); reflexivity.
Defined.

Lemma merge_expression_tables_counterexample :
  outcome (@merge_expression_tables example_kernels example_parsers []) =
    Raise (ValueError "Input list of DataFrames is empty.") ∧
  ¬ @never_raises_as_stated example_kernels example_parsers.
Proof.
  split; [reflexivity|].
  intros Hstated. destruct (Hstated []) as [r Hr]. discriminate Hr.
Qed.

(** ** The QC metrics of [filter_tpm_matrix] *)

Lemma label_matches_once {V} (idx : list label) (vals : list V) (k : label)
    (p : nat) (v : V) :
  length vals = length idx → occurs_once idx k →
  idx !! p = Some k → vals !! p = Some v →
  label_matches idx vals k = [(k, v)].
Proof.
  unfold occurs_once, label_matches. revert vals p.
  induction idx as [|l idx IH]; intros [|w vals] p Hlen Honce Hk Hv; try done.
  cbn [zip zip_with]. rewrite filter_cons in Honce. rewrite filter_cons. cbn [fst].
  destruct (decide (l = k)) as [->|Hne].
  - injection Honce as Hnone.
    assert (Hno : Forall (λ x, x ≠ k) idx).
    { apply Forall_forall. intros x Hx ->.
      assert (k ∈ filter (λ l, l = k) idx) by by apply list_elem_of_filter.
      rewrite Hnone in *. by eapply elem_of_nil. }
    destruct p as [|p].
    + cbn in Hv. injection Hv as ->. f_equal.
      apply filter_none, Forall_forall. intros [x y] Hxy. cbn.
      apply elem_of_zip_l in Hxy. rewrite Forall_forall in Hno. by apply Hno.
    + cbn in Hk. apply list_elem_of_lookup_2 in Hk.
      rewrite Forall_forall in Hno. by destruct (Hno k Hk).
  - destruct p as [|p]; [cbn in Hk; congruence|].
    cbn in Hk, Hv. cbn in Hlen. eapply IH; eauto.
Qed.

Lemma loc_labels_select_at {V} (idx : list label) (vals : list V) (ps : list nat) :
  length vals = length idx →
  Forall (λ p, p < length idx) ps →
  Forall (occurs_once idx) (select_at ps idx) →
  loc_labels idx vals (select_at ps idx) =
    Ok (zip (select_at ps idx) (select_at ps vals)).
Proof.
  intros Hlen Hps. induction Hps as [|p ps Hp _ IH]; intros Honce; [done|].
  unfold select_at in *. cbn [omap list_omap] in *.
  destruct (lookup_lt_is_Some_2 idx p Hp) as [k Hk].
  destruct (lookup_lt_is_Some_2 vals p) as [v Hv]; [by rewrite Hlen|].
  rewrite Hk, Hv in *. cbn in *.
  apply Forall_cons in Honce as [Hone Honce].
  rewrite (label_matches_once idx vals k p v) by done.
  rewrite IH by done. done.
Qed.

Lemma zip_with_replicate_nil {V} (n : nat) (vs : list V) :
  length vs = n →
  zip_with (λ (row : list V) v, row ++ [v]) (replicate n []) vs = map (λ v, [v]) vs.
Proof.
  intros <-. induction vs as [|v vs IH]; [done|]. cbn. by rewrite IH.
Qed.

Lemma zip_with_snoc {V} (xs ys : list V) :
  zip_with (λ (row : list V) v, row ++ [v]) (map (λ v, [v]) xs) ys =
  zip_with (λ x y, [x; y]) xs ys.
Proof.
  revert ys. induction xs as [|x xs IH]; intros [|y ys]; try done.
  cbn. by rewrite IH.
Qed.

Section QcMetrics.
Context `{NumericKernels}.

Lemma filter_tpm_matrix_qc (df : DataFrame float) t mg ms :
  wf_frame df → empty df = false →
  let kept := surviving_samples df t mg in
  let res := submatrix df (surviving_genes df t ms kept) kept in
  select_at kept (columns df) ≠ [] →
  Forall (occurs_once (columns df)) (select_at kept (columns df)) →
  filter_tpm_matrix df t mg ms =
    ([], Ok (res,
             mkDF (columns res) ["n_genes_detected"; "total_tpm"]
               (zip_with (λ x y, [x; y])
                  (PInt <$> select_at kept (s_values (sum_axis0 (frame_gt df t))))
                  (PFloat <$> s_values (sum_columns res))))).
Proof.
  intros Hwf He kept res Hsome Huniq. unfold filter_tpm_matrix. rewrite He.
  destruct (df_final_spec df t mg ms Hwf) as [H1 H2].
  cbn zeta in H1, H2. rewrite H2. rewrite H1.
  rewrite empty_columns_nil by by apply empty_false_index.
  rewrite bool_decide_eq_false_2 by done.
  fold kept. fold res. cbn [columns submatrix].
  assert (Hkept : Forall (λ p, p < length (columns df)) kept).
  { apply surviving_samples_positions. }
  set (counts := s_values (sum_axis0 (frame_gt df t))).
  assert (Hlenc : length counts = length (columns df)).
  { unfold counts, sum_axis0. cbn. by rewrite length_map, length_seq. }
  assert (Hl1 : length (select_at kept (columns df)) = length kept)
    by by apply select_at_length_le.
  assert (Hl2 : length (select_at kept counts) = length kept)
    by (apply select_at_length_le; by rewrite Hlenc).
  unfold series_getitem.
  change (s_index (sum_axis0 (frame_gt df t))) with (columns df).
  change (columns res) with (select_at kept (columns df)).
  fold counts.
  rewrite loc_labels_select_at by done.
  rewrite py_bind_lift_ok.
  rewrite fst_zip, snd_zip by lia.
  unfold frame_setitem at 1.
  cbn [index frame_of_index columns values series_map s_index s_values].
  rewrite bool_decide_eq_false_2 by done.
  rewrite bool_decide_eq_true_2 by done.
  rewrite py_bind_lift_ok.
  unfold frame_setitem.
  cbn [index columns values series_map s_index s_values sum_columns].
  rewrite bool_decide_eq_false_2 by done.
  rewrite bool_decide_eq_true_2 by done.
  rewrite py_bind_lift_ok.
  rewrite zip_with_replicate_nil by (rewrite length_fmap; lia).
  rewrite zip_with_snoc. done.
Qed.

End QcMetrics.

Lemma sum_axis0_lookup (df : DataFrame float) (t : float) (j : nat) :
  wf_frame df → j < length (columns df) →
  s_values (sum_axis0 (frame_gt df t)) !! j = Some (genes_detected_in_sample df t j).
Proof.
  intros [Hlen _] Hj. unfold sum_axis0, frame_gt.
  cbn [s_values columns values].
  change (map ?f ?l) with (f <$> l) at 1.
  rewrite list_lookup_fmap, lookup_seq_lt by done. cbn.
  f_equal. change (?f <$> ?l) with (map f l).
  rewrite count_true_column. unfold genes_detected_in_sample, cell.
  rewrite <- Hlen.
  by rewrite (count_filter_seq (λ o, detected t (o ≫= λ row, row !! j))).
Qed.

Lemma select_at_seq {A} (l : list A) : select_at (seq 0 (length l)) l = l.
Proof. apply omap_lookup_seq. Qed.

Lemma submatrix_all {V} (df : DataFrame V) :
  wf_frame df →
  submatrix df (seq 0 (length (index df))) (seq 0 (length (columns df))) = df.
Proof.
  intros [Hlen Hrows]. destruct df as [idx cols vals]. cbn in *.
  unfold submatrix. cbn [index columns values].
  rewrite !select_at_seq. rewrite <- Hlen, select_at_seq. f_equal.
  clear Hlen. induction Hrows as [|row vals Hrow _ IH]; [done|].
  cbn [map]. rewrite IH. f_equal. rewrite <- Hrow. apply select_at_seq.
Qed.

Section QcTheorems.
Context `{NumericKernels}.

(** X1.  The QC table returned by [filter_tpm_matrix] has one row per kept
    sample, in the order of the returned matrix, under the columns
    [n_genes_detected] and [total_tpm]: the first is the number of genes of
    the input matrix above [min_tpm] in that sample, counted before the
    gene stage and at least [min_genes_per_sample]; the second is the sum
    of that sample's column in the returned matrix, over the surviving
    genes only. *)
Theorem filter_tpm_matrix_qc_metrics (df : DataFrame float) (min_tpm : float)
    (min_genes_per_sample min_samples_per_gene : Z) :
  wf_frame df → empty df = false →
  let kept := surviving_samples df min_tpm min_genes_per_sample in
  select_at kept (columns df) ≠ [] →
  Forall (occurs_once (columns df)) (select_at kept (columns df)) →
  ∃ res qc,
    filter_tpm_matrix df min_tpm min_genes_per_sample min_samples_per_gene =
      ([], Ok (res, qc)) ∧
    index qc = columns res ∧
    columns qc = ["n_genes_detected"; "total_tpm"] ∧
    length (values qc) = length (columns res) ∧
    ∀ a j, kept !! a = Some j →
      (min_genes_per_sample ≤ genes_detected_in_sample df min_tpm j)%Z ∧
      values qc !! a =
        Some [PInt (genes_detected_in_sample df min_tpm j);
              PFloat (np_nansum (column_values (values res) a))].
Proof.
  intros Hwf He kept Hsome Huniq.
  eexists _, _. split.
  { by apply filter_tpm_matrix_qc. }
  fold kept.
  set (res := submatrix df _ kept).
  assert (Hkept : Forall (λ p, p < length (columns df)) kept)
    by apply surviving_samples_positions.
  set (counts := s_values (sum_axis0 (frame_gt df min_tpm))).
  assert (Hlenc : length counts = length (columns df)).
  { unfold counts, sum_axis0. cbn. by rewrite length_map, length_seq. }
  assert (Hl1 : length (columns res) = length kept)
    by by apply select_at_length_le.
  assert (Hl2 : length (select_at kept counts) = length kept)
    by (apply select_at_length_le; by rewrite Hlenc).
  assert (Hl3 : length (s_values (sum_columns res)) = length (columns res)).
  { unfold sum_columns. cbn [s_values]. by rewrite length_map, length_seq. }
  cbn [index columns values].
  split; [done|]. split; [done|]. split.
  { rewrite length_zip_with, !length_fmap. lia. }
  intros a j Haj.
  assert (Hj : j ∈ kept) by by eapply list_elem_of_lookup_2.
  assert (Hjlt : j < length (columns df)).
  { rewrite Forall_forall in Hkept. by apply Hkept. }
  split.
  { unfold kept, surviving_samples in Hj.
    by apply list_elem_of_filter in Hj as [Hj _]. }
  rewrite lookup_zip_with, !list_lookup_fmap.
  rewrite select_at_lookup by by rewrite Hlenc.
  rewrite Haj.
  change (Some j ≫= λ p, counts !! p) with (counts !! j). unfold counts.
  rewrite sum_axis0_lookup by done.
  assert (Hsum : s_values (sum_columns res) !! a =
                 Some (np_nansum (column_values (values res) a))).
  { unfold sum_columns. cbn [s_values].
    change (map ?f ?l) with (f <$> l).
    rewrite list_lookup_fmap, lookup_seq_lt; [done|].
    rewrite Hl1. by eapply lookup_lt_Some. }
  rewrite Hsum. done.
Qed.

(** X3.  With both count thresholds at most 0 nothing is filtered: a
    non-empty matrix with distinct sample labels is returned as it is. *)
Theorem filter_tpm_matrix_zero_thresholds (df : DataFrame float) (min_tpm : float)
    (min_genes_per_sample min_samples_per_gene : Z) :
  wf_frame df → empty df = false → NoDup (columns df) →
  (min_genes_per_sample ≤ 0)%Z → (min_samples_per_gene ≤ 0)%Z →
  ∃ qc, filter_tpm_matrix df min_tpm min_genes_per_sample min_samples_per_gene =
          ([], Ok (df, qc)).
Proof.
  intros Hwf He Hnd Hmg Hms.
  assert (Hkept : surviving_samples df min_tpm min_genes_per_sample =
                  seq 0 (length (columns df))).
  { unfold surviving_samples. apply filter_all, Forall_forall. intros j _.
    unfold genes_detected_in_sample. lia. }
  assert (Hgenes : ∀ kept, surviving_genes df min_tpm min_samples_per_gene kept =
                   seq 0 (length (index df))).
  { intros kept. unfold surviving_genes. apply filter_all, Forall_forall.
    intros i _. unfold samples_detecting_gene. lia. }
  destruct (filter_tpm_matrix_some_pass df min_tpm min_genes_per_sample
              min_samples_per_gene Hwf He) as [qc Hrun].
  - rewrite Hkept, select_at_seq. intros Hnil.
    unfold empty in He. rewrite Hnil in He.
    rewrite (bool_decide_eq_true_2 ([] = [])) in He by done.
    by rewrite orb_true_r in He.
  - rewrite Hkept, select_at_seq. apply Forall_forall. intros k Hk.
    by apply NoDup_occurs_once.
  - exists qc. rewrite Hrun, Hgenes, Hkept. by rewrite submatrix_all.
Qed.

End QcTheorems.

Lemma filter_tpm_matrix_qc_metrics_witness :
  ∃ res qc,
    @filter_tpm_matrix example_kernels tpm_example 1%float 2 2 = ([], Ok (res, qc)) ∧
    index qc = ["s1"; "s3"] ∧
    values qc !! 0 = Some [PInt 2; PFloat 2%float].
Proof.
  assert (Hwf : wf_frame tpm_example).
  { split; [reflexivity | repeat constructor]. }
  assert (Hsome : select_at (surviving_samples tpm_example 1%float 2)
                    (columns tpm_example) ≠ []).
  { vm_compute. discriminate. }
  assert (Huniq : Forall (occurs_once (columns tpm_example))
            (select_at (surviving_samples tpm_example 1%float 2) (columns tpm_example))).
  { vm_compute. repeat constructor. }
  destruct (@filter_tpm_matrix_qc_metrics example_kernels tpm_example 1%float 2 2
              Hwf eq_refl Hsome Huniq)
    as (res & qc & Hrun & Hidx & _ & _ & Hrows).
  exists res, qc. split; [exact Hrun|].
  assert (Hres : res = mkDF ["g1"] ["s1"; "s3"] [[2; 5]]%float).
  { vm_compute in Hrun. by injection Hrun as <- _. }
  split.
  - rewrite Hidx, Hres. reflexivity.
  - destruct (Hrows 0 0 eq_refl) as [_ Hrow]. rewrite Hrow, Hres.
    vm_compute. reflexivity.
Defined.

Lemma filter_tpm_matrix_zero_thresholds_witness :
  ∃ qc, @filter_tpm_matrix example_kernels tpm_example 1%float 0 0 =
          ([], Ok (tpm_example, qc)).
Proof.
  apply (@filter_tpm_matrix_zero_thresholds example_kernels tpm_example 1%float 0 0).
  - split; [reflexivity | repeat constructor].
  - reflexivity.
  - apply (bool_decide_unpack _). vm_compute. exact I.
  - lia.
  - lia.
Defined.

(** ** The QC figure and the filter *)

Section QcFigure.
Context `{NumericKernels} `{Plotting}.

(** X2.  When [plot_qc_metrics] returns, its two series are indexed by the
    samples: the library size is the sum of the sample's column over all
    genes, and the count of detected genes is the count the sample filter
    of [filter_tpm_matrix] thresholds on.  At the same threshold, the
    samples [filter_tpm_matrix] keeps are exactly those whose count in the
    figure is at least [min_genes_per_sample]. *)
Theorem plot_qc_metrics_predicts_filter (df : DataFrame float)
    (detection_threshold : float) (min_genes_per_sample min_samples_per_gene : Z)
    (lib_size : Series float) (n_genes : Series Z) :
  wf_frame df → empty df = false → NoDup (columns df) →
  plot_qc_metrics df detection_threshold = Ok (lib_size, n_genes) →
  s_index lib_size = columns df ∧ s_index n_genes = columns df ∧
  (∀ j, j < length (columns df) →
     s_values lib_size !! j = Some (np_nansum (column_values (values df) j)) ∧
     s_values n_genes !! j = Some (genes_detected_in_sample df detection_threshold j)) ∧
  ∃ res qc,
    outcome (filter_tpm_matrix df detection_threshold min_genes_per_sample
               min_samples_per_gene) = Ok (res, qc) ∧
    columns res = mask_select (series_ge n_genes min_genes_per_sample) (columns df).
Proof.
  intros Hwf He Hnd Hplot. unfold plot_qc_metrics in Hplot.
  destruct (draw_qc_figure _ _ _) as [[]|e]; [|done].
  injection Hplot as <- <-.
  split; [done|]. split; [done|]. split.
  { intros j Hj. split; [|by apply sum_axis0_lookup].
    unfold sum_columns. cbn [s_values].
    change (map ?f ?l) with (f <$> l).
    by rewrite list_lookup_fmap, lookup_seq_lt. }
  set (kept := surviving_samples df detection_threshold min_genes_per_sample).
  assert (Hmask : mask_select
            (series_ge (sum_axis0 (frame_gt df detection_threshold)) min_genes_per_sample)
            (columns df) = select_at kept (columns df)).
  { destruct (df_final_spec df detection_threshold min_genes_per_sample
                min_samples_per_gene Hwf) as [H1 _].
    cbn zeta in H1. apply (f_equal columns) in H1. exact H1. }
  rewrite Hmask.
  destruct (decide (select_at kept (columns df) = [])) as [Hnone|Hsome].
  - exists pd_DataFrame, pd_DataFrame.
    rewrite filter_tpm_matrix_none_pass by done. by rewrite Hnone.
  - destruct (filter_tpm_matrix_some_pass df detection_threshold min_genes_per_sample
                min_samples_per_gene Hwf He Hsome) as [qc ->].
    + apply Forall_forall. intros k Hk. apply NoDup_occurs_once; [done|].
      unfold select_at in Hk. apply list_elem_of_omap in Hk as (p & _ & Hp).
      by apply list_elem_of_lookup_2 in Hp.
    + by eexists _, _.
Qed.

End QcFigure.

Lemma plot_qc_metrics_predicts_filter_witness :
  ∃ res qc,
    outcome (@filter_tpm_matrix example_kernels tpm_example 1%float 2 2) = Ok (res, qc) ∧
    columns res = ["s1"; "s3"].
Proof.
  assert (Hwf : wf_frame tpm_example).
  { split; [reflexivity | repeat constructor]. }
  assert (Hnd : NoDup (columns tpm_example)).
  { apply (bool_decide_unpack _). vm_compute. exact I. }
  destruct (@plot_qc_metrics_predicts_filter example_kernels example_plotting
              tpm_example 1%float 2 2
              (@sum_columns example_kernels tpm_example)
              (sum_axis0 (frame_gt tpm_example 1%float))
              Hwf eq_refl Hnd eq_refl)
    as (_ & _ & _ & res & qc & Hrun & Hcols).
  exists res, qc. split; [exact Hrun|]. rewrite Hcols. vm_compute. reflexivity.
Defined.

(** ** The order of the selected genes *)

Section HvgOrder.
Context `{NumericKernels}.

Lemma loc_labels_dispersion (idx : list label) (vals : list (list float))
    (top : list (label * float)) :
  length vals = length idx → NoDup idx →
  Forall (λ e, e ∈ zip idx (map gene_dispersion vals)) top →
  ∃ hits, loc_labels idx vals top.*1 = Ok hits ∧
          Forall2 (λ hit e, hit.1 = e.1 ∧ gene_dispersion hit.2 = e.2 ∧
                            hit ∈ zip idx vals) hits top.
Proof.
  intros Hlen Hnd. induction 1 as [|[k d] top He _ IH].
  - exists []. split; [done|constructor].
  - destruct IH as (rest & Hrest & Hall).
    apply list_elem_of_lookup_1 in He as [p Hp].
    change (map gene_dispersion vals) with (gene_dispersion <$> vals) in Hp.
    apply lookup_zip_with_Some in Hp as (k' & d' & Heq & Hk & Hd).
    injection Heq as -> ->.
    rewrite list_lookup_fmap in Hd.
    destruct (vals !! p) as [row|] eqn:Hrow; [|done]. injection Hd as <-.
    exists ((k', row) :: rest). split.
    + cbn [fmap list_fmap fst loc_labels].
      rewrite (label_matches_once idx vals k' p row); [by rewrite Hrest|done| |done|done].
      apply NoDup_occurs_once; [done|]. by eapply list_elem_of_lookup_2.
    + constructor; [|done]. cbn. split; [done|]. split; [done|].
      apply list_elem_of_lookup_2 with p. by rewrite lookup_zip_with, Hk, Hrow.
Qed.

(** The selection, written out: the labels come from the [n] first entries
    of the dispersions sorted largest first. *)
Lemma select_highly_variable_genes_unfold (df : DataFrame float) (n_top_genes : Z) :
  wf_frame df → empty df = false → NoDup (index df) →
  let n := Z.min n_top_genes (Z.of_nat (length (index df))) in
  let sorted := sort_desc snd (zip (index df) (map gene_dispersion (values df))) in
  let top := take (Z.to_nat n) sorted in
  ∃ hits metrics,
    select_highly_variable_genes df n_top_genes =
      Ok (mkDF hits.*1 (columns df) hits.*2, metrics) ∧
    Forall2 (λ hit e, hit.1 = e.1 ∧ gene_dispersion hit.2 = e.2 ∧
                      hit ∈ zip (index df) (values df)) hits top ∧
    index metrics = index df ∧
    ∀ i g row, index df !! i = Some g → values df !! i = Some row →
      values metrics !! i =
        Some [PFloat (np_nanmean row); PFloat (np_nanvar row);
              PFloat (gene_dispersion row); PBool (bool_decide (g ∈ top.*1))].
Proof.
  intros Hwf He Hnd n sorted top. pose proof Hwf as [Hlen _].
  unfold select_highly_variable_genes. rewrite He.
  cbn [s_index s_values]. rewrite dispersion_values. fold n.
  set (entries := zip (index df) (map gene_dispersion (values df))).
  assert (Hperm : sorted ≡ₚ entries) by apply sort_desc_perm.
  assert (Hsel : s_index (nlargest n (mkSeries (index df) (map gene_dispersion (values df))))
                 = top.*1).
  { destruct (decide (n ≤ 0)%Z) as [Hle|Hgt].
    - unfold nlargest. rewrite bool_decide_eq_true_2 by done.
      unfold top. replace (Z.to_nat n) with 0 by lia. done.
    - rewrite nlargest_dispersion by lia. done. }
  rewrite Hsel.
  destruct (loc_labels_dispersion (index df) (values df) top Hlen Hnd)
    as (hits & Hhits & Hall).
  { apply Forall_forall. intros e Hin. fold entries. rewrite <- Hperm.
    unfold top in Hin. apply elem_of_take in Hin as (i & Hi & _).
    by eapply list_elem_of_lookup_2. }
  unfold frame_loc_rows. rewrite Hhits.
  eexists _, _. split; [reflexivity|]. split; [done|]. split; [done|].
  intros i g row Hg Hrow. cbn [values]. by apply metrics_lookup.
Qed.

(** X4.  The selected genes come most variable first: the rows of the
    returned matrix are in descending order of dispersion. *)
Theorem select_highly_variable_genes_order (df : DataFrame float) (n_top_genes : Z) :
  wf_frame df → empty df = false → NoDup (index df) →
  ∃ df_hvg metrics,
    select_highly_variable_genes df n_top_genes = Ok (df_hvg, metrics) ∧
    ∀ i j row row', i < j →
      values df_hvg !! i = Some row → values df_hvg !! j = Some row' →
      PrimFloat.leb (gene_dispersion row') (gene_dispersion row) = true.
Proof.
  intros Hwf He Hnd.
  destruct (select_highly_variable_genes_unfold df n_top_genes Hwf He Hnd)
    as (hits & metrics & Hrun & Hall & _).
  cbn zeta in Hall.
  exists (mkDF hits.*1 (columns df) hits.*2), metrics. split; [done|].
  cbn [values]. intros i j row row' Hij Hi Hj.
  rewrite list_lookup_fmap in Hi, Hj.
  destruct (hits !! i) as [hi|] eqn:Hhi; [|done].
  destruct (hits !! j) as [hj|] eqn:Hhj; [|done].
  injection Hi as <-. injection Hj as <-.
  destruct (Forall2_lookup_l _ _ _ _ _ Hall Hhi) as (ei & Hei & _ & Hdi & _).
  destruct (Forall2_lookup_l _ _ _ _ _ Hall Hhj) as (ej & Hej & _ & Hdj & _).
  cbn in Hdi, Hdj. rewrite Hdi, Hdj.
  set (entries := zip (index df) (map gene_dispersion (values df))) in *.
  assert (Hsorted : StronglySorted (ge_key snd) (sort_desc snd entries)).
  { apply sort_desc_sorted, Forall_forall. intros [g d] Hin. cbn.
    apply elem_of_zip_r in Hin. apply list_elem_of_fmap in Hin as (r & -> & _).
    apply fillna0_not_nan. }
  apply lookup_take_Some in Hei as [Hei _]. apply lookup_take_Some in Hej as [Hej _].
  exact (StronglySorted_lookup _ _ i j ei ej Hsorted Hij Hei Hej).
Qed.

(** X5.  Asking for at least as many genes as the matrix has returns every
    gene exactly once (in order of dispersion), and every gene is flagged
    [is_hvg]. *)
Theorem select_highly_variable_genes_all (df : DataFrame float) (n_top_genes : Z) :
  wf_frame df → empty df = false → NoDup (index df) →
  (Z.of_nat (length (index df)) ≤ n_top_genes)%Z →
  ∃ df_hvg metrics,
    select_highly_variable_genes df n_top_genes = Ok (df_hvg, metrics) ∧
    columns df_hvg = columns df ∧
    zip (index df_hvg) (values df_hvg) ≡ₚ zip (index df) (values df) ∧
    ∀ i g row, index df !! i = Some g → values df !! i = Some row →
      values metrics !! i =
        Some [PFloat (np_nanmean row); PFloat (np_nanvar row);
              PFloat (gene_dispersion row); PBool true].
Proof.
  intros Hwf He Hnd Hn. pose proof Hwf as [Hlen _].
  destruct (select_highly_variable_genes_unfold df n_top_genes Hwf He Hnd)
    as (hits & metrics & Hrun & Hall & _ & Hmetrics).
  cbn zeta in Hall, Hmetrics.
  set (entries := zip (index df) (map gene_dispersion (values df))) in *.
  assert (Hperm : sort_desc snd entries ≡ₚ entries) by apply sort_desc_perm.
  assert (Hlen_e : length (sort_desc snd entries) = length (index df)).
  { rewrite Hperm. unfold entries. rewrite length_zip_with, length_map. lia. }
  rewrite take_ge in Hall, Hmetrics by lia.
  assert (Hfst : (sort_desc snd entries).*1 ≡ₚ index df).
  { rewrite Hperm. unfold entries. rewrite zip_fst_length; [done|by rewrite length_map]. }
  assert (Hhits1 : hits.*1 = (sort_desc snd entries).*1).
  { clear -Hall. induction Hall as [|h e hs es (Hh & _) _ IH]; [done|].
    cbn. by rewrite Hh, IH. }
  exists (mkDF hits.*1 (columns df) hits.*2), metrics.
  split; [done|]. split; [done|]. cbn [index values]. split.
  - rewrite zip_fst_snd.
    apply NoDup_Permutation.
    + apply (NoDup_fmap_1 fst). rewrite Hhits1, Hfst. done.
    + apply (NoDup_fmap_1 fst). rewrite zip_fst_length by done. done.
    + intros [g row]. split.
      * intros Hin. apply list_elem_of_lookup_1 in Hin as [i Hi].
        by destruct (Forall2_lookup_l _ _ _ _ _ Hall Hi) as (e & _ & _ & _ & ?).
      * intros Hin.
        assert (Hg : g ∈ hits.*1).
        { rewrite Hhits1, Hfst. by eapply elem_of_zip_l. }
        apply list_elem_of_fmap in Hg as ([g' row'] & -> & Hin'). cbn in *.
        apply list_elem_of_lookup_1 in Hin' as [i Hi].
        destruct (Forall2_lookup_l _ _ _ _ _ Hall Hi) as (e & _ & _ & _ & Hzip).
        cbn in Hzip.
        assert (row' = row) as ->; [|by eapply list_elem_of_lookup_2].
        apply list_elem_of_lookup_1 in Hzip as [p Hp], Hin as [q Hq].
        apply lookup_zip_with_Some in Hp as (? & ? & [= <- <-] & Hp1 & Hp2).
        apply lookup_zip_with_Some in Hq as (? & ? & [= <- <-] & Hq1 & Hq2).
        assert (p = q) as -> by by eapply NoDup_lookup.
        congruence.
  - intros i g row Hg Hrow. rewrite (Hmetrics i g row Hg Hrow).
    rewrite bool_decide_eq_true_2; [done|].
    rewrite Hfst. by eapply list_elem_of_lookup_2.
Qed.

End HvgOrder.

Lemma select_highly_variable_genes_order_witness :
  ∃ df_hvg metrics,
    @select_highly_variable_genes example_kernels hvg_example 3 = Ok (df_hvg, metrics) ∧
    ∀ i j row row', i < j →
      values df_hvg !! i = Some row → values df_hvg !! j = Some row' →
      PrimFloat.leb (@gene_dispersion example_kernels row')
                    (@gene_dispersion example_kernels row) = true.
Proof.
  apply (@select_highly_variable_genes_order example_kernels hvg_example 3).
  - split; [reflexivity | repeat constructor].
  - reflexivity.
  - apply (bool_decide_unpack _). vm_compute. exact I.
Defined.

Lemma select_highly_variable_genes_all_witness :
  ∃ df_hvg metrics,
    @select_highly_variable_genes example_kernels hvg_example 2000 = Ok (df_hvg, metrics) ∧
    columns df_hvg = ["s1"; "s2"; "s3"] ∧
    zip (index df_hvg) (values df_hvg) ≡ₚ zip (index hvg_example) (values hvg_example).
Proof.
  destruct (@select_highly_variable_genes_all example_kernels hvg_example 2000)
    as (df_hvg & metrics & Hrun & Hcols & Hperm & _).
  - split; [reflexivity | repeat constructor].
  - reflexivity.
  - apply (bool_decide_unpack _). vm_compute. exact I.
  - vm_compute. discriminate.
  - exists df_hvg, metrics. split; [exact Hrun|]. split; [exact Hcols | exact Hperm].
Defined.



(** ** The benchmark on tables that are already aligned *)

Lemma index_intersection_subset (left right : list label) :
  NoDup left → Forall (λ l, l ∈ right) left → index_intersection left right = left.
Proof.
  intros Hnd Hsub. unfold index_intersection.
  rewrite filter_all by done.
  apply unique_from_NoDup; [done|].
  apply Forall_forall. intros x _. apply not_elem_of_nil.
Qed.

Lemma frame_loc_rows_self {V} (df : DataFrame V) :
  wf_frame df → NoDup (index df) → frame_loc_rows df (index df) = Ok df.
Proof.
  intros [Hlen _] Hnd. unfold frame_loc_rows.
  pose proof (loc_labels_select_at (index df) (values df)
                (seq 0 (length (index df))) Hlen) as Hloc.
  rewrite select_at_seq in Hloc.
  rewrite <- Hlen, select_at_seq in Hloc. rewrite Hlen in Hloc.
  rewrite Hloc.
  - rewrite fst_zip, snd_zip by lia. by destruct df.
  - apply Forall_forall. intros p Hp. apply elem_of_seq in Hp. lia.
  - apply Forall_forall. intros k Hk. by apply NoDup_occurs_once.
Qed.

Lemma failed_events_all_failures `{NumericKernels} `{SkLearn} (pa : DataFrame float)
    (ma : DataFrame pyval) (valid : list label) (todo : list (Z * clustering_method)) :
  filter (λ e, is_model_failure e = true) (failed_events pa ma valid todo) =
  failed_events pa ma valid todo.
Proof.
  apply filter_all, Forall_forall. intros e He.
  unfold failed_events in He. apply list_elem_of_omap in He as ([k m] & _ & He).
  cbn in He. by destruct (benchmark_row pa ma valid k m); simplify_eq.
Qed.

Section BenchmarkMore.
Context `{NumericKernels} `{SkLearn}.

(** X9.  When the sample labels of the PCA table are distinct and all occur
    in the metadata (whose labels are distinct too), nothing is dropped and
    no warning is printed: the models are fitted on the PCA table as it
    is, and the metadata rows are put in the order of the PCA samples, so
    that the i-th true label belongs to the i-th clustered sample. *)
Theorem run_clustering_benchmark_sample_order (pca_df : DataFrame float)
    (cell_metadata : DataFrame pyval) (n_clusters_range : list Z)
    (target_cols : list label) :
  wf_frame pca_df → wf_frame cell_metadata →
  NoDup (index pca_df) → NoDup (index cell_metadata) →
  Forall (λ l, l ∈ index cell_metadata) (index pca_df) →
  ∃ meta_aligned,
    run_clustering_benchmark pca_df cell_metadata n_clusters_range target_cols =
      benchmark_aligned pca_df meta_aligned n_clusters_range target_cols ∧
    index meta_aligned = index pca_df ∧
    columns meta_aligned = columns cell_metadata ∧
    length (values meta_aligned) = length (index meta_aligned) ∧
    ∀ l row, (l, row) ∈ zip (index meta_aligned) (values meta_aligned) →
             (l, row) ∈ zip (index cell_metadata) (values cell_metadata).
Proof.
  intros Hwp Hwm Hndp Hndm Hsub.
  unfold run_clustering_benchmark, common_index.
  rewrite index_intersection_subset by done.
  unfold alignment_warning. rewrite bool_decide_eq_false_2 by lia.
  rewrite frame_loc_rows_self by done.
  destruct (frame_loc_rows_unique cell_metadata (index pca_df) Hwm Hndm Hsub)
    as (hits & -> & Hfst & Hin).
  exists (mkDF (index pca_df) (columns cell_metadata) hits.*2). split.
  { rewrite !py_bind_lift_ok. unfold py_bind, py_ret.
    by destruct (benchmark_aligned _ _ _ _) as [out r]. }
  cbn [index columns values]. split; [done|]. split; [done|].
  split; [by rewrite <- Hfst, !length_fmap|].
  intros l row Hl. rewrite <- Hfst, zip_fst_snd in Hl.
  rewrite Forall_forall in Hin. by apply Hin.
Qed.

(** X10.  Every attempt is accounted for: with at least one valid target,
    the number of leaderboard rows plus the number of printed model
    failures is three times the number of cluster counts tried. *)
Theorem run_clustering_benchmark_attempts_accounted (pca_df : DataFrame float)
    (cell_metadata : DataFrame pyval) (n_clusters_range : list Z)
    (target_cols : list label) :
  wf_frame pca_df → wf_frame cell_metadata →
  filter (λ c, c ∈ columns cell_metadata) target_cols ≠ [] →
  let run := run_clustering_benchmark pca_df cell_metadata n_clusters_range target_cols in
  ∃ lb, outcome run = Ok lb ∧
        length (index lb) +
        length (filter (λ e, is_model_failure e = true) (printed run)) =
        3 * length n_clusters_range.
Proof.
  intros Hwp Hwm Hvalid run. unfold run.
  set (common := common_index pca_df cell_metadata).
  assert (Hnd : NoDup common) by apply NoDup_index_intersection.
  assert (Hin : ∀ l, l ∈ common ↔ l ∈ index pca_df ∧ l ∈ index cell_metadata).
  { intros l. apply elem_of_index_intersection. }
  destruct (frame_loc_rows_ok pca_df common Hwp Hnd) as (pa & Hpa & _).
  { apply Forall_forall. intros l Hl. by apply Hin in Hl as [? _]. }
  destruct (frame_loc_rows_ok cell_metadata common Hwm Hnd) as (ma & Hma & Hcols & _).
  { apply Forall_forall. intros l Hl. by apply Hin in Hl as [_ ?]. }
  assert (Hrun : run_clustering_benchmark pca_df cell_metadata n_clusters_range target_cols =
                 py_bind (alignment_warning pca_df common)
                   (λ _, benchmark_aligned pa ma n_clusters_range target_cols)).
  { unfold run_clustering_benchmark. fold common. rewrite Hpa, Hma.
    by rewrite !py_bind_lift_ok. }
  rewrite Hrun.
  destruct (py_bind_alignment_warning pca_df common
              (λ _, benchmark_aligned pa ma n_clusters_range target_cols)) as [-> ->].
  destruct (benchmark_aligned_spec pa ma n_clusters_range target_cols) as [_ Hsome].
  rewrite Hcols in Hsome.
  destruct (Hsome Hvalid) as (lb & -> & _ & _ & Hlen & _).
  exists lb. split; [done|]. rewrite Hlen.
  cbn [printed outcome fst snd]. rewrite filter_app, length_app.
  rewrite failed_events_all_failures.
  assert (Hwarn : filter (λ e, is_model_failure e = true)
                    (printed (alignment_warning pca_df common)) = []).
  { unfold alignment_warning. by case_bool_decide. }
  rewrite Hwarn. cbn [length].
  rewrite Nat.add_0_l, length_failed_completed, length_attempts. done.
Qed.

End BenchmarkMore.

Lemma run_clustering_benchmark_sample_order_witness :
  ∃ meta_aligned,
    @run_clustering_benchmark example_kernels example_sklearn
      (mkDF ["b"; "a"] ["PC1"; "PC2"] [[3; 4]; [1; 2]]%float)
      metadata_example [2]%Z ["Stage"] =
    @benchmark_aligned example_kernels example_sklearn
      (mkDF ["b"; "a"] ["PC1"; "PC2"] [[3; 4]; [1; 2]]%float)
      meta_aligned [2]%Z ["Stage"] ∧
    index meta_aligned = ["b"; "a"].
Proof.
  destruct (@run_clustering_benchmark_sample_order example_kernels example_sklearn
              (mkDF ["b"; "a"] ["PC1"; "PC2"] [[3; 4]; [1; 2]]%float)
              metadata_example [2]%Z ["Stage"])
    as (ma & Hrun & Hidx & _).
  - split; [reflexivity | repeat constructor].
  - split; [reflexivity | repeat constructor].
  - apply (bool_decide_unpack _). vm_compute. exact I.
  - apply (bool_decide_unpack _). vm_compute. exact I.
  - apply (bool_decide_unpack _). vm_compute. exact I.
  - exists ma. split; [exact Hrun | exact Hidx].
Defined.

Lemma run_clustering_benchmark_attempts_accounted_witness :
  ∃ lb,
    outcome (@run_clustering_benchmark example_kernels example_sklearn
               pca_example metadata_example [2; 3]%Z ["Stage"]) = Ok lb ∧
    length (index lb) +
    length (filter (λ e, is_model_failure e = true)
              (printed (@run_clustering_benchmark example_kernels example_sklearn
                          pca_example metadata_example [2; 3]%Z ["Stage"]))) = 6.
Proof.
  apply (@run_clustering_benchmark_attempts_accounted example_kernels example_sklearn
           pca_example metadata_example [2; 3]%Z ["Stage"]).
  - split; [reflexivity | repeat constructor].
  - split; [reflexivity | repeat constructor].
  - vm_compute. discriminate.
Defined.

(** ** More on [clean_and_validate_df] *)

Lemma printed_py_bind_ok {A B} (m : Py A) (a : A) (f : A → Py B) :
  outcome m = Ok a → printed (py_bind m f) = printed m ++ printed (f a).
Proof.
  destruct m as [out [a'|e]]; cbn; [|done]. intros [= ->]. by destruct (f a).
Qed.

Lemma drop_label_index {V} (df : DataFrame V) (name : label) :
  length (values df) = length (index df) →
  index (drop_label df name) = filter (λ g, g ≠ name) (index df) ∧
  length (values (drop_label df name)) = length (index (drop_label df name)).
Proof.
  intros Hlen. unfold drop_label. cbn [index values].
  split; [|by rewrite !length_fmap].
  revert Hlen. generalize (values df). generalize (index df).
  induction l as [|g idx IH]; intros [|v vals] Hlen; try done.
  cbn [zip zip_with]. rewrite !filter_cons. cbn [fst].
  destruct (decide (g ≠ name)); cbn [fmap list_fmap fst]; rewrite IH; auto.
Qed.

Lemma result_mapM_length {A B} (f : A → result B) (l : list A) (l' : list B) :
  result_mapM f l = Ok l' → length l' = length l.
Proof.
  revert l'. induction l as [|x l IH]; intros l' Hm.
  - by injection Hm as <-.
  - cbn in Hm. destruct (f x) as [y|e]; [|done]. cbn in Hm.
    destruct (result_mapM f l) as [ys|e]; [|done]. cbn in Hm.
    injection Hm as <-. cbn. by rewrite (IH ys).
Qed.

Lemma result_mapM_ok {A B} (f : A → result B) (l : list A) :
  Forall (λ x, ∃ y, f x = Ok y) l → ∃ l', result_mapM f l = Ok l'.
Proof.
  induction 1 as [|x l [y Hy] _ [l' IH]]; [by exists []|].
  exists (y :: l'). cbn. by rewrite Hy, IH.
Qed.

Lemma result_mapM_id {A} (f : A → result A) (l : list A) :
  Forall (λ x, f x = Ok x) l → result_mapM f l = Ok l.
Proof.
  induction 1 as [|x l Hx _ IH]; [done|]. cbn. by rewrite Hx, IH.
Qed.

Section CleanMore.
Context `{NumericKernels} `{TextParsers}.

Lemma astype_float_shape (df converted : DataFrame rawcell) :
  astype_float df = Ok converted →
  length (values converted) = length (values df).
Proof.
  unfold astype_float.
  destruct (result_mapM _ (block_T _ _)) as [cols|e]; [|done]. cbn [res_bind].
  destruct (result_mapM _ (values df)) as [vals|e] eqn:Hm; [|done].
  cbn. intros [= <-]. cbn. by eapply result_mapM_length.
Qed.

Lemma apply_to_numeric_shape (df : DataFrame rawcell) :
  columns (apply_to_numeric df) = columns df ∧
  length (values (apply_to_numeric df)) = length (index (apply_to_numeric df)).
Proof. unfold apply_to_numeric. cbn. split; [done|]. apply length_block_T. Qed.

Lemma groupby_index_sum_shape (df : DataFrame rawcell) :
  columns (groupby_index_sum df) = columns df ∧
  length (values (groupby_index_sum df)) = length (index (groupby_index_sum df)).
Proof. unfold groupby_index_sum. cbn. split; [done|]. by rewrite length_map. Qed.

(** The labels and the shape after each of the four steps. *)
Lemma clean_and_validate_df_labels (df : DataFrame rawcell) (index_name : string) :
  length (values df) = length (index df) →
  Forall (Forall (λ c, int64_cell c = true)) (values df) →
  ∃ r, outcome (clean_and_validate_df df index_name) = Ok r ∧
       columns r = columns df ∧
       length (values r) = length (index r) ∧
       (∀ g, g ∈ index r ↔ g ∈ index df ∧ g ≠ index_name) ∧
       (NoDup (filter (λ g, g ≠ index_name) (index df)) →
        index r = filter (λ g, g ≠ index_name) (index df)) ∧
       (¬ NoDup (filter (λ g, g ≠ index_name) (index df)) →
        index r = sort_labels (unique_from [] (filter (λ g, g ≠ index_name) (index df)))).
Proof.
  intros Hlen Hint.
  eexists. split; [by apply clean_and_validate_df_steps_int64|].
  set (kept := filter (λ g, g ≠ index_name) (index df)).
  set (df1 := if bool_decide (index_name ∈ index df)
              then drop_label df index_name else df).
  set (df2 := match astype_float df1 with
              | Ok converted => converted
              | Raise _ => apply_to_numeric df1
              end).
  set (df3 := if bool_decide (NoDup (index df2)) then df2 else groupby_index_sum df2).
  assert (H1 : columns df1 = columns df ∧ length (values df1) = length (index df1) ∧
               index df1 = kept).
  { subst df1. case_bool_decide as Hin.
    - destruct (drop_label_index df index_name Hlen) as [Hi Hl]. done.
    - split; [done|]. split; [done|]. unfold kept. symmetry.
      apply filter_all, Forall_forall. by intros g Hg ->. }
  destruct H1 as (H1c & H1l & H1i).
  assert (H2 : columns df2 = columns df ∧ length (values df2) = length (index df2) ∧
               index df2 = kept).
  { subst df2. destruct (astype_float df1) as [c|e] eqn:Ha.
    - pose proof (astype_float_shape _ _ Ha) as Hs.
      apply astype_float_spec in Ha as (Hi & Hc & _).
      rewrite Hi, Hc, Hs. done.
    - destruct (apply_to_numeric_shape df1) as [Hc Hl].
      destruct (apply_to_numeric_spec df1) as [Hi _].
      rewrite Hc, Hl, Hi. done. }
  destruct H2 as (H2c & H2l & H2i).
  assert (H3 : columns df3 = columns df ∧ length (values df3) = length (index df3) ∧
               index df3 = if bool_decide (NoDup kept) then kept
                           else sort_labels (unique_from [] kept)).
  { subst df3. rewrite H2i. case_bool_decide.
    - done.
    - destruct (groupby_index_sum_shape df2) as [Hc Hl].
      rewrite Hc, Hl. split; [done|]. split; [done|].
      unfold groupby_index_sum. cbn [index]. by rewrite H2i. }
  destruct H3 as (H3c & H3l & H3i).
  assert (H4 : ∀ df4, df4 = (if isnull_any df3 then frame_map fillna0_cell df3 else df3) →
               columns df4 = columns df3 ∧ index df4 = index df3 ∧
               length (values df4) = length (values df3)).
  { intros df4 ->. destruct (isnull_any df3); [|done].
    cbn. by rewrite length_map. }
  destruct (H4 _ eq_refl) as (H4c & H4i & H4l).
  rewrite H4c, H4i, H4l, H3c, H3l, H3i.
  split; [done|]. split; [done|]. split; [|split].
  - intros g. case_bool_decide.
    + unfold kept. rewrite list_elem_of_filter. tauto.
    + rewrite sort_labels_perm, elem_of_unique_from.
      unfold kept. rewrite list_elem_of_filter.
      split; [tauto|]. intros ?. split; [tauto|]. apply not_elem_of_nil.
  - intros Hnd. by rewrite bool_decide_eq_true_2.
  - intros Hnd. by rewrite bool_decide_eq_false_2.
Qed.

End CleanMore.

(** [sort_labels] sorts. *)
Lemma insert_label_sorted (x : label) (l : list label) :
  StronglySorted String.le l → StronglySorted String.le (insert_label x l).
Proof.
  induction 1 as [|y l Hs IH Hy]; cbn [insert_label].
  - repeat constructor.
  - destruct (String.leb x y) eqn:Hxy.
    + constructor; [by constructor|].
      assert (Hle : String.le x y) by (unfold String.le; by rewrite Hxy).
      constructor; [done|].
      eapply Forall_impl; [exact Hy|]. intros z Hz. by etrans.
    + constructor; [done|].
      rewrite insert_label_perm. constructor; [|done].
      destruct (total String.le x y) as [Hle|Hle]; [|done].
      unfold String.le in Hle. rewrite Hxy in Hle. done.
Qed.

Lemma sort_labels_sorted (l : list label) : StronglySorted String.le (sort_labels l).
Proof.
  induction l as [|x l IH]; [constructor|]. by apply insert_label_sorted.
Qed.

Section CleanTheorems.
Context `{NumericKernels} `{TextParsers}.

(** What the four steps print, when the strict conversion returns or fails
    with [ValueError]. *)
Lemma clean_and_validate_df_printed (df : DataFrame rawcell) (index_name : string) :
  let df1 := if bool_decide (index_name ∈ index df)
             then drop_label df index_name else df in
  (∀ e, astype_float df1 = Raise e → ∃ msg, e = ValueError msg) →
  let df2 := match astype_float df1 with
             | Ok converted => converted
             | Raise _ => apply_to_numeric df1
             end in
  let df3 := if bool_decide (NoDup (index df2)) then df2 else groupby_index_sum df2 in
  printed (clean_and_validate_df df index_name) =
    (if bool_decide (index_name ∈ index df) then [WarnDroppingArtifact index_name] else [])
    ++ match astype_float df1 with Ok _ => [] | Raise _ => [WarnCoercing] end
    ++ (if bool_decide (NoDup (index df2)) then []
        else [WarnDuplicates (n_duplicated (index df2))])
    ++ (if isnull_any df3 then [WarnFillingNaN] else []).
Proof.
  intros df1 Hve df2 df3. unfold clean_and_validate_df.
  rewrite (printed_py_bind_ok _ df1) by (subst df1; by case_bool_decide).
  f_equal; [by case_bool_decide|].
  rewrite (printed_py_bind_ok _ df2).
  2:{ subst df2. destruct (astype_float df1) as [c|e] eqn:Ha; [done|].
      destruct (Hve e eq_refl) as [msg ->]. done. }
  f_equal.
  { destruct (astype_float df1) as [c|e] eqn:Ha; [done|].
    destruct (Hve e eq_refl) as [msg ->]. done. }
  rewrite (printed_py_bind_ok _ df3) by (subst df3; by case_bool_decide).
  f_equal; [by case_bool_decide|].
  set (df4 := if isnull_any df3 then frame_map fillna0_cell df3 else df3).
  rewrite (printed_py_bind_ok _ df4) by (subst df4; by destruct (isnull_any df3)).
  cbn. rewrite app_nil_r. by destruct (isnull_any df3).
Qed.

(** X11.  On a table with as many rows as row labels whose integer cells
    fit 64 bits, [clean_and_validate_df] does not raise: the cleaned table
    has the columns of the input, one row per row label, a duplicate-free
    index holding exactly the row labels of the input other than
    [index_name], and in every cell a number that is not missing. *)
Theorem clean_and_validate_df_invariant (df : DataFrame rawcell) (index_name : string) :
  length (values df) = length (index df) →
  Forall (Forall (λ c, int64_cell c = true)) (values df) →
  ∃ r, outcome (clean_and_validate_df df index_name) = Ok r ∧
       cleaned_numeric r ∧
       columns r = columns df ∧
       length (values r) = length (index r) ∧
       ∀ g, g ∈ index r ↔ g ∈ index df ∧ g ≠ index_name.
Proof.
  intros Hlen Hint.
  destruct (clean_and_validate_df_labels df index_name Hlen Hint)
    as (r & Hr & Hcols & Hrows & Hidx & _).
  destruct (clean_and_validate_df_numeric df index_name r Hr) as [Hnum _].
  exists r. done.
Qed.

(** X15.  Rows keep their order unless duplicates are collapsed: on a
    table whose integer cells fit 64 bits, when the row labels other than
    [index_name] are distinct the index of the cleaned table is that list
    of labels, in its order; otherwise it is the distinct labels in
    ascending order. *)
Theorem clean_and_validate_df_row_order (df : DataFrame rawcell) (index_name : string) :
  length (values df) = length (index df) →
  Forall (Forall (λ c, int64_cell c = true)) (values df) →
  let kept := filter (λ g, g ≠ index_name) (index df) in
  ∃ r, outcome (clean_and_validate_df df index_name) = Ok r ∧
       (NoDup kept → index r = kept) ∧
       (¬ NoDup kept →
        StronglySorted String.le (index r) ∧ NoDup (index r) ∧ index r ≡ₚ unique_from [] kept).
Proof.
  intros Hlen Hint kept.
  destruct (clean_and_validate_df_labels df index_name Hlen Hint)
    as (r & Hr & _ & _ & _ & Hkeep & Hsort).
  exists r. split; [done|]. split; [done|].
  intros Hdup. rewrite (Hsort Hdup).
  split; [apply sort_labels_sorted|]. split.
  - rewrite sort_labels_perm. apply NoDup_unique_from.
  - apply sort_labels_perm.
Qed.

End CleanTheorems.

Lemma clean_and_validate_df_invariant_witness :
  ∃ r, outcome (@clean_and_validate_df example_kernels example_parsers
                  header_counts "GENE") = Ok r ∧
       cleaned_numeric r ∧ columns r = ["S1"; "S2"].
Proof.
  destruct (@clean_and_validate_df_invariant example_kernels example_parsers
              header_counts "GENE" eq_refl) as (r & Hr & Hnum & Hcols & _).
  - repeat constructor.
  - exists r. split; [exact Hr|]. split; [exact Hnum | exact Hcols].
Defined.

Lemma clean_and_validate_df_row_order_witness :
  ∃ r, outcome (@clean_and_validate_df example_kernels example_parsers
                  header_counts "GENE") = Ok r ∧
       StronglySorted String.le (index r).
Proof.
  destruct (@clean_and_validate_df_row_order example_kernels example_parsers
              header_counts "GENE" eq_refl) as (r & Hr & _ & Hsort).
  - repeat constructor.
  - exists r. split; [exact Hr|]. apply Hsort.
    intros Hnd. apply (bool_decide_pack _) in Hnd. vm_compute in Hnd. exact Hnd.
Defined.

(** ** The strict conversion path *)

Section StrictPath.
Context `{NumericKernels} `{TextParsers}.

Lemma astype_float_cell_convertible (c : rawcell) :
  float_convertible c = true → ∃ y, astype_float_cell c = Ok y.
Proof.
  destruct c as [z|x|s|]; cbn; eauto.
  - intros Hz. apply negb_true_iff in Hz. rewrite Hz. eauto.
  - intros Hs. apply bool_decide_eq_true in Hs as [x Hx]. rewrite Hx. eauto.
Qed.

Lemma astype_float_convertible (df : DataFrame rawcell) :
  Forall (Forall (λ c, float_convertible c = true)) (values df) →
  ∃ converted, astype_float df = Ok converted.
Proof.
  intros Hall. unfold astype_float.
  assert (Hok : ∀ m : list (list rawcell),
            Forall (Forall (λ c, float_convertible c = true)) m →
            ∃ m', result_mapM (result_mapM astype_float_cell) m = Ok m').
  { intros m Hm. apply result_mapM_ok.
    eapply Forall_impl; [exact Hm|]. intros row Hrow.
    apply result_mapM_ok. eapply Forall_impl; [exact Hrow|].
    intros c. apply astype_float_cell_convertible. }
  destruct (Hok (block_T (length (columns df)) (values df))) as [cols ->].
  { by apply Forall_block_T. }
  destruct (Hok (values df) Hall) as [vals ->]. cbn. eauto.
Qed.

Lemma result_mapM_rows {A B} (f : A → result B) (m : list (list A)) (m' : list (list B))
    (n : nat) :
  result_mapM (result_mapM f) m = Ok m' →
  Forall (λ row, length row = n) m → Forall (λ row, length row = n) m'.
Proof.
  revert m'. induction m as [|row m IH]; intros m' Hm Hrows.
  - injection Hm as <-. constructor.
  - cbn in Hm. destruct (result_mapM f row) as [row'|e] eqn:Hrow; [|done]. cbn in Hm.
    destruct (result_mapM (result_mapM f) m) as [rest|e]; [|done]. cbn in Hm.
    injection Hm as <-. apply Forall_cons in Hrows as [Hr Hrows].
    constructor; [|by apply IH].
    apply result_mapM_length in Hrow. lia.
Qed.

Lemma astype_float_wf (df converted : DataFrame rawcell) :
  wf_frame df → astype_float df = Ok converted → wf_frame converted.
Proof.
  intros [Hlen Hrows] Ha.
  pose proof (astype_float_shape _ _ Ha) as Hs.
  pose proof (astype_float_spec _ _ Ha) as (Hi & Hc & _).
  split; [by rewrite Hs, Hi|]. rewrite Hc.
  unfold astype_float in Ha.
  destruct (result_mapM _ (block_T _ _)) as [cols|e]; [|done]. cbn [res_bind] in Ha.
  destruct (result_mapM _ (values df)) as [vals|e] eqn:Hm; [|done].
  cbn in Ha. injection Ha as <-. cbn. by eapply result_mapM_rows.
Qed.

Lemma drop_label_wf {V} (df : DataFrame V) (name : label) :
  wf_frame df → wf_frame (drop_label df name).
Proof.
  intros [Hlen Hrows]. split.
  - by apply drop_label_index.
  - unfold drop_label. cbn [values columns].
    apply Forall_forall. intros row Hrow.
    apply list_elem_of_fmap in Hrow as ([g row'] & -> & Hin).
    apply list_elem_of_filter in Hin as [_ Hin]. apply elem_of_zip_r in Hin.
    rewrite Forall_forall in Hrows. by apply Hrows.
Qed.

(** Summing duplicates in a table of floats gives a table of floats. *)
Lemma groupby_index_sum_float (df : DataFrame rawcell) :
  wf_frame df → index df ≠ [] →
  Forall (Forall (λ c, ∃ x, c = RFloat x)) (values df) →
  Forall (Forall (λ c, ∃ x, c = RFloat x)) (values (groupby_index_sum df)).
Proof.
  intros [Hlen Hrows] Hne Hfloat. unfold groupby_index_sum. cbn [values].
  apply Forall_forall. intros row Hrow.
  change (map ?f ?l) with (f <$> l) in Hrow.
  apply list_elem_of_fmap in Hrow as (g & -> & _).
  apply Forall_forall. intros c Hc.
  apply elem_of_lookup_imap_1 in Hc as (j & ic & -> & Hj).
  change (map ?f ?l) with (f <$> l) in Hj.
  rewrite list_lookup_fmap in Hj.
  destruct (seq 0 (length (columns df)) !! j) as [j'|] eqn:Hseq; [|done].
  apply lookup_seq in Hseq as [-> Hlt]. cbn in Hj. injection Hj as <-.
  destruct (values df) as [|row0 vals] eqn:Hvals.
  { destruct (index df); [done|]. done. }
  apply Forall_cons in Hrows as [Hrow0 _]. apply Forall_cons in Hfloat as [Hf0 _].
  destruct (lookup_lt_is_Some_2 row0 j) as [c0 Hc0]; [lia|].
  rewrite Forall_forall in Hf0.
  destruct (Hf0 c0) as [x ->]; [by eapply list_elem_of_lookup_2|].
  unfold column_values at 1. cbn [omap list_omap]. rewrite Hc0.
  cbn [forallb is_int_cell andb group_sum]. eauto.
Qed.

Lemma fillna_float (df : DataFrame rawcell) :
  Forall (Forall (λ c, ∃ x, c = RFloat x)) (values df) →
  Forall (Forall (λ c, is_float_number c = true))
    (values (if isnull_any df then frame_map fillna0_cell df else df)).
Proof.
  intros Hfloat. destruct (isnull_any df) eqn:Hnull.
  - cbn [frame_map values].
    apply Forall_forall. intros row Hrow.
    change (map ?f ?l) with (f <$> l) in Hrow.
    apply list_elem_of_fmap in Hrow as (row0 & -> & Hrow0).
    apply Forall_forall. intros c Hc.
    change (map ?f ?l) with (f <$> l) in Hc.
    apply list_elem_of_fmap in Hc as (c0 & -> & Hc0).
    rewrite Forall_forall in Hfloat. specialize (Hfloat row0 Hrow0).
    rewrite Forall_forall in Hfloat. destruct (Hfloat c0 Hc0) as [x ->].
    unfold fillna0_cell. cbn [is_missing].
    destruct (PrimFloat.is_nan x) eqn:Hx; cbn; [done|by rewrite Hx].
  - apply isnull_any_false in Hnull.
    apply Forall_forall. intros row Hrow. apply Forall_forall. intros c Hc.
    rewrite Forall_forall in Hfloat. specialize (Hfloat row Hrow).
    rewrite Forall_forall in Hfloat. destruct (Hfloat c Hc) as [x ->].
    rewrite Forall_forall in Hnull. specialize (Hnull row Hrow).
    rewrite Forall_forall in Hnull. specialize (Hnull _ Hc).
    cbn in *. by rewrite Hnull.
Qed.

(** A table that is already clean is returned as it is, silently. *)
Lemma clean_and_validate_df_clean (df : DataFrame rawcell) (index_name : string) :
  cleaned_as_stated df → index_name ∉ index df →
  clean_and_validate_df df index_name = ([], Ok df).
Proof.
  intros [Hnd Hfloat] Hname. unfold clean_and_validate_df.
  rewrite bool_decide_eq_false_2 by done.
  assert (Has : astype_float df = Ok df).
  { unfold astype_float.
    destruct (result_mapM_ok (result_mapM astype_float_cell)
                (block_T (length (columns df)) (values df))) as [cols ->].
    { apply Forall_forall. intros col Hcol. apply result_mapM_ok.
      apply (Forall_block_T _ (length (columns df))) in Hfloat.
      rewrite Forall_forall in Hfloat. specialize (Hfloat col Hcol).
      eapply Forall_impl; [exact Hfloat|].
      intros [z|x|s|]; cbn; try done. eauto. }
    cbn [res_bind]. rewrite result_mapM_id; [by destruct df|].
    eapply Forall_impl; [exact Hfloat|]. intros row Hrow.
    apply result_mapM_id. eapply Forall_impl; [exact Hrow|].
    intros [z|x|s|]; cbn; done. }
  assert (Hnull : isnull_any df = false).
  { unfold isnull_any. apply not_true_is_false. intros Hex.
    apply existsb_exists in Hex as (row & Hrow & Hex).
    apply existsb_exists in Hex as (c & Hc & Hmiss).
    apply list_elem_of_In in Hrow, Hc.
    rewrite Forall_forall in Hfloat. specialize (Hfloat row Hrow).
    rewrite Forall_forall in Hfloat. specialize (Hfloat c Hc).
    destruct c as [z|x|s|]; cbn in *; try done.
    by rewrite Hmiss in Hfloat. }
  unfold py_bind, py_ret. cbn. rewrite Has. cbn.
  rewrite bool_decide_eq_true_2 by done. cbn. by rewrite Hnull.
Qed.

(** X12.  When every cell outside the rows labelled [index_name] is a
    float, a missing value, an integer that [float] converts without
    overflow or a string that Python's [float] reads, the strict conversion
    succeeds: no coercion warning is printed, the cleaned
    table has a duplicate-free index and a float that is not missing in
    every cell, and cleaning it a second time returns it unchanged and
    prints nothing. *)
Theorem clean_and_validate_df_strict (df : DataFrame rawcell) (index_name : string) :
  wf_frame df →
  Forall (λ p, p.1 ≠ index_name → Forall (λ c, float_convertible c = true) p.2)
    (zip (index df) (values df)) →
  ∃ r, outcome (clean_and_validate_df df index_name) = Ok r ∧
       (WarnCoercing ∉ printed (clean_and_validate_df df index_name)) ∧
       cleaned_as_stated r ∧
       clean_and_validate_df r index_name = ([], Ok r).
Proof.
  intros Hwf Hconv.
  set (df1 := if bool_decide (index_name ∈ index df)
              then drop_label df index_name else df).
  assert (Hwf1 : wf_frame df1).
  { subst df1. case_bool_decide; [by apply drop_label_wf|done]. }
  assert (Hconv1 : Forall (Forall (λ c, float_convertible c = true)) (values df1)).
  { subst df1. case_bool_decide as Hin.
    - unfold drop_label. cbn [values]. apply Forall_forall. intros row Hrow.
      apply list_elem_of_fmap in Hrow as ([g row'] & -> & Hp).
      apply list_elem_of_filter in Hp as [Hg Hp].
      rewrite Forall_forall in Hconv. by apply (Hconv _ Hp).
    - apply Forall_forall. intros row Hrow.
      destruct Hwf as [Hlen _].
      apply list_elem_of_lookup_1 in Hrow as [i Hi].
      destruct (lookup_lt_is_Some_2 (index df) i) as [g Hg].
      { rewrite <- Hlen. by eapply lookup_lt_Some. }
      rewrite Forall_forall in Hconv.
      apply (Hconv (g, row)).
      + apply list_elem_of_lookup_2 with i. by rewrite lookup_zip_with, Hg, Hi.
      + cbn. intros ->. apply Hin. by eapply list_elem_of_lookup_2. }
  destruct (astype_float_convertible df1 Hconv1) as [df2 Has].
  pose proof (astype_float_wf _ _ Hwf1 Has) as Hwf2.
  pose proof (astype_float_spec _ _ Has) as (_ & _ & Hfloat2).
  set (df3 := if bool_decide (NoDup (index df2)) then df2 else groupby_index_sum df2).
  assert (Hfloat3 : Forall (Forall (λ c, ∃ x, c = RFloat x)) (values df3)).
  { subst df3. case_bool_decide as Hnd; [done|].
    apply groupby_index_sum_float; [done| |done].
    intros Hnil. apply Hnd. rewrite Hnil. constructor. }
  pose proof (clean_and_validate_df_steps df index_name) as Hout.
  pose proof (clean_and_validate_df_printed df index_name) as Hpr.
  cbn zeta in Hout, Hpr. fold df1 in Hout, Hpr. rewrite Has in Hout, Hpr.
  fold df3 in Hout, Hpr. specialize (Hpr ltac:(done)).
  set (r := if isnull_any df3 then frame_map fillna0_cell df3 else df3) in *.
  destruct (clean_and_validate_df_numeric df index_name r Hout) as [[Hnd _] Hname].
  assert (Hclean : cleaned_as_stated r).
  { split; [done|]. by apply fillna_float. }
  exists r. split; [done|]. split; [|split; [done|]].
  - rewrite Hpr. intros Hin.
    repeat (apply elem_of_app in Hin as [Hin|Hin]);
      repeat case_bool_decide; try destruct (isnull_any df3);
      repeat (apply elem_of_cons in Hin as [Hin|Hin]; [done|]);
      by apply elem_of_nil in Hin.
  - by apply clean_and_validate_df_clean.
Qed.

(** X13.  A table that is already clean (duplicate-free index without
    [index_name], a float that is not missing in every cell) is a fixed
    point: [clean_and_validate_df] returns it unchanged and prints
    nothing. *)
Theorem clean_and_validate_df_fixed_point (df : DataFrame rawcell) (index_name : string) :
  NoDup (index df) → index_name ∉ index df →
  Forall (Forall (λ c, is_float_number c = true)) (values df) →
  clean_and_validate_df df index_name = ([], Ok df).
Proof.
  intros Hnd Hname Hfloat. by apply clean_and_validate_df_clean.
Qed.

End StrictPath.

Lemma clean_and_validate_df_strict_witness :
  ∃ r, outcome (@clean_and_validate_df example_kernels example_parsers
                  header_counts "GENE") = Ok r ∧
       cleaned_as_stated r ∧
       @clean_and_validate_df example_kernels example_parsers r "GENE" = ([], Ok r).
Proof.
  destruct (@clean_and_validate_df_strict example_kernels example_parsers
              header_counts "GENE") as (r & Hr & _ & Hclean & Hfix).
  - split; [reflexivity | repeat constructor].
  - repeat constructor; cbn; intros; try done; repeat constructor.
  - exists r. split; [exact Hr|]. split; [exact Hclean | exact Hfix].
Defined.

Lemma clean_and_validate_df_fixed_point_witness :
  @clean_and_validate_df example_kernels example_parsers
    (mkDF ["g1"; "g2"] ["S1"] [[RFloat 1]; [RFloat 2]]) "GENE" =
  ([], Ok (mkDF ["g1"; "g2"] ["S1"] [[RFloat 1]; [RFloat 2]])).
Proof.
  apply (@clean_and_validate_df_fixed_point example_kernels example_parsers).
  - apply (bool_decide_unpack _). vm_compute. exact I.
  - apply (bool_decide_unpack _). vm_compute. exact I.
  - repeat constructor.
Defined.

(** ** [merge_expression_tables] *)

Lemma py_bind_ret {A} (m : Py A) : py_bind m (λ a, py_ret a) = m.
Proof. destruct m as [out [a|e]]; cbn; [|done]. by rewrite app_nil_r. Qed.

Lemma concat_columns_single (df : DataFrame rawcell) :
  length (values df) = length (index df) → concat_columns [df] = Ok df.
Proof.
  intros Hlen. unfold concat_columns. cbn [forallb].
  rewrite bool_decide_eq_true_2 by done. cbn [andb].
  destruct df as [idx cols vals]. cbn in *. rewrite app_nil_r. do 2 f_equal.
  apply list_eq. intros i. rewrite list_lookup_imap.
  destruct (idx !! i) as [g|] eqn:Hg; cbn.
  - destruct (lookup_lt_is_Some_2 vals i) as [row Hrow].
    { rewrite Hlen. by eapply lookup_lt_Some. }
    rewrite Hrow. cbn. by rewrite app_nil_r.
  - symmetry. apply lookup_ge_None. rewrite Hlen. by apply lookup_ge_None.
Qed.

(** The labels of the concatenation. *)
Lemma concat_columns_labels (dfs : list (DataFrame rawcell)) :
  dfs ≠ [] → Forall (λ df, NoDup (index df)) dfs →
  ∃ combined, concat_columns dfs = Ok combined ∧
    columns combined = dfs ≫= columns ∧
    length (values combined) = length (index combined) ∧
    ∀ g, g ∈ index combined ↔ ∃ df, df ∈ dfs ∧ g ∈ index df.
Proof.
  intros Hne Hnd. unfold concat_columns. destruct dfs as [|first rest]; [done|].
  destruct (forallb (λ df, bool_decide (index df = index first)) (first :: rest)) eqn:Hsame.
  - eexists. split; [reflexivity|]. cbn [index columns values].
    split; [done|]. split; [by rewrite length_imap|].
    intros g. split.
    + intros Hg. exists first. split; [by left|done].
    + intros (df & Hdf & Hg).
      rewrite forallb_forall in Hsame. apply list_elem_of_In in Hdf.
      specialize (Hsame df Hdf). apply bool_decide_eq_true in Hsame. by rewrite <- Hsame.
  - assert (Hall : forallb (λ df, bool_decide (NoDup (index df))) (first :: rest) = true).
    { apply forallb_forall. intros df Hdf. apply list_elem_of_In in Hdf.
      apply bool_decide_eq_true. rewrite Forall_forall in Hnd. by apply Hnd. }
    rewrite Hall. eexists. split; [reflexivity|]. cbn [index columns values].
    split; [done|]. split; [by rewrite length_map|].
    intros g. unfold union_index. rewrite elem_of_unique_from, list_elem_of_bind.
    split.
    + intros [(df & Hg & Hdf) _]. eauto.
    + intros (df & Hdf & Hg). split; [eauto|apply not_elem_of_nil].
Qed.

(** The integers of the concatenation are those of the tables. *)
Lemma concat_columns_int64 (dfs : list (DataFrame rawcell)) (combined : DataFrame rawcell) :
  Forall (λ df, Forall (Forall (λ c, int64_cell c = true)) (values df)) dfs →
  concat_columns dfs = Ok combined →
  Forall (Forall (λ c, int64_cell c = true)) (values combined).
Proof.
  intros Hint. unfold concat_columns. destruct dfs as [|first rest]; [done|].
  assert (Hrow : ∀ (f : DataFrame rawcell → list rawcell),
            (∀ df, df ∈ first :: rest → Forall (λ c, int64_cell c = true) (f df)) →
            Forall (λ c, int64_cell c = true) ((first :: rest) ≫= f)).
  { intros f Hf. apply Forall_forall. intros c Hc.
    apply list_elem_of_bind in Hc as (df & Hc & Hdf).
    specialize (Hf df Hdf). rewrite Forall_forall in Hf. by apply Hf. }
  assert (Hvals : ∀ df row, df ∈ first :: rest → row ∈ values df →
            Forall (λ c, int64_cell c = true) row).
  { intros df row Hdf Hin. rewrite Forall_forall in Hint. specialize (Hint df Hdf).
    rewrite Forall_forall in Hint. by apply Hint. }
  destruct (forallb _ (first :: rest)).
  - intros [= <-]. cbn [values]. apply Forall_forall. intros row Hin.
    apply elem_of_lookup_imap_1 in Hin as (i & g & -> & _).
    apply (Hrow (λ df, default [] (values df !! i))). intros df Hdf.
    destruct (values df !! i) as [r|] eqn:Hr; cbn; [|constructor].
    apply (Hvals df r Hdf). by eapply list_elem_of_lookup_2.
  - destruct (forallb _ (first :: rest)); [|done].
    intros [= <-]. cbn [values]. apply Forall_forall. intros row Hin.
    change (map ?f ?l) with (f <$> l) in Hin.
    apply list_elem_of_fmap in Hin as (g & -> & _).
    apply (Hrow (λ df, row_of df g)). intros df Hdf. unfold row_of.
    destruct (label_matches (index df) (values df) g) as [|[l r] hits] eqn:Hm.
    + apply Forall_forall. intros c Hc. by apply elem_of_replicate in Hc as [-> _].
    + apply (Hvals df r Hdf).
      assert (Hin : (l, r) ∈ label_matches (index df) (values df) g)
        by (rewrite Hm; by left).
      unfold label_matches in Hin. apply list_elem_of_filter in Hin as [_ Hin].
      by apply elem_of_zip_r in Hin.
Qed.

Section MergeTheorems.
Context `{NumericKernels} `{TextParsers}.

(** X14.  Merging a non-empty list of tables with duplicate-free indexes,
    whose integer cells fit 64 bits, returns a table whose columns are the
    columns of the tables, one table after the other, and whose rows are
    the genes that occur in any of the tables, other than the label
    ["GENE"], each once; every cell holds a number that is not missing. *)
Theorem merge_expression_tables_union (dfs : list (DataFrame rawcell)) :
  dfs ≠ [] → Forall (λ df, NoDup (index df)) dfs →
  Forall (λ df, Forall (Forall (λ c, int64_cell c = true)) (values df)) dfs →
  ∃ r, outcome (merge_expression_tables dfs) = Ok r ∧
       cleaned_numeric r ∧
       columns r = dfs ≫= columns ∧
       ∀ g, g ∈ index r ↔ g ≠ "GENE" ∧ ∃ df, df ∈ dfs ∧ g ∈ index df.
Proof.
  intros Hne Hnd Hint.
  destruct (concat_columns_labels dfs Hne Hnd) as (combined & Hcat & Hcols & Hlen & Hidx).
  pose proof (concat_columns_int64 dfs combined Hint Hcat) as Hint'.
  destruct (clean_and_validate_df_labels combined "GENE" Hlen Hint')
    as (r & Hr & Hc & _ & Hi & _).
  destruct (clean_and_validate_df_numeric combined "GENE" r Hr) as [Hnum _].
  exists r. split.
  { unfold merge_expression_tables. destruct dfs as [|df0 dfs0]; [done|].
    rewrite Hcat, py_bind_lift_ok, py_bind_ret. done. }
  split; [done|]. split; [by rewrite Hc|].
  intros g. rewrite Hi, Hidx. tauto.
Qed.

(** X16.  Merging a single table is cleaning it: the same result and the
    same warnings as [clean_and_validate_df] with the index name
    ["GENE"]. *)
Theorem merge_expression_tables_single (df : DataFrame rawcell) :
  length (values df) = length (index df) →
  merge_expression_tables [df] = clean_and_validate_df df "GENE".
Proof.
  intros Hlen. unfold merge_expression_tables.
  rewrite concat_columns_single by done.
  by rewrite py_bind_lift_ok, py_bind_ret.
Qed.

End MergeTheorems.

Lemma merge_expression_tables_union_witness :
  ∃ r, outcome (@merge_expression_tables example_kernels example_parsers
                  [annotated_counts;
                   mkDF ["g3"; "g1"] ["S2"] [[RInt 1]; [RInt 2]]]) = Ok r ∧
       cleaned_numeric r ∧
       columns r = ["S1"; "note"; "S2"].
Proof.
  destruct (@merge_expression_tables_union example_kernels example_parsers
              [annotated_counts; mkDF ["g3"; "g1"] ["S2"] [[RInt 1]; [RInt 2]]])
    as (r & Hr & Hnum & Hcols & _).
  - discriminate.
  - repeat constructor; apply (bool_decide_unpack _); vm_compute; exact I.
  - repeat constructor.
  - exists r. split; [exact Hr|]. split; [exact Hnum | exact Hcols].
Defined.

Lemma merge_expression_tables_single_witness :
  @merge_expression_tables example_kernels example_parsers [header_counts] =
  @clean_and_validate_df example_kernels example_parsers header_counts "GENE".
Proof.
  apply (@merge_expression_tables_single example_kernels example_parsers header_counts).
  reflexivity.
Defined.

(** ** Stripping whitespace *)

Lemma list_ascii_of_string_app (a b : string) :
  String.list_ascii_of_string (a +:+ b) =
  String.list_ascii_of_string a ++ String.list_ascii_of_string b.
Proof.
  induction a as [|c a IH]; [done|].
  change (String c a +:+ b) with (String c (a +:+ b)).
  cbn [String.list_ascii_of_string]. by rewrite IH.
Qed.

Lemma lstrip_chars_blank (pre l : list Ascii.ascii) :
  forallb py_isspace pre = true → lstrip_chars (pre ++ l) = lstrip_chars l.
Proof.
  induction pre as [|c pre IH]; [done|]. cbn. intros Hb.
  apply andb_true_iff in Hb as [-> Hb]. by apply IH.
Qed.

Lemma lstrip_chars_app (l post : list Ascii.ascii) :
  lstrip_chars l ≠ [] → lstrip_chars (l ++ post) = lstrip_chars l ++ post.
Proof.
  induction l as [|c l IH]; [done|]. cbn. destruct (py_isspace c); [apply IH|done].
Qed.

Lemma lstrip_chars_nil (l : list Ascii.ascii) :
  lstrip_chars l = [] → forallb py_isspace l = true.
Proof.
  induction l as [|c l IH]; [done|]. cbn. destruct (py_isspace c); [apply IH|done].
Qed.

Lemma forallb_app_true {A} (f : A → bool) (l1 l2 : list A) :
  forallb f l1 = true → forallb f l2 = true → forallb f (l1 ++ l2) = true.
Proof. intros H1 H2. rewrite forallb_app, H1, H2. done. Qed.

Lemma forallb_reverse {A} (f : A → bool) (l : list A) :
  forallb f l = true → forallb f (reverse l) = true.
Proof.
  intros Hl. apply forallb_forall. intros x Hx.
  rewrite forallb_forall in Hl. apply Hl.
  apply list_elem_of_In. apply list_elem_of_In in Hx. by apply elem_of_reverse.
Qed.

Lemma strip_chars_padded (pre l post : list Ascii.ascii) :
  forallb py_isspace pre = true → forallb py_isspace post = true →
  strip_chars (pre ++ l ++ post) = strip_chars l.
Proof.
  intros Hpre Hpost. unfold strip_chars.
  rewrite lstrip_chars_blank by done.
  destruct (lstrip_chars l) as [|c l'] eqn:Hl.
  - rewrite <- (app_nil_r (l ++ post)), lstrip_chars_blank; [done|].
    apply forallb_app_true; [by apply lstrip_chars_nil|done].
  - rewrite lstrip_chars_app by by rewrite Hl.
    rewrite Hl, reverse_app, lstrip_chars_blank; [done|].
    by apply forallb_reverse.
Qed.

Lemma py_strip_padded (pre s post : string) :
  is_blank pre = true → is_blank post = true →
  py_strip (pre +:+ s +:+ post) = py_strip s.
Proof.
  intros Hpre Hpost. unfold py_strip.
  rewrite !list_ascii_of_string_app. by rewrite strip_chars_padded.
Qed.

Lemma py_strip_blank (s : string) : is_blank s = true → py_strip s = "".
Proof.
  intros Hs. unfold py_strip, strip_chars.
  rewrite <- (app_nil_r (String.list_ascii_of_string s)).
  rewrite lstrip_chars_blank by done. done.
Qed.

(** ** [_parse_condition_row] *)

Lemma row_get_set (row : dict) (k k' : string) (v d : pyval) :
  row_get (dict_set row k v) k' d = if bool_decide (k = k') then v else row_get row k' d.
Proof.
  unfold row_get. case_bool_decide as Hk.
  - subst. by rewrite dict_get_set_eq.
  - by rewrite dict_get_set_ne.
Qed.

Section ParseConditionRow.
Context `{NumericKernels}.

(** X17.  Every row gets a record with the four keys [Combined_Label],
    [Cell_Count_Detail], [Protocol_Detail] and [Stimulation_Detail]; the
    combined label is the cell type, the protocol detail and the
    stimulation detail joined by underscores, each taken from its three
    possible values.  The stimulation [LPS_UnknownDetail] is only given to
    a sample of unknown cell count, or to a single cell with a protocol
    that is not recognised: never to a bulk sample. *)
Theorem parse_condition_row_labels (row : dict) :
  ∃ part1 part2 part3,
    _parse_condition_row row =
      [("Combined_Label", PStr (part1 +:+ "_" +:+ part2 +:+ "_" +:+ part3));
       ("Cell_Count_Detail",
        PStr (py_strip (py_str (row_get row "cell_count" (PStr "Unknown")))));
       ("Protocol_Detail", PStr part2);
       ("Stimulation_Detail", PStr part3)] ∧
    part1 ∈ ["SC"; "Bulk_10k"; "Unknown_Cells"] ∧
    part2 ∈ ["MB_Protocol"; "Std_Protocol"; "Other_Protocol"] ∧
    part3 ∈ ["LPS_4h"; "LPS_UnknownDetail"; "Unstimulated"] ∧
    (part3 = "LPS_UnknownDetail" →
     part1 = "Unknown_Cells" ∨ (part1 = "SC" ∧ part2 = "Other_Protocol")).
Proof.
  unfold _parse_condition_row. cbv zeta.
  generalize (py_strip (py_str (row_get row "cell_count" (PStr "Unknown")))).
  generalize (py_strip (py_str (row_get row "protocol" (PStr "")))).
  generalize (py_strip (py_str (row_get row "source_name" (PStr "")))).
  generalize (py_strip (py_str (row_get row "treatment" (PStr "")))).
  intros treatment source protocol cell_count.
  destruct (py_in "1 cell" cell_count); destruct (py_in "10,000 cells" cell_count);
    destruct (py_in "molecular barcodes (MB)" protocol);
    destruct (bool_decide (protocol = "") || bool_decide (protocol = "nan"));
    destruct (py_in "BMDC (4h LPS stim)" source);
    destruct (bool_decide (treatment = "LPS-stimulation") &&
              (bool_decide (source = "") || bool_decide (source = "nan")));
    cbn [andb orb]; eexists _, _, _;
    (split; [reflexivity|]);
    (split; [apply (bool_decide_unpack _); vm_compute; exact I|]);
    (split; [apply (bool_decide_unpack _); vm_compute; exact I|]);
    (split; [apply (bool_decide_unpack _); vm_compute; exact I|]);
    intros Heq; first [discriminate Heq | by left | by right].
Qed.

Lemma py_str_unannotated (v : option pyval) (fallback : string) :
  float_str nan = "nan" → unannotated v → fallback = "" →
  py_strip (py_str (match v with Some x => x | None => PStr fallback end)) = "" ∨
  py_strip (py_str (match v with Some x => x | None => PStr fallback end)) = "nan".
Proof.
  intros Hnan [->|[->|(s & -> & Hs)]] ->.
  - left. reflexivity.
  - right. cbn [py_str]. rewrite Hnan. reflexivity.
  - left. cbn [py_str]. by apply py_strip_blank.
Qed.

(** X18.  A missing annotation is read as its fallback: when the protocol,
    the source name and the treatment of a row are absent, NaN or blank
    (with [str(nan)] being ['nan']), the protocol is [Std_Protocol] and the
    stimulation is [Unstimulated], whatever the cell count says. *)
Theorem parse_condition_row_unannotated (row : dict) :
  float_str nan = "nan" →
  unannotated (dict_get row "protocol") →
  unannotated (dict_get row "source_name") →
  unannotated (dict_get row "treatment") →
  dict_get (_parse_condition_row row) "Protocol_Detail" = Some (PStr "Std_Protocol") ∧
  dict_get (_parse_condition_row row) "Stimulation_Detail" = Some (PStr "Unstimulated").
Proof.
  intros Hnan Hp Hs Ht.
  unfold _parse_condition_row. cbv zeta. unfold row_get.
  pose proof (py_str_unannotated _ "" Hnan Hp eq_refl) as Hpv.
  pose proof (py_str_unannotated _ "" Hnan Hs eq_refl) as Hsv.
  pose proof (py_str_unannotated _ "" Hnan Ht eq_refl) as Htv.
  revert Hpv Hsv Htv.
  generalize (py_strip (py_str (match dict_get row "protocol" with
                                | Some v => v | None => PStr "" end))).
  generalize (py_strip (py_str (match dict_get row "source_name" with
                                | Some v => v | None => PStr "" end))).
  generalize (py_strip (py_str (match dict_get row "treatment" with
                                | Some v => v | None => PStr "" end))).
  generalize (py_strip (py_str (match dict_get row "cell_count" with
                                | Some v => v | None => PStr "Unknown" end))).
  intros cell_count treatment source protocol [-> | ->] [-> | ->] [-> | ->];
    destruct (py_in "1 cell" cell_count); destruct (py_in "10,000 cells" cell_count);
    split; reflexivity.
Qed.

(** X19.  Whitespace around an annotation does not matter: a row in which
    a text annotation is padded with whitespace on either side gets the
    same record as the row with the annotation unpadded. *)
Theorem parse_condition_row_padding (row : dict) (key pre s post : string) :
  is_blank pre = true → is_blank post = true →
  _parse_condition_row (dict_set row key (PStr (pre +:+ s +:+ post))) =
  _parse_condition_row (dict_set row key (PStr s)).
Proof.
  intros Hpre Hpost.
  assert (Hget : ∀ k d,
    py_strip (py_str (row_get (dict_set row key (PStr (pre +:+ s +:+ post))) k d)) =
    py_strip (py_str (row_get (dict_set row key (PStr s)) k d))).
  { intros k d. rewrite !row_get_set. case_bool_decide; [|done].
    cbn [py_str]. by apply py_strip_padded. }
  unfold _parse_condition_row. cbv zeta. by rewrite !Hget.
Qed.

End ParseConditionRow.

Lemma parse_condition_row_unannotated_witness :
  dict_get (@_parse_condition_row example_kernels
              [("cell_count", PStr "1 cell"); ("protocol", PFloat nan);
               ("source_name", PStr " ")]) "Protocol_Detail"
    = Some (PStr "Std_Protocol") ∧
  dict_get (@_parse_condition_row example_kernels
              [("cell_count", PStr "1 cell"); ("protocol", PFloat nan);
               ("source_name", PStr " ")]) "Stimulation_Detail"
    = Some (PStr "Unstimulated").
Proof.
  apply (@parse_condition_row_unannotated example_kernels).
  - reflexivity.
  - right. left. reflexivity.
  - right. right. exists " ". split; reflexivity.
  - left. reflexivity.
Defined.

Lemma parse_condition_row_padding_witness :
  @_parse_condition_row example_kernels
    (dict_set sra_row_example "treatment" (PStr (" " +:+ "LPS-stimulation" +:+ "  "))) =
  @_parse_condition_row example_kernels
    (dict_set sra_row_example "treatment" (PStr "LPS-stimulation")).
Proof.
  apply (@parse_condition_row_padding example_kernels); reflexivity.
Defined.

(** ** The processing steps in sequence *)

Lemma submatrix_wf {V} (df : DataFrame V) (rows cols : list nat) :
  wf_frame df →
  Forall (λ p, p < length (index df)) rows →
  Forall (λ p, p < length (columns df)) cols →
  wf_frame (submatrix df rows cols).
Proof.
  intros [Hlen Hrows] Hr Hc. unfold submatrix. split; cbn [index columns values].
  - rewrite length_map, !select_at_length_le; [done|done|by rewrite Hlen].
  - apply Forall_forall. intros row Hrow.
    change (map ?f ?l) with (f <$> l) in Hrow.
    apply list_elem_of_fmap in Hrow as (row0 & -> & Hrow0).
    unfold select_at in Hrow0. apply list_elem_of_omap in Hrow0 as (p & _ & Hp).
    apply list_elem_of_lookup_2 in Hp.
    rewrite Forall_forall in Hrows. specialize (Hrows row0 Hp).
    rewrite !select_at_length_le; [done|done|by rewrite Hrows].
Qed.

Lemma frame_map_wf {V W} (f : V → W) (df : DataFrame V) :
  wf_frame df → wf_frame (frame_map f df).
Proof.
  intros [Hlen Hrows]. split; cbn [frame_map index columns values].
  - by rewrite length_map.
  - apply Forall_forall. intros row Hrow.
    change (map ?f ?l) with (f <$> l) in Hrow.
    apply list_elem_of_fmap in Hrow as (row0 & -> & Hrow0).
    rewrite length_map. rewrite Forall_forall in Hrows. by apply Hrows.
Qed.

Section Pipeline.
Context `{NumericKernels} `{SkLearn} `{StandardScaler}.

Lemma log_transform_frame_map (df : DataFrame float) (method : string) :
  empty df = false →
  ∃ f, log_transform df method = frame_map f df.
Proof.
  intros He. unfold log_transform. rewrite He. case_bool_decide.
  - exists (λ x, np_log2 (PrimFloat.add x 1%float)).
    unfold frame_map. cbn. by rewrite map_map, (map_ext _ _ (λ row, map_map _ _ row)).
  - by exists np_log1p.
Qed.

(** X8.  The steps of the pipeline keep the samples: when
    [filter_tpm_matrix] returns a non-empty matrix of a well-formed input
    with distinct gene and sample labels, then log-transforming it and
    selecting at least one highly variable gene succeed and give non-empty
    matrices with the sample labels of the filtered matrix as columns;
    whenever [scale_data] returns on the selection (the scaler may refuse
    it, for instance for an infinite logarithm), the scaled matrix is not
    empty and has the same genes and samples; and whenever
    [run_pca_pipeline] then returns, the PCA coordinates are indexed by
    exactly the samples of the QC table, in the same order. *)
Theorem pipeline_keeps_samples (df : DataFrame float) (min_tpm : float)
    (min_genes_per_sample min_samples_per_gene : Z) (method : string)
    (n_top_genes n_components : Z) (df_filtered : DataFrame float)
    (qc_metrics : DataFrame pyval) :
  wf_frame df → NoDup (index df) → NoDup (columns df) →
  outcome (filter_tpm_matrix df min_tpm min_genes_per_sample min_samples_per_gene) =
    Ok (df_filtered, qc_metrics) →
  empty df_filtered = false →
  (0 < n_top_genes)%Z →
  ∃ df_hvg hvg_metrics,
    select_highly_variable_genes (log_transform df_filtered method) n_top_genes =
      Ok (df_hvg, hvg_metrics) ∧
    empty df_hvg = false ∧
    columns (log_transform df_filtered method) = columns df_filtered ∧
    columns df_hvg = columns df_filtered ∧
    index qc_metrics = columns df_filtered ∧
    ∀ df_scaled, scale_data df_hvg = Ok df_scaled →
      empty df_scaled = false ∧
      index df_scaled = index df_hvg ∧
      columns df_scaled = columns df_filtered ∧
      ∀ df_pca explained pca,
        run_pca_pipeline df_scaled n_components = Ok (df_pca, explained, pca) →
        index df_pca = index qc_metrics.
Proof.
  intros Hwf Hndi Hndc Hout He1 Hn.
  (* the filter *)
  set (kept := surviving_samples df min_tpm min_genes_per_sample).
  set (genes := surviving_genes df min_tpm min_samples_per_gene kept).
  assert (Hres : df_filtered = submatrix df genes kept ∧
                 index qc_metrics = columns df_filtered).
  { destruct (empty df) eqn:He.
    { rewrite filter_tpm_matrix_empty in Hout by done.
      injection Hout as <- _. done. }
    destruct (decide (select_at kept (columns df) = [])) as [Hnone|Hsome].
    { rewrite filter_tpm_matrix_none_pass in Hout by done.
      injection Hout as <- _. done. }
    rewrite filter_tpm_matrix_qc in Hout; [|done|done|done|].
    - cbn in Hout. by injection Hout as <- <-.
    - apply Forall_forall. intros k Hk. apply NoDup_occurs_once; [done|].
      unfold select_at in Hk. apply list_elem_of_omap in Hk as (p & _ & Hp).
      by apply list_elem_of_lookup_2 in Hp. }
  destruct Hres as [Hres Hqc].
  assert (Hwf1 : wf_frame df_filtered).
  { rewrite Hres. apply submatrix_wf; [done| |].
    - apply surviving_genes_positions.
    - apply surviving_samples_positions. }
  assert (Hnd1 : NoDup (index df_filtered)).
  { rewrite Hres. cbn [submatrix index].
    eapply sublist_NoDup; [exact Hndi|].
    apply select_at_sublist, surviving_genes_positions. }
  (* the log transform *)
  destruct (log_transform_frame_map df_filtered method He1) as [f Hlog].
  set (df_log := log_transform df_filtered method) in *.
  assert (Hwf2 : wf_frame df_log) by (rewrite Hlog; by apply frame_map_wf).
  assert (Hidx2 : index df_log = index df_filtered) by by rewrite Hlog.
  assert (Hcols2 : columns df_log = columns df_filtered) by by rewrite Hlog.
  assert (He2 : empty df_log = false).
  { unfold empty. rewrite Hidx2, Hcols2. exact He1. }
  (* the selection *)
  destruct (select_highly_variable_genes_unfold df_log n_top_genes Hwf2 He2)
    as (hits & metrics & Hsel & Hall & _).
  { by rewrite Hidx2. }
  cbn zeta in Hall.
  set (df_hvg := mkDF hits.*1 (columns df_log) hits.*2) in *.
  assert (Hwf3 : wf_frame df_hvg).
  { unfold df_hvg. split; cbn [index columns values]; [by rewrite !length_fmap|].
    apply Forall_forall. intros row Hrow.
    apply list_elem_of_fmap in Hrow as ([g row'] & -> & Hhit).
    apply list_elem_of_lookup_1 in Hhit as [i Hi].
    destruct (Forall2_lookup_l _ _ _ _ _ Hall Hi) as (e & _ & _ & _ & Hzip).
    apply elem_of_zip_r in Hzip. cbn in *.
    destruct Hwf2 as [_ Hrows2]. rewrite Forall_forall in Hrows2. by apply Hrows2. }
  assert (He3 : empty df_hvg = false).
  { unfold empty, df_hvg. cbn [index columns]. rewrite Hcols2.
    apply orb_false_intro.
    - apply bool_decide_eq_false. intros Hnil.
      apply (f_equal length) in Hnil. rewrite length_fmap in Hnil.
      apply Forall2_length in Hall. rewrite Hall in Hnil.
      rewrite length_take in Hnil.
      pose proof (sort_desc_perm snd
        (zip (index df_log) (map gene_dispersion (values df_log)))) as Hp.
      apply Permutation_length in Hp. rewrite Hp in Hnil.
      rewrite length_zip_with, length_map in Hnil.
      destruct Hwf2 as [Hl2 _]. rewrite Hl2 in Hnil.
      assert (index df_log ≠ []) by by apply empty_false_index.
      destruct (index df_log); [done|]. cbn in Hnil. lia.
    - apply orb_false_elim in He1 as [_ Hc]. exact Hc. }
  exists df_hvg, metrics.
  split; [done|]. split; [done|]. split; [done|]. split; [done|]. split; [done|].
  (* the scaling *)
  intros df_scaled Hscaled.
  rewrite (scale_data_rows df_hvg Hwf3 He3) in Hscaled.
  destruct (scaler_check (frame_T df_hvg)) as [[]|e]; [|done].
  injection Hscaled as <-.
  set (df_scaled := mkDF (index df_hvg) (columns df_hvg) (map standardize (values df_hvg))).
  assert (He4 : empty df_scaled = false) by exact He3.
  split; [done|]. split; [done|]. split; [done|].
  (* the PCA *)
  intros df_pca explained pca Hpca. unfold run_pca_pipeline in Hpca.
  match type of Hpca with
  | context [empty ?d] => change (empty d) with (empty df_scaled) in Hpca
  end.
  rewrite He4 in Hpca.
  destruct (PCA_fit_transform _ _) as [[X_pca evr]|e]; [|done].
  unfold frame_of_values in Hpca.
  destruct (_ && _); [|done].
  injection Hpca as <- _ _. cbn [index frame_T]. by rewrite Hqc.
Qed.

End Pipeline.

Lemma pipeline_keeps_samples_witness :
  ∃ df_hvg hvg_metrics df_scaled,
    @select_highly_variable_genes example_kernels
      (@log_transform example_kernels (mkDF ["g1"] ["s1"; "s3"] [[2; 5]]%float) "log1p") 1
      = Ok (df_hvg, hvg_metrics) ∧
    @scale_data example_scaler df_hvg = Ok df_scaled ∧
    columns df_scaled = ["s1"; "s3"].
Proof.
  destruct (@pipeline_keeps_samples example_kernels example_sklearn example_scaler
              tpm_example 1%float 2 2 "log1p" 1 2
              (mkDF ["g1"] ["s1"; "s3"] [[2; 5]]%float)
              (mkDF ["s1"; "s3"] ["n_genes_detected"; "total_tpm"]
                 [[PInt 2; PFloat 2]; [PInt 2; PFloat 5]]))
    as (df_hvg & metrics & Hsel & _ & _ & _ & _ & Hscaled).
  - split; [reflexivity | repeat constructor].
  - apply (bool_decide_unpack _). vm_compute. exact I.
  - apply (bool_decide_unpack _). vm_compute. exact I.
  - vm_compute. reflexivity.
  - reflexivity.
  - lia.
  - assert (Hhvg : df_hvg = mkDF ["g1"] ["s1"; "s3"] [[2; 5]]%float).
    { vm_compute in Hsel. by injection Hsel as <- _. }
    destruct (@scale_data example_scaler df_hvg) as [df_scaled|e] eqn:Hrun.
    + destruct (Hscaled df_scaled eq_refl) as (_ & _ & Hcols & _).
      exists df_hvg, metrics, df_scaled.
      split; [exact Hsel|]. split; [exact Hrun | exact Hcols].
    + rewrite Hhvg in Hrun. vm_compute in Hrun. discriminate.
Defined.
